(** * Cribb backend: the pantry ledger

    A shallow embedding of the pantry handlers of the Cribb backend
    (handlers/pantry.go, the category handlers of the same package and
    models/pantry_category.go) together with the properties of the
    quantity ledger, the derived notifications and the audit trail.

    Conventions of the embedding.
    - A MongoDB collection is the list of its documents in natural
      (insertion) order: [FindOne] returns the first document that passes
      the filter, [InsertOne] appends, [UpdateOne] rewrites the first
      match, [DeleteMany] filters.
    - A handler is a function from the decoded request and the store to a
      response and the next store.  Handlers run one at a time; the store
      itself never fails (no transient errors).
    - [float64] quantities are rationals ([Q]): the handlers only compare
      quantities and subtract a smaller from a larger one.
    - [time.Time] is the number of seconds since the zero time
      (0001-01-01T00:00:00Z), so [IsZero] is a test against 0.
    - [primitive.ObjectID] is the number written by its 24 hex digits. *)

From Stdlib Require Import List String Ascii Bool ZArith NArith QArith Lia.
From Stdlib Require Import Sorted Permutation.
From Stdlib Require OrderedTypeEx.
Import ListNotations.

Local Open Scope string_scope.
Local Open Scope bool_scope.

(** ** Identifiers, time, strings *)

Definition ObjectID := N.
Definition Time := Z.

Definition IsZero (t : Time) : bool := (t =? 0)%Z.

Definition hexDigit (c : ascii) : option N :=
  let n := N_of_ascii c in
  if (48 <=? n)%N && (n <=? 57)%N then Some (n - 48)%N
  else if (97 <=? n)%N && (n <=? 102)%N then Some (n - 87)%N
  else if (65 <=? n)%N && (n <=? 70)%N then Some (n - 55)%N
  else None.

Fixpoint hexValue (acc : N) (s : string) : option N :=
  match s with
  | EmptyString => Some acc
  | String c rest =>
      match hexDigit c with
      | Some d => hexValue (16 * acc + d)%N rest
      | None => None
      end
  end.

(** [primitive.ObjectIDFromHex]: exactly 24 hex digits, either case. *)
Definition ObjectIDFromHex (s : string) : option ObjectID :=
  if (String.length s =? 24)%nat then hexValue 0%N s else None.

Definition isSpace (c : ascii) : bool :=
  let n := N_of_ascii c in
  ((9 <=? n)%N && (n <=? 13)%N) || (n =? 32)%N.

Fixpoint trimLeft (s : string) : string :=
  match s with
  | String c rest => if isSpace c then trimLeft rest else s
  | EmptyString => EmptyString
  end.

Fixpoint trimRight (s : string) : string :=
  match s with
  | EmptyString => EmptyString
  | String c rest =>
      match trimRight rest with
      | EmptyString => if isSpace c then EmptyString else String c EmptyString
      | r => String c r
      end
  end.

(** [strings.TrimSpace] on ASCII text (tab, newline, vertical tab, form
    feed, carriage return and space are the white space characters). *)
Definition TrimSpace (s : string) : string := trimRight (trimLeft s).

(** [strings.TrimPrefix]. *)
Definition TrimPrefix (s p : string) : string :=
  if String.prefix p s
  then String.substring (String.length p) (String.length s - String.length p) s
  else s.

Definition toLower (c : ascii) : ascii :=
  let n := N_of_ascii c in
  if (65 <=? n)%N && (n <=? 90)%N then ascii_of_N (n + 32) else c.

Fixpoint lowerString (s : string) : string :=
  match s with
  | EmptyString => EmptyString
  | String c rest => String (toLower c) (lowerString rest)
  end.

(** ** Documents *)

Inductive PantryCategoryType := CategoryTypePredefined | CategoryTypeCustom.

Definition PantryCategoryType_eqb (a b : PantryCategoryType) : bool :=
  match a, b with
  | CategoryTypePredefined, CategoryTypePredefined => true
  | CategoryTypeCustom, CategoryTypeCustom => true
  | _, _ => false
  end.

Definition PantryCategoryType_string (t : PantryCategoryType) : string :=
  match t with
  | CategoryTypePredefined => "predefined"
  | CategoryTypeCustom => "custom"
  end.

Record PantryCategory := {
  cat_ID : ObjectID;
  cat_Name : string;
  cat_Type : PantryCategoryType;
  cat_GroupID : option ObjectID;
  cat_CreatedBy : option ObjectID;
  cat_CreatedAt : Time;
  cat_IsActive : bool
}.

(** The fields of [models.User] and [models.Group] the pantry handlers read. *)
Record User := {
  user_ID : ObjectID;
  user_Name : string;
  user_GroupID : ObjectID
}.

Record Group := {
  group_ID : ObjectID;
  group_Name : string
}.

Record PantryItem := {
  item_ID : ObjectID;
  item_GroupID : ObjectID;
  item_Name : string;
  item_Quantity : Q;
  item_Unit : string;
  item_CategoryID : ObjectID;
  item_ExpirationDate : Time;
  item_AddedBy : ObjectID;
  item_CreatedAt : Time;
  item_UpdatedAt : Time
}.

Inductive NotificationType :=
  | NotificationTypeLowStock
  | NotificationTypeOutOfStock
  | NotificationTypeExpiringSoon.

Definition NotificationType_eqb (a b : NotificationType) : bool :=
  match a, b with
  | NotificationTypeLowStock, NotificationTypeLowStock => true
  | NotificationTypeOutOfStock, NotificationTypeOutOfStock => true
  | NotificationTypeExpiringSoon, NotificationTypeExpiringSoon => true
  | _, _ => false
  end.

Record PantryNotification := {
  notif_ID : ObjectID;
  notif_GroupID : ObjectID;
  notif_ItemID : ObjectID;
  notif_ItemName : string;
  notif_Type : NotificationType;
  notif_Message : string;
  notif_IsRead : bool;
  notif_CreatedAt : Time
}.

Inductive HistoryAction := ActionAdd | ActionUse | ActionRemove.

Record PantryHistory := {
  hist_ID : ObjectID;
  hist_GroupID : ObjectID;
  hist_ItemID : ObjectID;
  hist_ItemName : string;
  hist_Action : HistoryAction;
  hist_Quantity : Q;
  hist_UserID : ObjectID;
  hist_UserName : string;
  hist_Timestamp : Time
}.

(** ** The store *)

Record DB := {
  users : list User;
  groups : list Group;
  pantry_categories : list PantryCategory;
  pantry_items : list PantryItem;
  pantry_notifications : list PantryNotification;
  pantry_history : list PantryHistory;
  (** source of the ObjectIDs the driver gives to inserted documents *)
  next_id : ObjectID
}.

Definition with_items (db : DB) (l : list PantryItem) : DB :=
  {| users := users db; groups := groups db;
     pantry_categories := pantry_categories db;
     pantry_items := l;
     pantry_notifications := pantry_notifications db;
     pantry_history := pantry_history db;
     next_id := next_id db |}.

Definition with_notifications (db : DB) (l : list PantryNotification) : DB :=
  {| users := users db; groups := groups db;
     pantry_categories := pantry_categories db;
     pantry_items := pantry_items db;
     pantry_notifications := l;
     pantry_history := pantry_history db;
     next_id := next_id db |}.

Definition with_history (db : DB) (l : list PantryHistory) : DB :=
  {| users := users db; groups := groups db;
     pantry_categories := pantry_categories db;
     pantry_items := pantry_items db;
     pantry_notifications := pantry_notifications db;
     pantry_history := l;
     next_id := next_id db |}.

Definition with_categories (db : DB) (l : list PantryCategory) : DB :=
  {| users := users db; groups := groups db;
     pantry_categories := l;
     pantry_items := pantry_items db;
     pantry_notifications := pantry_notifications db;
     pantry_history := pantry_history db;
     next_id := next_id db |}.

Definition with_next_id (db : DB) (n : ObjectID) : DB :=
  {| users := users db; groups := groups db;
     pantry_categories := pantry_categories db;
     pantry_items := pantry_items db;
     pantry_notifications := pantry_notifications db;
     pantry_history := pantry_history db;
     next_id := n |}.

(** [FindOne]: the first document that passes the filter, or
    [mongo.ErrNoDocuments] ([None]). *)
Definition FindOne {A : Type} (filter : A -> bool) (coll : list A) : option A :=
  List.find filter coll.

(** [UpdateOne]: rewrite the first document that passes the filter. *)
Fixpoint UpdateOne {A : Type} (filter : A -> bool) (set : A -> A)
    (coll : list A) : list A :=
  match coll with
  | [] => []
  | d :: rest =>
      if filter d then set d :: rest else d :: UpdateOne filter set rest
  end.

(** [DeleteMany]: drop every document that passes the filter. *)
Definition DeleteMany {A : Type} (filter : A -> bool) (coll : list A) : list A :=
  List.filter (fun d => negb (filter d)) coll.

(** [DeleteOne]: drop the first document that passes the filter; the
    result carries [DeletedCount]. *)
Fixpoint DeleteOne {A : Type} (filter : A -> bool) (coll : list A)
    : list A * nat :=
  match coll with
  | [] => ([], 0%nat)
  | d :: rest =>
      if filter d then (rest, 1%nat)
      else let (rest', n) := DeleteOne filter rest in (d :: rest', n)
  end.

(** [CountDocuments]. *)
Definition CountDocuments {A : Type} (filter : A -> bool) (coll : list A) : nat :=
  List.length (List.filter filter coll).

(** ** HTTP plumbing *)

Record UserClaims := { claims_ID : string }.

(** What a handler reads of [*http.Request]: the method, the URL path, the
    query parameters (the empty string for an absent one), the claims the
    auth middleware left in the context and the decoded JSON body ([None]
    when decoding fails). *)
Record HttpRequest (B : Type) := {
  Method : string;
  URLPath : string;
  Query : string -> string;
  Claims : option UserClaims;
  Body : option B
}.
Arguments Method {B} _.
Arguments URLPath {B} _.
Arguments Query {B} _ _.
Arguments Claims {B} _.
Arguments Body {B} _.

Inductive Response (A : Type) :=
  | HttpError (msg : string) (status : nat)
  | HttpOK (status : nat) (body : A).
Arguments HttpError {A} msg status.
Arguments HttpOK {A} status body.

Definition StatusOK := 200%nat.
Definition StatusBadRequest := 400%nat.
Definition StatusUnauthorized := 401%nat.
Definition StatusForbidden := 403%nat.
Definition StatusNotFound := 404%nat.
Definition StatusMethodNotAllowed := 405%nat.
Definition StatusConflict := 409%nat.
Definition StatusInternalServerError := 500%nat.

(** Early returns of a handler. *)
Notation "'guard' c 'else' e ; k" := (if c then k else e)
  (at level 10, c at level 200, e at level 200, k at level 200,
   only parsing).
Notation "'let?' x ':=' o 'else' e ; k" :=
  (match o with Some x => k | None => e end)
  (at level 10, x name, o at level 200, e at level 200, k at level 200,
   only parsing).

(** ** Model helpers that the handlers call *)

Definition secondsPerDay : Z := 86400.

(** Modelled from the spec: [models.CreatePantryItem] is not part of the
    sources at hand.  The spec's PantryItem carries the owning group, name,
    quantity, unit, category reference, optional expiration timestamp,
    creator and created/updated timestamps; the constructor stores its
    arguments as they are and stamps both times.  The id is given by the
    store on insertion. *)
Definition CreatePantryItem (now : Time) (groupID : ObjectID) (name : string)
    (quantity : Q) (unit : string) (categoryID : ObjectID)
    (expirationDate : Time) (addedBy : ObjectID) : PantryItem :=
  {| item_ID := 0%N; item_GroupID := groupID; item_Name := name;
     item_Quantity := quantity; item_Unit := unit;
     item_CategoryID := categoryID; item_ExpirationDate := expirationDate;
     item_AddedBy := addedBy; item_CreatedAt := now; item_UpdatedAt := now |}.

(** Modelled from the spec: [PantryItem.UpdateQuantity] is not part of the
    sources at hand; it sets the quantity and the update time. *)
Definition UpdateQuantity (now : Time) (it : PantryItem) (q : Q) : PantryItem :=
  {| item_ID := item_ID it; item_GroupID := item_GroupID it;
     item_Name := item_Name it; item_Quantity := q; item_Unit := item_Unit it;
     item_CategoryID := item_CategoryID it;
     item_ExpirationDate := item_ExpirationDate it;
     item_AddedBy := item_AddedBy it; item_CreatedAt := item_CreatedAt it;
     item_UpdatedAt := now |}.

(** Modelled from the spec: [PantryItem.IsExpiringSoon] is not part of the
    sources at hand.  The spec: an item that carries a non-empty expiration
    timestamp and falls within the expiring-soon window of the given
    number of days. *)
Definition IsExpiringSoon (now : Time) (it : PantryItem) (days : Z) : bool :=
  negb (IsZero (item_ExpirationDate it))
  && (item_ExpirationDate it <=? now + days * secondsPerDay)%Z.

(** Modelled from the spec: [PantryItem.IsExpired] is not part of the
    sources at hand.  The spec: the expiration timestamp is in the past. *)
Definition IsExpired (now : Time) (it : PantryItem) : bool :=
  negb (IsZero (item_ExpirationDate it)) && (item_ExpirationDate it <? now)%Z.

(** Modelled from the spec: [models.CreatePantryNotification] is not part
    of the sources at hand.  The spec's PantryNotification carries group,
    item reference, denormalized item name, type, message, read flag and
    creation time; a new notification is unread. *)
Definition CreatePantryNotification (now : Time) (groupID itemID : ObjectID)
    (itemName : string) (ty : NotificationType) (message : string)
    : PantryNotification :=
  {| notif_ID := 0%N; notif_GroupID := groupID; notif_ItemID := itemID;
     notif_ItemName := itemName; notif_Type := ty; notif_Message := message;
     notif_IsRead := false; notif_CreatedAt := now |}.

Definition item_with_ID (it : PantryItem) (id : ObjectID) : PantryItem :=
  {| item_ID := id; item_GroupID := item_GroupID it;
     item_Name := item_Name it; item_Quantity := item_Quantity it;
     item_Unit := item_Unit it; item_CategoryID := item_CategoryID it;
     item_ExpirationDate := item_ExpirationDate it;
     item_AddedBy := item_AddedBy it; item_CreatedAt := item_CreatedAt it;
     item_UpdatedAt := item_UpdatedAt it |}.

Definition notif_with_ID (n : PantryNotification) (id : ObjectID)
    : PantryNotification :=
  {| notif_ID := id; notif_GroupID := notif_GroupID n;
     notif_ItemID := notif_ItemID n; notif_ItemName := notif_ItemName n;
     notif_Type := notif_Type n; notif_Message := notif_Message n;
     notif_IsRead := notif_IsRead n; notif_CreatedAt := notif_CreatedAt n |}.

(** [InsertOne] on a document without id: the driver stamps a fresh
    ObjectID, the document goes to the end of the collection. *)
Definition InsertOne_item (db : DB) (it : PantryItem) : ObjectID * DB :=
  let id := next_id db in
  (id, with_next_id (with_items db (pantry_items db ++ [item_with_ID it id]))
         (N.succ id)).

Definition InsertOne_notification (db : DB) (n : PantryNotification) : DB :=
  let id := next_id db in
  with_next_id
    (with_notifications db (pantry_notifications db ++ [notif_with_ID n id]))
    (N.succ id).

Definition InsertOne_history (db : DB) (h : PantryHistory) : DB :=
  let id := next_id db in
  with_next_id
    (with_history db
       (pantry_history db ++
        [{| hist_ID := id; hist_GroupID := hist_GroupID h;
            hist_ItemID := hist_ItemID h; hist_ItemName := hist_ItemName h;
            hist_Action := hist_Action h; hist_Quantity := hist_Quantity h;
            hist_UserID := hist_UserID h; hist_UserName := hist_UserName h;
            hist_Timestamp := hist_Timestamp h |}]))
    (N.succ id).

(** Modelled from the spec: [UpdatePantryHistoryForAdd] is not part of the
    sources at hand.  The spec's History Ledger appends one entry with
    group, item, action, delta and actor; for an add or an adjustment the
    delta is the quantity the handler passes. *)
Definition UpdatePantryHistoryForAdd (now : Time) (groupID itemID : ObjectID)
    (itemName : string) (userID : ObjectID) (userName : string)
    (quantity : Q) (db : DB) : DB :=
  InsertOne_history db
    {| hist_ID := 0%N; hist_GroupID := groupID; hist_ItemID := itemID;
       hist_ItemName := itemName; hist_Action := ActionAdd;
       hist_Quantity := quantity; hist_UserID := userID;
       hist_UserName := userName; hist_Timestamp := now |}.

(** Modelled from the spec: [UpdatePantryHistoryForUse] is not part of the
    sources at hand.  The spec: a [use] history entry sized as the negative
    of the consumed amount. *)
Definition UpdatePantryHistoryForUse (now : Time) (groupID itemID : ObjectID)
    (itemName : string) (userID : ObjectID) (userName : string)
    (quantity : Q) (db : DB) : DB :=
  InsertOne_history db
    {| hist_ID := 0%N; hist_GroupID := groupID; hist_ItemID := itemID;
       hist_ItemName := itemName; hist_Action := ActionUse;
       hist_Quantity := - quantity; hist_UserID := userID;
       hist_UserName := userName; hist_Timestamp := now |}.

(** ** Queries the handlers share *)

Definition byID_user (id : ObjectID) (u : User) : bool := (user_ID u =? id)%N.
Definition byName_group (name : string) (g : Group) : bool :=
  String.eqb (group_Name g) name.
Definition byID_item (id : ObjectID) (it : PantryItem) : bool :=
  (item_ID it =? id)%N.
Definition byID_category (id : ObjectID) (c : PantryCategory) : bool :=
  (cat_ID c =? id)%N.

Definition Qlt_bool (a b : Q) : bool := negb (Qle_bool b a).

(** ** UsePantryItemHandler *)

Record UsePantryItemRequest := {
  use_ItemID : string;
  use_Quantity : Q
}.

Record UsePantryItemResponse := {
  resp_Success : bool;
  resp_Message : string;
  resp_RemainingQty : Q;
  resp_Unit : string
}.

Definition lowStockFilter (itemID : ObjectID) (n : PantryNotification) : bool :=
  (notif_ItemID n =? itemID)%N
  && NotificationType_eqb (notif_Type n) NotificationTypeLowStock.

(** The function run inside [mongo.WithSession]: it returns the error
    message, or the response it filled in.  Every error is returned before
    the first write. *)
Definition UsePantryItemTxn (now : Time) (user : User) (itemID : ObjectID)
    (request : UsePantryItemRequest) (db : DB)
    : (string + UsePantryItemResponse) * DB :=
  let? pantryItem := FindOne (byID_item itemID) (pantry_items db)
    else (inl "pantry item not found", db);
  guard (item_GroupID pantryItem =? user_GroupID user)%N
    else (inl "pantry item does not belong to user's group", db);
  guard negb (Qlt_bool (item_Quantity pantryItem) (use_Quantity request))
    else (inl "not enough quantity available", db);
  let newQuantity := item_Quantity pantryItem - use_Quantity request in
  let pantryItem := UpdateQuantity now pantryItem newQuantity in
  let db := with_items db
    (UpdateOne (byID_item (item_ID pantryItem))
       (fun d => UpdateQuantity (item_UpdatedAt pantryItem) d newQuantity)
       (pantry_items db)) in
  let response :=
    {| resp_Success := true; resp_Message := "Item used successfully";
       resp_RemainingQty := newQuantity; resp_Unit := item_Unit pantryItem |} in
  let db :=
    if Qlt_bool 0 newQuantity && Qle_bool newQuantity 1 then
      InsertOne_notification db
        (CreatePantryNotification now (item_GroupID pantryItem)
           (item_ID pantryItem) (item_Name pantryItem)
           NotificationTypeLowStock "Item is running low")
    else db in
  let db :=
    if Qeq_bool newQuantity 0 then
      let db := with_notifications db
        (DeleteMany (lowStockFilter (item_ID pantryItem))
           (pantry_notifications db)) in
      InsertOne_notification db
        (CreatePantryNotification now (item_GroupID pantryItem)
           (item_ID pantryItem) (item_Name pantryItem)
           NotificationTypeOutOfStock "Item is out of stock")
    else db in
  (inr response, db).

Definition UsePantryItemHandler (now : Time)
    (r : HttpRequest UsePantryItemRequest) (db : DB)
    : Response UsePantryItemResponse * DB :=
  guard String.eqb (Method r) "POST"
    else (HttpError "Method not allowed" StatusMethodNotAllowed, db);
  let? userClaims := Claims r
    else (HttpError "User not authenticated" StatusUnauthorized, db);
  let? request := Body r
    else (HttpError "Invalid request body" StatusBadRequest, db);
  guard negb (String.eqb (use_ItemID request) ""
              || Qle_bool (use_Quantity request) 0)
    else (HttpError
            "Item ID and quantity are required. Quantity must be positive."
            StatusBadRequest, db);
  let? userID := ObjectIDFromHex (claims_ID userClaims)
    else (HttpError "Invalid user ID" StatusBadRequest, db);
  let? itemID := ObjectIDFromHex (use_ItemID request)
    else (HttpError "Invalid item ID format" StatusBadRequest, db);
  let? user := FindOne (byID_user userID) (users db)
    else (HttpError "User not found" StatusNotFound, db);
  match UsePantryItemTxn now user itemID request db with
  | (inl err, db) => (HttpError err StatusBadRequest, db)
  | (inr response, db) =>
      let db :=
        match FindOne (byID_item itemID) (pantry_items db) with
        | Some pantryItem =>
            UpdatePantryHistoryForUse now (user_GroupID user) itemID
              (item_Name pantryItem) userID (user_Name user)
              (use_Quantity request) db
        | None => db
        end in
      (HttpOK StatusOK response, db)
  end.

(** ** What the handlers need from outside the repository

    Two library functions decide branches of the handlers: Go's
    [time.Parse(time.RFC3339, _)] and the regular-expression engine of the
    MongoDB server behind a [$regex] filter.  The handlers take them as an
    environment; [goEnv] below instantiates it for concrete runs. *)

Record Env := {
  (** [time.Parse(time.RFC3339, s)]; [None] is a parse error *)
  time_Parse_RFC3339 : string -> option Time;
  (** the server compiling [primitive.Regex{Pattern, Options}]; [None] is
      the server's error for a pattern it rejects, otherwise the test
      "the pattern matches somewhere in the subject" *)
  regex_compile : string -> string -> option (string -> bool)
}.

(** *** A fragment of the server's regular expressions

    Literals, [.], backslash escapes of non-alphanumeric characters and the
    greedy postfix operators [*], [+], [?] on one character, between a
    leading [^] and a trailing [$].  Anything else is left to the real
    engine and is refused here. *)

Inductive regex :=
  | REmpty
  | REps
  | RLit (c : ascii)
  | RAny
  | RCat (r s : regex)
  | RAlt (r s : regex)
  | RStar (r : regex).

Inductive token :=
  | TLit (c : ascii)
  | TAny
  | TStar
  | TPlus
  | TOpt
  | TDollar
  | TBad.

Definition isAlnum (c : ascii) : bool :=
  let n := N_of_ascii c in
  ((48 <=? n)%N && (n <=? 57)%N) || ((65 <=? n)%N && (n <=? 90)%N)
  || ((97 <=? n)%N && (n <=? 122)%N).

Definition inString (c : ascii) (s : string) : bool :=
  existsb (Ascii.eqb c) (list_ascii_of_string s).

Definition backslash : ascii := ascii_of_N 92.
Definition newline : ascii := ascii_of_N 10.

Definition classify (c : ascii) : token :=
  if Ascii.eqb c "." then TAny
  else if Ascii.eqb c "*" then TStar
  else if Ascii.eqb c "+" then TPlus
  else if Ascii.eqb c "?" then TOpt
  else if Ascii.eqb c "$" then TDollar
  else if inString c "()|[]{}^" then TBad
  else TLit c.

Fixpoint tokens (s : string) : list token :=
  match s with
  | EmptyString => []
  | String c rest =>
      if Ascii.eqb c backslash then
        match rest with
        | EmptyString => [TBad]
        | String d rest' =>
            (if isAlnum d then TBad else TLit d) :: tokens rest'
        end
      else classify c :: tokens rest
  end.

Definition atomOf (t : token) : option regex :=
  match t with
  | TLit c => Some (RLit c)
  | TAny => Some RAny
  | _ => None
  end.

Definition quantOf (t : token) : option (regex -> regex) :=
  match t with
  | TStar => Some RStar
  | TPlus => Some (fun r => RCat r (RStar r))
  | TOpt => Some (fun r => RAlt REps r)
  | _ => None
  end.

Definition startsWithQuant (ts : list token) : bool :=
  match ts with
  | t :: _ => match quantOf t with Some _ => true | None => false end
  | [] => false
  end.

(** The body of an anchored pattern, up to and including the final [$]. *)
Fixpoint parseSeq (ts : list token) : option regex :=
  match ts with
  | [] => None
  | t :: ts' =>
      match t, ts' with
      | TDollar, [] => Some REps
      | _, _ =>
          match atomOf t with
          | None => None
          | Some a =>
              match ts' with
              | [] => None
              | q :: ts'' =>
                  match quantOf q with
                  | Some f =>
                      if startsWithQuant ts'' then None
                      else option_map (RCat (f a)) (parseSeq ts'')
                  | None => option_map (RCat a) (parseSeq ts')
                  end
              end
          end
      end
  end.

Fixpoint nullable (r : regex) : bool :=
  match r with
  | REmpty => false
  | REps => true
  | RLit _ => false
  | RAny => false
  | RCat r s => nullable r && nullable s
  | RAlt r s => nullable r || nullable s
  | RStar _ => true
  end.

(** Option [i] on ASCII text: a subject is read byte by byte and only the
    letters [A]-[Z] are folded. *)
Definition litMatches (caseless : bool) (c d : ascii) : bool :=
  if caseless then Ascii.eqb (toLower c) (toLower d) else Ascii.eqb c d.

Fixpoint deriv (caseless : bool) (d : ascii) (r : regex) : regex :=
  match r with
  | REmpty => REmpty
  | REps => REmpty
  | RLit c => if litMatches caseless c d then REps else REmpty
  | RAny => if Ascii.eqb d newline then REmpty else REps
  | RCat r s =>
      if nullable r
      then RAlt (RCat (deriv caseless d r) s) (deriv caseless d s)
      else RCat (deriv caseless d r) s
  | RAlt r s => RAlt (deriv caseless d r) (deriv caseless d s)
  | RStar r => RCat (deriv caseless d r) (RStar r)
  end.

Fixpoint matchesAll (caseless : bool) (r : regex) (s : string) : bool :=
  match s with
  | EmptyString => nullable r
  | String c rest => matchesAll caseless (deriv caseless c r) rest
  end.

Fixpoint dropFinalNewline (s : string) : option string :=
  match s with
  | EmptyString => None
  | String c EmptyString =>
      if Ascii.eqb c newline then Some EmptyString else None
  | String c rest => option_map (String c) (dropFinalNewline rest)
  end.

(** [^r$]: the whole subject, or the subject up to its final newline (the
    dollar also matches just before a newline that ends the subject). *)
Definition matchesAnchored (caseless : bool) (r : regex) (s : string) : bool :=
  matchesAll caseless r s
  || match dropFinalNewline s with
     | Some s' => matchesAll caseless r s'
     | None => false
     end.

Definition fragment_compile (pattern options : string)
    : option (string -> bool) :=
  let caseless := String.eqb options "i" in
  if caseless || String.eqb options "" then
    match pattern with
    | String c body =>
        if Ascii.eqb c "^" then
          option_map (matchesAnchored caseless) (parseSeq (tokens body))
        else None
    | EmptyString => None
    end
  else None.

(** [regexp.QuoteMeta]: a backslash before each of [\.+*?()|[]{}^$]. *)
Fixpoint QuoteMeta (s : string) : string :=
  match s with
  | EmptyString => EmptyString
  | String c rest =>
      if Ascii.eqb c backslash || inString c ".+*?()|[]{}^$"
      then String backslash (String c (QuoteMeta rest))
      else String c (QuoteMeta rest)
  end.

(** *** RFC 3339 timestamps in UTC

    The form [YYYY-MM-DDTHH:MM:SSZ] (the one the handler's error message
    names), as seconds since 0001-01-01T00:00:00Z. *)

Definition digit (c : ascii) : option Z :=
  let n := N_of_ascii c in
  if (48 <=? n)%N && (n <=? 57)%N then Some (Z.of_N n - 48)%Z else None.

Fixpoint number (acc : Z) (cs : list ascii) : option Z :=
  match cs with
  | [] => Some acc
  | c :: rest =>
      match digit c with
      | Some d => number (10 * acc + d)%Z rest
      | None => None
      end
  end.

Definition isLeap (y : Z) : bool :=
  ((y mod 4 =? 0) && negb (y mod 100 =? 0) || (y mod 400 =? 0))%Z.

Definition daysIn (y m : Z) : Z :=
  if (m =? 2)%Z then (if isLeap y then 29 else 28)%Z
  else if ((m =? 4) || (m =? 6) || (m =? 9) || (m =? 11))%Z then 30%Z
  else 31%Z.

Definition daysBeforeMonth (y m : Z) : Z :=
  fold_left Z.add (map (daysIn y) (map Z.of_nat (seq 1 (Z.to_nat (m - 1))))) 0%Z.

Definition daysBeforeYear (y : Z) : Z :=
  (365 * (y - 1) + (y - 1) / 4 - (y - 1) / 100 + (y - 1) / 400)%Z.

Definition parseRFC3339UTC (s : string) : option Time :=
  match list_ascii_of_string s with
  | [y1; y2; y3; y4; d1; m1; m2; d2; a1; a2; t; h1; h2; c1; n1; n2; c2;
     s1; s2; z] =>
      if Ascii.eqb d1 "-" && Ascii.eqb d2 "-" && Ascii.eqb t "T"
         && Ascii.eqb c1 ":" && Ascii.eqb c2 ":" && Ascii.eqb z "Z"
      then
        match number 0 [y1; y2; y3; y4], number 0 [m1; m2],
              number 0 [a1; a2], number 0 [h1; h2], number 0 [n1; n2],
              number 0 [s1; s2] with
        | Some y, Some m, Some d, Some h, Some mi, Some sec =>
            if ((1 <=? m) && (m <=? 12) && (1 <=? d) && (d <=? daysIn y m)
                && (h <? 24) && (mi <? 60) && (sec <? 60))%Z
            then Some ((daysBeforeYear y + daysBeforeMonth y m + (d - 1))
                       * secondsPerDay + h * 3600 + mi * 60 + sec)%Z
            else None
        | _, _, _, _, _, _ => None
        end
      else None
  | _ => None
  end.

Definition goEnv : Env :=
  {| time_Parse_RFC3339 := parseRFC3339UTC;
     regex_compile := fragment_compile |}.

(** ** models/pantry_category.go *)

Definition CreatePredefinedCategory (now : Time) (name : string)
    : PantryCategory :=
  {| cat_ID := 0%N; cat_Name := name; cat_Type := CategoryTypePredefined;
     cat_GroupID := None; cat_CreatedBy := None; cat_CreatedAt := now;
     cat_IsActive := true |}.

Definition CreateCustomCategory (now : Time) (name : string)
    (groupID createdBy : ObjectID) : PantryCategory :=
  {| cat_ID := 0%N; cat_Name := name; cat_Type := CategoryTypeCustom;
     cat_GroupID := Some groupID; cat_CreatedBy := Some createdBy;
     cat_CreatedAt := now; cat_IsActive := true |}.

Definition IsPredefined (pc : PantryCategory) : bool :=
  PantryCategoryType_eqb (cat_Type pc) CategoryTypePredefined.

Definition IsCustom (pc : PantryCategory) : bool :=
  PantryCategoryType_eqb (cat_Type pc) CategoryTypeCustom.

Definition groupIs (g : option ObjectID) (groupID : ObjectID) : bool :=
  match g with
  | Some g' => (g' =? groupID)%N
  | None => false
  end.

Definition BelongsToGroup (pc : PantryCategory) (groupID : ObjectID) : bool :=
  if IsPredefined pc then true else groupIs (cat_GroupID pc) groupID.

Definition CanBeEditedBy (pc : PantryCategory) (userID userGroupID : ObjectID)
    : bool :=
  if IsPredefined pc then false else groupIs (cat_GroupID pc) userGroupID.

Definition CanBeDeletedBy (pc : PantryCategory) (userID userGroupID : ObjectID)
    : bool :=
  if IsPredefined pc then false else groupIs (cat_GroupID pc) userGroupID.

(** ** handlers/pantry.go: category validation and the views *)

(** The filter both [validateCategoryID] and the category handlers use:
    active, and predefined or custom of the group. *)
Definition visibleTo (groupID : ObjectID) (c : PantryCategory) : bool :=
  cat_IsActive c
  && (PantryCategoryType_eqb (cat_Type c) CategoryTypePredefined
      || (PantryCategoryType_eqb (cat_Type c) CategoryTypeCustom
          && groupIs (cat_GroupID c) groupID)).

Definition validateCategoryID (categoryIDStr : string) (groupID : ObjectID)
    (db : DB) : string + PantryCategory :=
  let? categoryID := ObjectIDFromHex categoryIDStr
    else inl "invalid category ID format";
  let? category :=
      FindOne (fun c => byID_category categoryID c && visibleTo groupID c)
        (pantry_categories db)
    else inl "category not found or not accessible to this group";
  inr category.

Record CategoryInfo := {
  info_ID : ObjectID;
  info_Name : string;
  info_Type : string
}.

Definition zeroCategoryInfo : CategoryInfo :=
  {| info_ID := 0%N; info_Name := ""; info_Type := "" |}.

Record PantryItemWithCategory := {
  view_PantryItem : PantryItem;
  view_CategoryInfo : CategoryInfo;
  view_IsExpiringSoon : bool;
  view_IsExpired : bool;
  view_AddedByName : string
}.

Definition categoryInfoOf (category : PantryCategory) : CategoryInfo :=
  {| info_ID := cat_ID category; info_Name := cat_Name category;
     info_Type := PantryCategoryType_string (cat_Type category) |}.

Record AddPantryItemRequest := {
  add_Name : string;
  add_Quantity : Q;
  add_Unit : string;
  add_CategoryID : string;
  add_ExpirationDate : option string;
  add_GroupName : string
}.

Record UpdatePantryItemRequest := {
  upd_Name : string;
  upd_Quantity : Q;
  upd_Unit : string;
  upd_CategoryID : string;
  upd_ExpirationDate : option string;
  upd_GroupName : string
}.

(** The item an existing row is rewritten to by add: quantity, unit, the
    expiration date when the request carries one, and the update time. *)
Definition addOverwrite (now : Time) (pantryItem : PantryItem) (quantity : Q)
    (unit : string) (expirationDate : Time) : PantryItem :=
  {| item_ID := item_ID pantryItem; item_GroupID := item_GroupID pantryItem;
     item_Name := item_Name pantryItem; item_Quantity := quantity;
     item_Unit := unit; item_CategoryID := item_CategoryID pantryItem;
     item_ExpirationDate :=
       if negb (IsZero expirationDate) then expirationDate
       else item_ExpirationDate pantryItem;
     item_AddedBy := item_AddedBy pantryItem;
     item_CreatedAt := item_CreatedAt pantryItem; item_UpdatedAt := now |}.

(** The item a row is rewritten to by update: name, quantity, unit,
    category, the expiration date when the request carries one, and the
    update time. *)
Definition updateOverwrite (now : Time) (pantryItem : PantryItem)
    (name : string) (quantity : Q) (unit : string) (categoryID : ObjectID)
    (expirationDate : Time) : PantryItem :=
  {| item_ID := item_ID pantryItem; item_GroupID := item_GroupID pantryItem;
     item_Name := name; item_Quantity := quantity;
     item_Unit := unit; item_CategoryID := categoryID;
     item_ExpirationDate :=
       if negb (IsZero expirationDate) then expirationDate
       else item_ExpirationDate pantryItem;
     item_AddedBy := item_AddedBy pantryItem;
     item_CreatedAt := item_CreatedAt pantryItem; item_UpdatedAt := now |}.

(** The expiration notification both add and update write. *)
Definition expirationNotification (now : Time) (groupID : ObjectID)
    (expirationDate : Time) (pantryItem : PantryItem) (db : DB) : DB :=
  if negb (IsZero expirationDate) && IsExpiringSoon now pantryItem 3 then
    InsertOne_notification db
      (CreatePantryNotification now groupID (item_ID pantryItem)
         (item_Name pantryItem) NotificationTypeExpiringSoon
         "Item will expire in 3 days or less")
  else db.

Section Handlers.

Variable env : Env.

(** The expiration date of a request: the zero time when the field is
    absent or empty, a parse error otherwise possible. *)
Definition parseExpiration (field : option string) : option Time :=
  match field with
  | None => Some 0%Z
  | Some s => if String.eqb s "" then Some 0%Z else time_Parse_RFC3339 env s
  end.

(** The existing-item lookup of add. *)
Definition addLookupPattern (name : string) : string :=
  "^" ++ TrimSpace name ++ "$".

Definition addLookupFilter (matcher : string -> bool)
    (groupID categoryID : ObjectID) (d : PantryItem) : bool :=
  (item_GroupID d =? groupID)%N && matcher (item_Name d)
  && (item_CategoryID d =? categoryID)%N.

(** The function add runs inside [mongo.WithSession]; it yields the error,
    or [pantryItem], [isNewItem] and [oldQuantity]. *)
Definition AddPantryItemTxn (now : Time) (group : Group) (userID : ObjectID)
    (categoryID : ObjectID) (expirationDate : Time)
    (request : AddPantryItemRequest) (db : DB)
    : (string + PantryItem * bool * Q) * DB :=
  let? matcher := regex_compile env (addLookupPattern (add_Name request)) "i"
    else (inl "regular expression is invalid", db);
  match FindOne (addLookupFilter matcher (group_ID group) categoryID)
          (pantry_items db) with
  | Some pantryItem =>
      let oldQuantity := item_Quantity pantryItem in
      let pantryItem :=
        addOverwrite now pantryItem (add_Quantity request) (add_Unit request)
          expirationDate in
      let db := with_items db
        (UpdateOne (byID_item (item_ID pantryItem)) (fun _ => pantryItem)
           (pantry_items db)) in
      let db := expirationNotification now (group_ID group) expirationDate
                  pantryItem db in
      (inr (pantryItem, false, oldQuantity), db)
  | None =>
      let pantryItem :=
        CreatePantryItem now (group_ID group) (add_Name request)
          (add_Quantity request) (add_Unit request) categoryID
          expirationDate userID in
      let (insertedID, db) := InsertOne_item db pantryItem in
      let pantryItem := item_with_ID pantryItem insertedID in
      let db := expirationNotification now (group_ID group) expirationDate
                  pantryItem db in
      (inr (pantryItem, true, 0), db)
  end.

Definition AddPantryItemHandler (now : Time)
    (r : HttpRequest AddPantryItemRequest) (db : DB)
    : Response PantryItemWithCategory * DB :=
  guard String.eqb (Method r) "POST"
    else (HttpError "Method not allowed" StatusMethodNotAllowed, db);
  let? userClaims := Claims r
    else (HttpError "User not authenticated" StatusUnauthorized, db);
  let? request := Body r
    else (HttpError "Invalid request body" StatusBadRequest, db);
  guard negb (String.eqb (add_Name request) ""
              || Qlt_bool (add_Quantity request) 0
              || String.eqb (add_Unit request) ""
              || String.eqb (add_GroupName request) ""
              || String.eqb (add_CategoryID request) "")
    else (HttpError
            "Name, quantity, unit, category_id, and group name are required"
            StatusBadRequest, db);
  let? group := FindOne (byName_group (add_GroupName request)) (groups db)
    else (HttpError "Group not found" StatusNotFound, db);
  let? userID := ObjectIDFromHex (claims_ID userClaims)
    else (HttpError "Invalid user ID" StatusBadRequest, db);
  let? user := FindOne (byID_user userID) (users db)
    else (HttpError "User not found" StatusNotFound, db);
  guard (user_GroupID user =? group_ID group)%N
    else (HttpError "User is not a member of this group" StatusForbidden, db);
  match validateCategoryID (add_CategoryID request) (group_ID group) db with
  | inl err => (HttpError err StatusBadRequest, db)
  | inr category =>
      let categoryID :=
        match ObjectIDFromHex (add_CategoryID request) with
        | Some id => id
        | None => 0%N
        end in
      let? expirationDate := parseExpiration (add_ExpirationDate request)
        else (HttpError
                "Invalid expiration date format. Use ISO 8601/RFC3339 format (YYYY-MM-DDTHH:MM:SSZ)"
                StatusBadRequest, db);
      match AddPantryItemTxn now group userID categoryID expirationDate
              request db with
      | (inl _, db) =>
          (HttpError "Failed to add/update pantry item"
             StatusInternalServerError, db)
      | (inr (pantryItem, isNewItem, oldQuantity), db) =>
          let db :=
            if isNewItem then
              UpdatePantryHistoryForAdd now (group_ID group)
                (item_ID pantryItem) (item_Name pantryItem) userID
                (user_Name user) (add_Quantity request) db
            else if negb (Qeq_bool oldQuantity (add_Quantity request)) then
              UpdatePantryHistoryForAdd now (group_ID group)
                (item_ID pantryItem) (item_Name pantryItem) userID
                (user_Name user) (add_Quantity request - oldQuantity) db
            else db in
          (HttpOK StatusOK
             {| view_PantryItem := pantryItem;
                view_CategoryInfo := categoryInfoOf category;
                view_IsExpiringSoon := IsExpiringSoon now pantryItem 3;
                view_IsExpired := IsExpired now pantryItem;
                view_AddedByName := user_Name user |}, db)
      end
  end.

(** The function update runs inside [mongo.WithSession]; it yields the
    error, or [pantryItem] and [oldQuantity]. *)
Definition UpdatePantryItemTxn (now : Time) (group : Group) (user : User)
    (itemID categoryID : ObjectID) (expirationDate : Time)
    (request : UpdatePantryItemRequest) (db : DB)
    : (string + PantryItem * Q) * DB :=
  let? pantryItem := FindOne (byID_item itemID) (pantry_items db)
    else (inl "pantry item not found", db);
  guard (item_GroupID pantryItem =? user_GroupID user)%N
    else (inl "pantry item does not belong to user's group", db);
  let oldQuantity := item_Quantity pantryItem in
  let pantryItem :=
    updateOverwrite now pantryItem (upd_Name request) (upd_Quantity request)
      (upd_Unit request) categoryID expirationDate in
  let db := with_items db
    (UpdateOne (byID_item (item_ID pantryItem)) (fun _ => pantryItem)
       (pantry_items db)) in
  let db := expirationNotification now (group_ID group) expirationDate
              pantryItem db in
  (inr (pantryItem, oldQuantity), db).

Definition UpdatePantryItemHandler (now : Time)
    (r : HttpRequest UpdatePantryItemRequest) (db : DB)
    : Response PantryItemWithCategory * DB :=
  guard String.eqb (Method r) "PUT"
    else (HttpError "Method not allowed" StatusMethodNotAllowed, db);
  let? userClaims := Claims r
    else (HttpError "User not authenticated" StatusUnauthorized, db);
  let itemIDStr := TrimPrefix (URLPath r) "/api/pantry/update/" in
  guard negb (String.eqb itemIDStr "")
    else (HttpError "Item ID is required" StatusBadRequest, db);
  let? itemID := ObjectIDFromHex itemIDStr
    else (HttpError "Invalid item ID format" StatusBadRequest, db);
  let? request := Body r
    else (HttpError "Invalid request body" StatusBadRequest, db);
  guard negb (String.eqb (upd_Name request) ""
              || Qlt_bool (upd_Quantity request) 0
              || String.eqb (upd_Unit request) ""
              || String.eqb (upd_GroupName request) ""
              || String.eqb (upd_CategoryID request) "")
    else (HttpError
            "Name, quantity, unit, category_id, and group name are required"
            StatusBadRequest, db);
  let? group := FindOne (byName_group (upd_GroupName request)) (groups db)
    else (HttpError "Group not found" StatusNotFound, db);
  let? userID := ObjectIDFromHex (claims_ID userClaims)
    else (HttpError "Invalid user ID" StatusBadRequest, db);
  let? user := FindOne (byID_user userID) (users db)
    else (HttpError "User not found" StatusNotFound, db);
  guard (user_GroupID user =? group_ID group)%N
    else (HttpError "User is not a member of this group" StatusForbidden, db);
  match validateCategoryID (upd_CategoryID request) (group_ID group) db with
  | inl err => (HttpError err StatusBadRequest, db)
  | inr category =>
      let categoryID :=
        match ObjectIDFromHex (upd_CategoryID request) with
        | Some id => id
        | None => 0%N
        end in
      let? expirationDate := parseExpiration (upd_ExpirationDate request)
        else (HttpError
                "Invalid expiration date format. Use ISO 8601/RFC3339 format (YYYY-MM-DDTHH:MM:SSZ)"
                StatusBadRequest, db);
      match UpdatePantryItemTxn now group user itemID categoryID
              expirationDate request db with
      | (inl err, db) => (HttpError err StatusBadRequest, db)
      | (inr (pantryItem, oldQuantity), db) =>
          let db :=
            if negb (Qeq_bool oldQuantity (upd_Quantity request)) then
              UpdatePantryHistoryForAdd now (group_ID group)
                (item_ID pantryItem) (item_Name pantryItem) userID
                (user_Name user) (upd_Quantity request - oldQuantity) db
            else db in
          (HttpOK StatusOK
             {| view_PantryItem := pantryItem;
                view_CategoryInfo := categoryInfoOf category;
                view_IsExpiringSoon := IsExpiringSoon now pantryItem 3;
                view_IsExpired := IsExpired now pantryItem;
                view_AddedByName := user_Name user |}, db)
      end
  end.

End Handlers.

(** ** GetPantryItemsHandler *)

(** The sort the query asks of the store: [category_id] ascending, then
    [name] ascending (ObjectIDs compare as numbers, strings byte-wise). *)
Definition sortKeyLeb (a b : PantryItem) : bool :=
  (item_CategoryID a <? item_CategoryID b)%N
  || ((item_CategoryID a =? item_CategoryID b)%N
      && String.leb (item_Name a) (item_Name b)).

Fixpoint insertSorted (x : PantryItem) (l : list PantryItem) : list PantryItem :=
  match l with
  | [] => [x]
  | y :: rest => if sortKeyLeb x y then x :: l else y :: insertSorted x rest
  end.

Definition sortItems (l : list PantryItem) : list PantryItem :=
  fold_right insertSorted [] l.

(** [Find] with a filter and the sort option. *)
Definition FindSorted (filter : PantryItem -> bool) (coll : list PantryItem)
    : list PantryItem :=
  sortItems (List.filter filter coll).

(** The per-request caches, Go maps keyed by the hex form of an id. *)
Definition cache (V : Type) := list (ObjectID * V).

Definition cacheGet {V : Type} (k : ObjectID) (m : cache V) : option V :=
  option_map snd (List.find (fun kv => (fst kv =? k)%N) m).

Definition cachePut {V : Type} (k : ObjectID) (v : V) (m : cache V) : cache V :=
  (k, v) :: m.

(** One round of the loop over the fetched items. *)
Definition extendItem (now : Time) (db : DB)
    (acc : list PantryItemWithCategory * cache PantryCategory * cache string)
    (item : PantryItem)
    : list PantryItemWithCategory * cache PantryCategory * cache string :=
  let '(response, categoryCache, userCache) := acc in
  let (category, categoryCache) :=
    match cacheGet (item_CategoryID item) categoryCache with
    | Some c => (Some c, categoryCache)
    | None =>
        match FindOne (byID_category (item_CategoryID item))
                (pantry_categories db) with
        | Some cat => (Some cat, cachePut (item_CategoryID item) cat categoryCache)
        | None => (None, categoryCache)
        end
    end in
  let categoryInfo :=
    match category with
    | Some c => categoryInfoOf c
    | None => zeroCategoryInfo
    end in
  let (userName, userCache) :=
    match cacheGet (item_AddedBy item) userCache with
    | Some n => (n, userCache)
    | None =>
        match FindOne (byID_user (item_AddedBy item)) (users db) with
        | Some addedByUser =>
            (user_Name addedByUser,
             cachePut (item_AddedBy item) (user_Name addedByUser) userCache)
        | None => ("", userCache)
        end
    end in
  ((response ++
    [{| view_PantryItem := item; view_CategoryInfo := categoryInfo;
        view_IsExpiringSoon := IsExpiringSoon now item 3;
        view_IsExpired := IsExpired now item;
        view_AddedByName := userName |}])%list,
   categoryCache, userCache).

Definition GetPantryItemsHandler (now : Time) (r : HttpRequest unit) (db : DB)
    : Response (list PantryItemWithCategory) :=
  guard String.eqb (Method r) "GET"
    else HttpError "Method not allowed" StatusMethodNotAllowed;
  let? userClaims := Claims r
    else HttpError "User not authenticated" StatusUnauthorized;
  let groupName := Query r "group_name" in
  let categoryFilter := Query r "category_id" in
  guard negb (String.eqb groupName "")
    else HttpError "Group name is required" StatusBadRequest;
  let? group := FindOne (byName_group groupName) (groups db)
    else HttpError "Group not found" StatusNotFound;
  let? userID := ObjectIDFromHex (claims_ID userClaims)
    else HttpError "Invalid user ID" StatusBadRequest;
  let? user := FindOne (byID_user userID) (users db)
    else HttpError "User not found" StatusNotFound;
  guard (user_GroupID user =? group_ID group)%N
    else HttpError "User is not a member of this group" StatusForbidden;
  let? filter :=
      (if String.eqb categoryFilter "" then
         Some (fun d => (item_GroupID d =? group_ID group)%N)
       else
         match ObjectIDFromHex categoryFilter with
         | Some categoryID =>
             Some (fun d => (item_GroupID d =? group_ID group)%N
                            && (item_CategoryID d =? categoryID)%N)
         | None => None
         end)
    else HttpError "Invalid category ID format" StatusBadRequest;
  let pantryItems := FindSorted filter (pantry_items db) in
  let '(response, _, _) :=
    fold_left (extendItem now db) pantryItems ([], [], []) in
  HttpOK StatusOK response.

(** ** The category handlers *)

Record CreateCategoryRequest := { create_Name : string }.

Record CategoryResponse (D : Type) := {
  cr_Status : string;
  cr_Message : string;
  cr_Data : option D
}.
Arguments cr_Status {D} _.
Arguments cr_Message {D} _.
Arguments cr_Data {D} _.

Definition cat_with_ID (c : PantryCategory) (id : ObjectID) : PantryCategory :=
  {| cat_ID := id; cat_Name := cat_Name c; cat_Type := cat_Type c;
     cat_GroupID := cat_GroupID c; cat_CreatedBy := cat_CreatedBy c;
     cat_CreatedAt := cat_CreatedAt c; cat_IsActive := cat_IsActive c |}.

Definition InsertOne_category (db : DB) (c : PantryCategory) : ObjectID * DB :=
  let id := next_id db in
  (id, with_next_id
         (with_categories db (pantry_categories db ++ [cat_with_ID c id]))
         (N.succ id)).

Section CategoryHandlers.

Variable env : Env.

(** The existing-category lookup of create: the name is escaped first. *)
Definition createLookupPattern (categoryName : string) : string :=
  "^" ++ QuoteMeta categoryName ++ "$".

Definition CreatePantryCategoryHandler (now : Time)
    (r : HttpRequest CreateCategoryRequest) (db : DB)
    : Response (CategoryResponse PantryCategory) * DB :=
  guard String.eqb (Method r) "POST"
    else (HttpError "Method not allowed" StatusMethodNotAllowed, db);
  let? userClaims := Claims r
    else (HttpError "User not authenticated" StatusUnauthorized, db);
  let? request := Body r
    else (HttpError "Invalid request body" StatusBadRequest, db);
  guard negb (String.eqb (TrimSpace (create_Name request)) "")
    else (HttpError "Category name is required" StatusBadRequest, db);
  let categoryName := TrimSpace (create_Name request) in
  let? userID := ObjectIDFromHex (claims_ID userClaims)
    else (HttpError "Invalid user ID" StatusBadRequest, db);
  let? user := FindOne (byID_user userID) (users db)
    else (HttpError "User not found" StatusNotFound, db);
  let? matcher := regex_compile env (createLookupPattern categoryName) "i"
    else (HttpError "Failed to check existing categories"
            StatusInternalServerError, db);
  match FindOne (fun c => matcher (cat_Name c) && visibleTo (user_GroupID user) c)
          (pantry_categories db) with
  | Some existingCategory =>
      let categoryType :=
        if IsCustom existingCategory then "custom" else "predefined" in
      (HttpError ("A " ++ categoryType ++ " category with this name already exists")
         StatusConflict, db)
  | None =>
      let newCategory :=
        CreateCustomCategory now categoryName (user_GroupID user) userID in
      let (insertedID, db) := InsertOne_category db newCategory in
      (HttpOK 201%nat
         {| cr_Status := "success";
            cr_Message := "Custom category created successfully";
            cr_Data := Some (cat_with_ID newCategory insertedID) |}, db)
  end.

End CategoryHandlers.

Definition DeletePantryCategoryHandler (r : HttpRequest unit) (db : DB)
    : Response (CategoryResponse unit) * DB :=
  guard String.eqb (Method r) "DELETE"
    else (HttpError "Method not allowed" StatusMethodNotAllowed, db);
  let? userClaims := Claims r
    else (HttpError "User not authenticated" StatusUnauthorized, db);
  let categoryIDStr := TrimPrefix (URLPath r) "/api/pantry/categories/" in
  guard negb (String.eqb categoryIDStr "")
    else (HttpError "Category ID is required" StatusBadRequest, db);
  let? categoryID := ObjectIDFromHex categoryIDStr
    else (HttpError "Invalid category ID format" StatusBadRequest, db);
  let? userID := ObjectIDFromHex (claims_ID userClaims)
    else (HttpError "Invalid user ID" StatusBadRequest, db);
  let? user := FindOne (byID_user userID) (users db)
    else (HttpError "User not found" StatusNotFound, db);
  let? category := FindOne (byID_category categoryID) (pantry_categories db)
    else (HttpError "Category not found" StatusNotFound, db);
  guard CanBeDeletedBy category userID (user_GroupID user)
    else (if IsPredefined category
          then (HttpError "Predefined categories cannot be deleted"
                  StatusForbidden, db)
          else (HttpError
                  "You can only delete custom categories from your group"
                  StatusForbidden, db));
  let itemCount :=
    CountDocuments (fun d => (item_CategoryID d =? categoryID)%N)
      (pantry_items db) in
  guard negb (0 <? itemCount)%nat
    else (HttpError "Cannot delete category: it is being used by pantry items"
            StatusConflict, db);
  let (categories, deletedCount) :=
    DeleteOne (byID_category categoryID) (pantry_categories db) in
  let db := with_categories db categories in
  guard negb (deletedCount =? 0)%nat
    else (HttpError "Category not found or already deleted" StatusNotFound, db);
  (HttpOK StatusOK
     {| cr_Status := "success"; cr_Message := "Category deleted successfully";
        cr_Data := None |}, db).

(** ** Observations on the store *)

Definition itemByID (id : ObjectID) (db : DB) : option PantryItem :=
  FindOne (byID_item id) (pantry_items db).

Definition quantityOf (id : ObjectID) (db : DB) : option Q :=
  option_map item_Quantity (itemByID id db).

Definition notificationFilter (itemID : ObjectID) (ty : NotificationType)
    (n : PantryNotification) : bool :=
  (notif_ItemID n =? itemID)%N && NotificationType_eqb (notif_Type n) ty.

(** The notifications of one type that exist for an item. *)
Definition countNotifications (itemID : ObjectID) (ty : NotificationType)
    (db : DB) : nat :=
  CountDocuments (notificationFilter itemID ty) (pantry_notifications db).

Definition isStockNotification (n : PantryNotification) : bool :=
  NotificationType_eqb (notif_Type n) NotificationTypeLowStock
  || NotificationType_eqb (notif_Type n) NotificationTypeOutOfStock.

(** The low_stock and out_of_stock notifications of the store, in order. *)
Definition stockNotifications (db : DB) : list PantryNotification :=
  List.filter isStockNotification (pantry_notifications db).

(** The spec's notification invariant for one item: at most one
    low_stock-or-out_of_stock notification. *)
Definition atMostOneStockNotification (itemID : ObjectID) (db : DB) : bool :=
  (countNotifications itemID NotificationTypeLowStock db
   + countNotifications itemID NotificationTypeOutOfStock db <=? 1)%nat.

(** The spec's words for the add lookup: case-insensitive equality of the
    trimmed names. *)
Definition sameTrimmedNameIgnoringCase (requestName itemName : string) : bool :=
  String.eqb (lowerString (TrimSpace requestName))
    (lowerString (TrimSpace itemName)).

(** The store's key constraint: [_id] is unique within [pantry_items]. *)
Definition uniqueItemIDs (db : DB) : Prop :=
  NoDup (map item_ID (pantry_items db)).


(** Sequences of use calls, each at its own time. *)
Definition UseCall := (Time * HttpRequest UsePantryItemRequest)%type.

Definition runUse (db : DB) (c : UseCall) : DB :=
  snd (UsePantryItemHandler (fst c) (snd c) db).

Definition runUses (calls : list UseCall) (db : DB) : DB :=
  fold_left runUse calls db.

(** ** A household for concrete runs *)

Definition aliceHex := "0000000000000000000000a1".
Definition homeHex := "0000000000000000000000b1".
Definition dairyHex := "0000000000000000000000c1".
Definition milkHex := "0000000000000000000000d1".

Definition aliceID : ObjectID := 161%N.
Definition homeID : ObjectID := 177%N.
Definition dairyID : ObjectID := 193%N.
Definition milkID : ObjectID := 209%N.

Definition alice : User :=
  {| user_ID := aliceID; user_Name := "Alice"; user_GroupID := homeID |}.

Definition home : Group := {| group_ID := homeID; group_Name := "home" |}.

Definition dairy : PantryCategory :=
  {| cat_ID := dairyID; cat_Name := "Dairy"; cat_Type := CategoryTypeCustom;
     cat_GroupID := Some homeID; cat_CreatedBy := Some aliceID;
     cat_CreatedAt := 0%Z; cat_IsActive := true |}.

Definition milk (quantity : Q) : PantryItem :=
  {| item_ID := milkID; item_GroupID := homeID; item_Name := "Milk";
     item_Quantity := quantity; item_Unit := "L"; item_CategoryID := dairyID;
     item_ExpirationDate := 0%Z; item_AddedBy := aliceID;
     item_CreatedAt := 0%Z; item_UpdatedAt := 0%Z |}.

(** The pantry with the given items and nothing else written yet. *)
Definition pantryWith (items : list PantryItem) : DB :=
  {| users := [alice]; groups := [home]; pantry_categories := [dairy];
     pantry_items := items; pantry_notifications := []; pantry_history := [];
     next_id := 4096%N |}.

Definition noQuery (key : string) : string := "".

Definition asAlice {B : Type} (method path : string) (body : option B)
    : HttpRequest B :=
  {| Method := method; URLPath := path; Query := noQuery;
     Claims := Some {| claims_ID := aliceHex |}; Body := body |}.

Definition useMilk (quantity : Q) : HttpRequest UsePantryItemRequest :=
  asAlice "POST" "/api/pantry/use"
    (Some {| use_ItemID := milkHex; use_Quantity := quantity |}).

Definition addToDairy (name : string) (quantity : Q) (unit : string)
    (expiration : option string) : HttpRequest AddPantryItemRequest :=
  asAlice "POST" "/api/pantry/add"
    (Some {| add_Name := name; add_Quantity := quantity; add_Unit := unit;
             add_CategoryID := dairyHex; add_ExpirationDate := expiration;
             add_GroupName := "home" |}).

Definition updateMilk (quantity : Q) (expiration : option string)
    : HttpRequest UpdatePantryItemRequest :=
  asAlice "PUT" ("/api/pantry/update/" ++ milkHex)
    (Some {| upd_Name := "Milk"; upd_Quantity := quantity; upd_Unit := "L";
             upd_CategoryID := dairyHex; upd_ExpirationDate := expiration;
             upd_GroupName := "home" |}).

Definition deleteDairy : HttpRequest unit :=
  asAlice "DELETE" ("/api/pantry/categories/" ++ dairyHex) None.

Definition listHome : HttpRequest unit :=
  {| Method := "GET"; URLPath := "/api/pantry/list";
     Query := fun key => if String.eqb key "group_name" then "home" else "";
     Claims := Some {| claims_ID := aliceHex |}; Body := None |}.

(** 2026-10-30T12:00:00Z, and a date two days later. *)
Definition noon : Time := 63928958400%Z.
Definition inTwoDays : string := "2026-11-01T12:00:00Z".

(** Milk at 2 L, then a use of 1 L, then a use of 0.5 L. *)
Definition milkUsedOnce : DB :=
  runUses [(noon, useMilk 1)] (pantryWith [milk 2]).

Definition milkUsedTwice : DB :=
  runUses [(noon, useMilk (1 # 2))] milkUsedOnce.

(** Milk used up, then raised to 5 L by add, or by update. *)
Definition milkOut : DB := runUses [(noon, useMilk 2)] (pantryWith [milk 2]).

Definition milkRestockedByAdd : DB :=
  snd (AddPantryItemHandler goEnv noon (addToDairy "Milk" 5 "L" None) milkOut).

Definition milkRestockedByUpdate : DB :=
  snd (UpdatePantryItemHandler goEnv noon (updateMilk 5 None) milkOut).

(** Eggs that expire in two days, added once and added again. *)
Definition eggsID : ObjectID := 4096%N.

Definition eggsAddedOnce : DB :=
  snd (AddPantryItemHandler goEnv noon
         (addToDairy "Eggs" 12 "count" (Some inTwoDays)) (pantryWith [])).

Definition eggsAddedTwice : DB :=
  snd (AddPantryItemHandler goEnv noon
         (addToDairy "Eggs" 12 "count" (Some inTwoDays)) eggsAddedOnce).

(** The view the first add of the eggs answers with. *)
Definition eggsView : PantryItemWithCategory :=
  {| view_PantryItem :=
       {| item_ID := eggsID; item_GroupID := homeID; item_Name := "Eggs";
          item_Quantity := 12; item_Unit := "count";
          item_CategoryID := dairyID;
          item_ExpirationDate := 63929131200%Z; item_AddedBy := aliceID;
          item_CreatedAt := noon; item_UpdatedAt := noon |};
     view_CategoryInfo := categoryInfoOf dairy;
     view_IsExpiringSoon := true;
     view_IsExpired := false;
     view_AddedByName := "Alice" |}.


(** The spec's words for the listing: the items of the group, restricted
    to one category when the filter is given. *)
Definition listedFor (groupID : ObjectID) (categoryFilter : string)
    (d : PantryItem) : bool :=
  (item_GroupID d =? groupID)%N
  && (String.eqb categoryFilter ""
      || match ObjectIDFromHex categoryFilter with
         | Some categoryID => (item_CategoryID d =? categoryID)%N
         | None => false
         end).

(** The sort key of the listing as a relation. *)
Definition sortKeyLe (a b : PantryItem) : Prop := sortKeyLeb a b = true.

(** Butter next to the milk, and the listing of the two. *)
Definition butter : PantryItem :=
  {| item_ID := 210%N; item_GroupID := homeID; item_Name := "Butter";
     item_Quantity := 1; item_Unit := "pack"; item_CategoryID := dairyID;
     item_ExpirationDate := 0%Z; item_AddedBy := aliceID;
     item_CreatedAt := 0%Z; item_UpdatedAt := 0%Z |}.

Definition listingOf (resp : Response (list PantryItemWithCategory))
    : list PantryItemWithCategory :=
  match resp with
  | HttpOK _ views => views
  | HttpError _ _ => []
  end.

Definition shelfListing : list PantryItemWithCategory :=
  listingOf (GetPantryItemsHandler noon listHome (pantryWith [milk 2; butter])).

(** Requests whose names carry regular-expression operators. *)
Definition addDotted : HttpRequest AddPantryItemRequest :=
  addToDairy "M.lk" 7 "L" None.

Definition addPlus (quantity : Q) : HttpRequest AddPantryItemRequest :=
  addToDairy "a+b" quantity "kg" None.

Definition plusAddedOnce : DB :=
  snd (AddPantryItemHandler goEnv noon (addPlus 1) (pantryWith [])).

Definition plusAddedTwice : DB :=
  snd (AddPantryItemHandler goEnv noon (addPlus 2) plusAddedOnce).

(** The matcher behind a pattern, [false] when the pattern is refused. *)
Definition matchesPattern (env : Env) (pattern options subject : string)
    : bool :=
  match regex_compile env pattern options with
  | Some matcher => matcher subject
  | None => false
  end.

(** The ledger invariant: no item has a negative quantity. *)
Definition nonNegativeStock (db : DB) : Prop :=
  Forall (fun d => (0 <= item_Quantity d)%Q) (pantry_items db).

(** The characters [regexp.QuoteMeta] escapes, and names free of them. *)
Definition isRegexOperator (c : ascii) : bool :=
  Ascii.eqb c backslash || inString c ".+*?()|[]{}^$".


Definition equalIgnoringCase (a b : string) : bool :=
  String.eqb (lowerString a) (lowerString b).

(** Equality up to case, where the stored name may end in one more
    newline (which the dollar of an anchored expression lets through). *)
Definition equalIgnoringCaseAnchored (name subject : string) : bool :=
  equalIgnoringCase name subject
  || match dropFinalNewline subject with
     | Some subject' => equalIgnoringCase name subject'
     | None => false
     end.

(** The expression of a sequence of literal characters. *)
Definition literals (cs : list ascii) : regex :=
  fold_right (fun c r => RCat (RLit c) r) REps cs.

(** The restocked milk (still notified as out of stock) used down to
    0.5 L. *)
Definition milkLowAfterRestock : DB :=
  runUses [(noon, useMilk (9 # 2))] milkRestockedByAdd.

(** * The rest of the pantry handlers *)

(** [ObjectID.Hex]: the 24 lower-case hex digits of the id. *)
Definition hexChar (d : N) : ascii :=
  if (d <? 10)%N then ascii_of_N (48 + d) else ascii_of_N (87 + d).

Fixpoint hexDigits (n : nat) (v : N) (acc : string) : string :=
  match n with
  | O => acc
  | S n' => hexDigits n' (v / 16)%N (String (hexChar (v mod 16)%N) acc)
  end.

Definition Hex (id : ObjectID) : string := hexDigits 24 id "".

(** ** DeletePantryItemHandler *)

(** Modelled from the spec: [UpdatePantryHistoryForRemove] is not part of
    the sources at hand.  The spec: a [remove] history entry sized as the
    quantity at time of deletion. *)
Definition UpdatePantryHistoryForRemove (now : Time) (groupID itemID : ObjectID)
    (itemName : string) (userID : ObjectID) (userName : string)
    (quantity : Q) (db : DB) : DB :=
  InsertOne_history db
    {| hist_ID := 0%N; hist_GroupID := groupID; hist_ItemID := itemID;
       hist_ItemName := itemName; hist_Action := ActionRemove;
       hist_Quantity := quantity; hist_UserID := userID;
       hist_UserName := userName; hist_Timestamp := now |}.

Definition byItemID_notification (itemID : ObjectID) (n : PantryNotification)
    : bool :=
  (notif_ItemID n =? itemID)%N.

(** The function delete runs inside [mongo.WithSession]: the error, or
    nothing. *)
Definition DeletePantryItemTxn (user : User) (itemID : ObjectID) (db : DB)
    : option string * DB :=
  let? pantryItem := FindOne (byID_item itemID) (pantry_items db)
    else (Some "pantry item not found", db);
  guard (item_GroupID pantryItem =? user_GroupID user)%N
    else (Some "pantry item does not belong to user's group", db);
  let db := with_items db (fst (DeleteOne (byID_item itemID) (pantry_items db))) in
  let db := with_notifications db
    (DeleteMany (byItemID_notification itemID) (pantry_notifications db)) in
  (None, db).

Definition DeletePantryItemHandler (now : Time) (r : HttpRequest unit) (db : DB)
    : Response string * DB :=
  guard String.eqb (Method r) "DELETE"
    else (HttpError "Method not allowed" StatusMethodNotAllowed, db);
  let? userClaims := Claims r
    else (HttpError "User not authenticated" StatusUnauthorized, db);
  let itemIDStr := TrimPrefix (URLPath r) "/api/pantry/remove/" in
  guard negb (String.eqb itemIDStr "")
    else (HttpError "Item ID is required" StatusBadRequest, db);
  let? itemID := ObjectIDFromHex itemIDStr
    else (HttpError "Invalid item ID format" StatusBadRequest, db);
  let? userID := ObjectIDFromHex (claims_ID userClaims)
    else (HttpError "Invalid user ID" StatusBadRequest, db);
  let? user := FindOne (byID_user userID) (users db)
    else (HttpError "User not found" StatusNotFound, db);
  let '(itemName, itemQuantity, groupID) :=
    match FindOne (byID_item itemID) (pantry_items db) with
    | Some pantryItem =>
        (item_Name pantryItem, item_Quantity pantryItem,
         item_GroupID pantryItem)
    | None => ("", 0%Q, 0%N)
    end in
  match DeletePantryItemTxn user itemID db with
  | (Some err, db) => (HttpError err StatusBadRequest, db)
  | (None, db) =>
      let db :=
        if negb (String.eqb itemName "") then
          UpdatePantryHistoryForRemove now groupID itemID itemName userID
            (user_Name user) itemQuantity db
        else db in
      (HttpOK StatusOK "Pantry item deleted successfully", db)
  end.

(** ** UpdatePantryCategoryHandler *)

Record UpdateCategoryRequest := { rename_Name : string }.

Definition cat_with_Name (c : PantryCategory) (name : string) : PantryCategory :=
  {| cat_ID := cat_ID c; cat_Name := name; cat_Type := cat_Type c;
     cat_GroupID := cat_GroupID c; cat_CreatedBy := cat_CreatedBy c;
     cat_CreatedAt := cat_CreatedAt c; cat_IsActive := cat_IsActive c |}.

Section CategoryRename.

Variable env : Env.

Definition UpdatePantryCategoryHandler (r : HttpRequest UpdateCategoryRequest)
    (db : DB) : Response (CategoryResponse PantryCategory) * DB :=
  guard String.eqb (Method r) "PUT"
    else (HttpError "Method not allowed" StatusMethodNotAllowed, db);
  let? userClaims := Claims r
    else (HttpError "User not authenticated" StatusUnauthorized, db);
  let categoryIDStr := TrimPrefix (URLPath r) "/api/pantry/categories/" in
  guard negb (String.eqb categoryIDStr "")
    else (HttpError "Category ID is required" StatusBadRequest, db);
  let? categoryID := ObjectIDFromHex categoryIDStr
    else (HttpError "Invalid category ID format" StatusBadRequest, db);
  let? request := Body r
    else (HttpError "Invalid request body" StatusBadRequest, db);
  guard negb (String.eqb (TrimSpace (rename_Name request)) "")
    else (HttpError "Category name is required" StatusBadRequest, db);
  let categoryName := TrimSpace (rename_Name request) in
  let? userID := ObjectIDFromHex (claims_ID userClaims)
    else (HttpError "Invalid user ID" StatusBadRequest, db);
  let? user := FindOne (byID_user userID) (users db)
    else (HttpError "User not found" StatusNotFound, db);
  let? category := FindOne (byID_category categoryID) (pantry_categories db)
    else (HttpError "Category not found" StatusNotFound, db);
  guard CanBeEditedBy category userID (user_GroupID user)
    else (if IsPredefined category
          then (HttpError "Predefined categories cannot be edited"
                  StatusForbidden, db)
          else (HttpError
                  "You can only edit custom categories from your group"
                  StatusForbidden, db));
  let? matcher := regex_compile env (createLookupPattern categoryName) "i"
    else (HttpError "Failed to check existing categories"
            StatusInternalServerError, db);
  match FindOne (fun c => negb (byID_category categoryID c)
                          && matcher (cat_Name c)
                          && visibleTo (user_GroupID user) c)
          (pantry_categories db) with
  | Some existingCategory =>
      let categoryType :=
        if IsCustom existingCategory then "custom" else "predefined" in
      (HttpError ("A " ++ categoryType ++ " category with this name already exists")
         StatusConflict, db)
  | None =>
      let db := with_categories db
        (UpdateOne (byID_category categoryID)
           (fun c => cat_with_Name c categoryName) (pantry_categories db)) in
      let? updatedCategory :=
          FindOne (byID_category categoryID) (pantry_categories db)
        else (HttpError "Failed to fetch updated category"
                StatusInternalServerError, db);
      (HttpOK StatusOK
         {| cr_Status := "success";
            cr_Message := "Category updated successfully";
            cr_Data := Some updatedCategory |}, db)
  end.

End CategoryRename.

(** ** GetPantryCategoriesHandler *)

Record CategoryWithCreator := {
  cwc_ID : ObjectID;
  cwc_Name : string;
  cwc_Type : string;
  cwc_GroupID : option string;
  cwc_GroupName : option string;
  cwc_CreatedBy : option string;
  cwc_CreatedByID : option string
}.

Record CategoriesByType := {
  cbt_Predefined : list CategoryWithCreator;
  cbt_UserDefined : list CategoryWithCreator
}.

Record StructuredCategoryResponse := {
  scr_GroupName : string;
  scr_GroupID : string;
  scr_Categories : CategoriesByType
}.

(** A stable sort by a boolean order, for [Find] with a sort option. *)
Fixpoint insertBy {A : Type} (leb : A -> A -> bool) (x : A) (l : list A)
    : list A :=
  match l with
  | [] => [x]
  | y :: rest => if leb x y then x :: l else y :: insertBy leb x rest
  end.

Definition sortBy {A : Type} (leb : A -> A -> bool) (l : list A) : list A :=
  fold_right (insertBy leb) [] l.

(** The sort of the category query: [type] ascending, then [name]
    ascending, both as strings. *)
Definition categoryKeyLeb (a b : PantryCategory) : bool :=
  String.ltb (PantryCategoryType_string (cat_Type a))
    (PantryCategoryType_string (cat_Type b))
  || (String.eqb (PantryCategoryType_string (cat_Type a))
        (PantryCategoryType_string (cat_Type b))
      && String.leb (cat_Name a) (cat_Name b)).

(** One round of the loop over the fetched categories.  A custom category
    without group cannot come out of the query, whose filter asks for the
    user's group. *)
Definition extendCategories (group : Group) (db : DB)
    (acc : list CategoryWithCreator * list CategoryWithCreator)
    (category : PantryCategory)
    : list CategoryWithCreator * list CategoryWithCreator :=
  let (predefinedCategories, userDefinedCategories) := acc in
  let categoryWithCreator :=
    {| cwc_ID := cat_ID category; cwc_Name := cat_Name category;
       cwc_Type := PantryCategoryType_string (cat_Type category);
       cwc_GroupID := None; cwc_GroupName := None;
       cwc_CreatedBy := None; cwc_CreatedByID := None |} in
  if IsPredefined category then
    ((predefinedCategories ++ [categoryWithCreator])%list,
     userDefinedCategories)
  else
    let creator :=
      match cat_CreatedBy category with
      | Some createdBy => FindOne (byID_user createdBy) (users db)
      | None => None
      end in
    (predefinedCategories,
     (userDefinedCategories ++
      [{| cwc_ID := cat_ID category; cwc_Name := cat_Name category;
          cwc_Type := PantryCategoryType_string (cat_Type category);
          cwc_GroupID := option_map Hex (cat_GroupID category);
          cwc_GroupName := Some (group_Name group);
          cwc_CreatedBy := option_map user_Name creator;
          cwc_CreatedByID :=
            option_map (fun u => Hex (user_ID u)) creator |}])%list).

Definition GetPantryCategoriesHandler (r : HttpRequest unit) (db : DB)
    : Response StructuredCategoryResponse :=
  guard String.eqb (Method r) "GET"
    else HttpError "Method not allowed" StatusMethodNotAllowed;
  let? userClaims := Claims r
    else HttpError "User not authenticated" StatusUnauthorized;
  let groupName := Query r "group_name" in
  guard negb (String.eqb groupName "")
    else HttpError "group_name parameter is required" StatusBadRequest;
  let? userID := ObjectIDFromHex (claims_ID userClaims)
    else HttpError "Invalid user ID" StatusBadRequest;
  let? user := FindOne (byID_user userID) (users db)
    else HttpError "User not found" StatusNotFound;
  let? group := FindOne (byName_group groupName) (groups db)
    else HttpError "Group not found" StatusNotFound;
  guard (user_GroupID user =? group_ID group)%N
    else HttpError "User is not a member of this group" StatusForbidden;
  let categories :=
    sortBy categoryKeyLeb
      (List.filter (visibleTo (user_GroupID user)) (pantry_categories db)) in
  let (predefinedCategories, userDefinedCategories) :=
    fold_left (extendCategories group db) categories ([], []) in
  HttpOK StatusOK
    {| scr_GroupName := group_Name group;
       scr_GroupID := Hex (group_ID group);
       scr_Categories :=
         {| cbt_Predefined := predefinedCategories;
            cbt_UserDefined := userDefinedCategories |} |}.

(** ** Observations for the properties of these handlers *)

(** The user a request acts for: the one the claims name, when the claims
    are there, well-formed and known to the store. *)
Definition actingUser {B : Type} (r : HttpRequest B) (db : DB) : option User :=
  match Claims r with
  | Some claims =>
      match ObjectIDFromHex (claims_ID claims) with
      | Some userID => FindOne (byID_user userID) (users db)
      | None => None
      end
  | None => None
  end.

Definition isError {A : Type} (resp : Response A) : bool :=
  match resp with
  | HttpError _ _ => true
  | HttpOK _ _ => false
  end.

Definition isConflict {A : Type} (resp : Response A) : bool :=
  match resp with
  | HttpError _ status => (status =? StatusConflict)%nat
  | HttpOK _ _ => false
  end.

(** A category reference that resolves for a group: some category
    document has the id, is active and is predefined or the group's own. *)
Definition categoryAccessible (groupID categoryID : ObjectID) (db : DB) : Prop :=
  exists c, In c (pantry_categories db) /\ cat_ID c = categoryID /\
            visibleTo groupID c = true.

(** A category the acting user's group must not touch: predefined, or
    custom of another group. *)
Definition protectedFrom (groupID : ObjectID) (c : PantryCategory) : bool :=
  negb (CanBeEditedBy c 0%N groupID).

Definition uniqueCategoryIDs (db : DB) : Prop :=
  NoDup (map cat_ID (pantry_categories db)).

(** No two categories a group sees carry the same name up to case. *)
Definition categoryNamesDistinct (groupID : ObjectID) (db : DB) : Prop :=
  NoDup (map (fun c => lowerString (cat_Name c))
           (List.filter (visibleTo groupID) (pantry_categories db))).

(** What the category handlers rely on from the server: the expression
    compiled from an escaped name accepts every subject equal to the name
    up to case. *)
Definition escapedLookupComplete (env : Env) : Prop :=
  forall name matcher subject,
    regex_compile env (createLookupPattern name) "i" = Some matcher ->
    equalIgnoringCase name subject = true -> matcher subject = true.

(** What a category document carries besides its name. *)
Definition categoryIdentity (c : PantryCategory)
    : ObjectID * PantryCategoryType * option ObjectID * option ObjectID
      * Time * bool :=
  (cat_ID c, cat_Type c, cat_GroupID c, cat_CreatedBy c, cat_CreatedAt c,
   cat_IsActive c).

(** The view of an item with the category and the contributor looked up
    in the store directly, without the per-request caches. *)
Definition enrichItem (now : Time) (db : DB) (item : PantryItem)
    : PantryItemWithCategory :=
  {| view_PantryItem := item;
     view_CategoryInfo :=
       match FindOne (byID_category (item_CategoryID item))
               (pantry_categories db) with
       | Some c => categoryInfoOf c
       | None => zeroCategoryInfo
       end;
     view_IsExpiringSoon := IsExpiringSoon now item 3;
     view_IsExpired := IsExpired now item;
     view_AddedByName :=
       match FindOne (byID_user (item_AddedBy item)) (users db) with
       | Some u => user_Name u
       | None => ""
       end |}.

(** The items a listing request asks for: [None] when the category filter
    is not an ObjectID. *)
Definition listingQuery (groupID : ObjectID) (categoryFilter : string)
    : option (PantryItem -> bool) :=
  if String.eqb categoryFilter "" then
    Some (fun d => (item_GroupID d =? groupID)%N)
  else
    match ObjectIDFromHex categoryFilter with
    | Some categoryID =>
        Some (fun d => (item_GroupID d =? groupID)%N
                       && (item_CategoryID d =? categoryID)%N)
    | None => None
    end.

Definition categoryNameLe (a b : CategoryWithCreator) : Prop :=
  String.leb (cwc_Name a) (cwc_Name b) = true.

(** ** More of the household *)

Definition bobHex := "0000000000000000000000a2".
Definition bobID : ObjectID := 162%N.
Definition flatID : ObjectID := 178%N.

(** Bob lives in another group. *)
Definition bob : User :=
  {| user_ID := bobID; user_Name := "Bob"; user_GroupID := flatID |}.

Definition flat : Group := {| group_ID := flatID; group_Name := "flat" |}.

Definition produce : PantryCategory :=
  {| cat_ID := 194%N; cat_Name := "Produce";
     cat_Type := CategoryTypePredefined; cat_GroupID := None;
     cat_CreatedBy := None; cat_CreatedAt := 0%Z; cat_IsActive := true |}.

(** Two groups, a predefined and a custom category, milk with a low_stock
    notification. *)
Definition twoGroups : DB :=
  {| users := [alice; bob]; groups := [home; flat];
     pantry_categories := [produce; dairy];
     pantry_items := [milk 1];
     pantry_notifications :=
       [notif_with_ID
          (CreatePantryNotification 0%Z homeID milkID "Milk"
             NotificationTypeLowStock "Item is running low") 300%N];
     pantry_history := []; next_id := 4096%N |}.

Definition asBob {B : Type} (method path : string) (body : option B)
    : HttpRequest B :=
  {| Method := method; URLPath := path; Query := noQuery;
     Claims := Some {| claims_ID := bobHex |}; Body := body |}.

Definition deleteMilk : HttpRequest unit :=
  asAlice "DELETE" ("/api/pantry/remove/" ++ milkHex) None.

Definition renameDairy (name : string) : HttpRequest UpdateCategoryRequest :=
  asAlice "PUT" ("/api/pantry/categories/" ++ dairyHex)
    (Some {| rename_Name := name |}).

Definition createCategory (name : string) : HttpRequest CreateCategoryRequest :=
  asAlice "POST" "/api/pantry/categories/create"
    (Some {| create_Name := name |}).

Definition listCategoriesHome : HttpRequest unit :=
  {| Method := "GET"; URLPath := "/api/pantry/categories";
     Query := fun key => if String.eqb key "group_name" then "home" else "";
     Claims := Some {| claims_ID := aliceHex |}; Body := None |}.

(** The data-model invariant of the items: every item's category
    reference resolves for the item's group. *)
Definition itemsResolve (db : DB) : Prop :=
  Forall (fun it => categoryAccessible (item_GroupID it) (item_CategoryID it) db)
    (pantry_items db).

(** A category owned by the given group. *)
Definition ownedBy (groupID : ObjectID) (c : PantryCategory) : bool :=
  groupIs (cat_GroupID c) groupID.

(** The entries of the category listing, one category at a time. *)
Definition predefinedEntry (category : PantryCategory) : CategoryWithCreator :=
  {| cwc_ID := cat_ID category; cwc_Name := cat_Name category;
     cwc_Type := PantryCategoryType_string (cat_Type category);
     cwc_GroupID := None; cwc_GroupName := None;
     cwc_CreatedBy := None; cwc_CreatedByID := None |}.

Definition creatorOf (db : DB) (category : PantryCategory) : option User :=
  match cat_CreatedBy category with
  | Some createdBy => FindOne (byID_user createdBy) (users db)
  | None => None
  end.

Definition userDefinedEntry (group : Group) (db : DB)
    (category : PantryCategory) : CategoryWithCreator :=
  {| cwc_ID := cat_ID category; cwc_Name := cat_Name category;
     cwc_Type := PantryCategoryType_string (cat_Type category);
     cwc_GroupID := option_map Hex (cat_GroupID category);
     cwc_GroupName := Some (group_Name group);
     cwc_CreatedBy := option_map user_Name (creatorOf db category);
     cwc_CreatedByID :=
       option_map (fun u => Hex (user_ID u)) (creatorOf db category) |}.

(** The ids a 12-byte ObjectID can take. *)
Definition objectIDBound : N := (16 ^ 24)%N.

(** * Properties *)

Local Open Scope Q_scope.
Local Open Scope list_scope.

(** A handler that has answered with an error has left the store alone:
    the left disjunct of the case lemmas below. *)
Ltac early_return H := left; inversion H; eauto.

(** ** The store primitives *)

Lemma FindOne_byID_item_id : forall id l it,
  FindOne (byID_item id) l = Some it -> item_ID it = id.
Proof.
  intros id l it H. apply find_some in H. destruct H as [_ H].
  unfold byID_item in H. now apply N.eqb_eq in H.
Qed.

Lemma FindOne_In : forall (A : Type) (f : A -> bool) l x,
  FindOne f l = Some x -> In x l /\ f x = true.
Proof. intros A f l x H. now apply find_some in H. Qed.

(** Rewriting the first document with a given id, by a function that keeps
    the id, is seen by a lookup by id as a rewrite of that item alone. *)
Lemma FindOne_UpdateOne_byID : forall id id' set l,
  (forall d, item_ID (set d) = item_ID d) ->
  FindOne (byID_item id') (UpdateOne (byID_item id) set l) =
  if (id' =? id)%N then option_map set (FindOne (byID_item id) l)
  else FindOne (byID_item id') l.
Proof.
  intros id id' set l Hset. unfold FindOne, byID_item.
  induction l as [|d rest IH]; simpl.
  - now destruct (id' =? id)%N.
  - destruct (item_ID d =? id)%N eqn:Ed; simpl.
    + rewrite Hset. apply N.eqb_eq in Ed. rewrite Ed.
      rewrite (N.eqb_sym id id').
      destruct (id' =? id)%N; reflexivity.
    + destruct (item_ID d =? id')%N eqn:Ed'.
      * apply N.eqb_eq in Ed'. subst id'. rewrite Ed. reflexivity.
      * exact IH.
Qed.

Lemma UpdateOne_ext_first : forall (A : Type) (f : A -> bool) (g h : A -> A) l x,
  FindOne f l = Some x -> g x = h x -> UpdateOne f g l = UpdateOne f h l.
Proof.
  intros A f g h l x. induction l as [|d rest IH]; simpl; intros Hf E.
  - discriminate.
  - destruct (f d).
    + injection Hf as ->. now rewrite E.
    + f_equal. now apply IH.
Qed.

Lemma CountDocuments_app : forall (A : Type) (f : A -> bool) l1 l2,
  CountDocuments f (l1 ++ l2) = (CountDocuments f l1 + CountDocuments f l2)%nat.
Proof.
  intros. unfold CountDocuments. now rewrite filter_app, length_app.
Qed.

(** ** Frames of the store writes *)

Lemma items_InsertOne_notification : forall db n,
  pantry_items (InsertOne_notification db n) = pantry_items db.
Proof. reflexivity. Qed.

Lemma items_InsertOne_history : forall db h,
  pantry_items (InsertOne_history db h) = pantry_items db.
Proof. reflexivity. Qed.

Lemma notifications_InsertOne_history : forall db h,
  pantry_notifications (InsertOne_history db h) = pantry_notifications db.
Proof. reflexivity. Qed.

(** ** Quantities under use *)

Lemma Qlt_bool_iff : forall a b, Qlt_bool a b = true <-> a < b.
Proof.
  intros a b. unfold Qlt_bool. rewrite negb_true_iff.
  split; intro H.
  - apply Qnot_le_lt. intro L. apply Qle_bool_iff in L. congruence.
  - destruct (Qle_bool b a) eqn:E; [|reflexivity].
    apply Qle_bool_iff in E. exfalso. exact (Qlt_not_le _ _ H E).
Qed.

Lemma Qlt_bool_false_iff : forall a b, Qlt_bool a b = false <-> b <= a.
Proof.
  intros a b. unfold Qlt_bool. rewrite negb_false_iff. apply Qle_bool_iff.
Qed.

(** What the transaction of use does to the items: nothing, or it lowers
    the quantity of the item it was asked for by the requested amount,
    which the stock covers. *)
Lemma UsePantryItemTxn_items : forall now user itemID request db res db',
  UsePantryItemTxn now user itemID request db = (res, db') ->
  match res with
  | inl _ => db' = db
  | inr response =>
      exists item,
        itemByID itemID db = Some item /\
        item_GroupID item = user_GroupID user /\
        use_Quantity request <= item_Quantity item /\
        resp_RemainingQty response = item_Quantity item - use_Quantity request /\
        pantry_items db' =
          UpdateOne (byID_item itemID)
            (fun d => UpdateQuantity now d
                        (item_Quantity item - use_Quantity request))
            (pantry_items db)
  end.
Proof.
  intros now user itemID request db res db' H.
  unfold UsePantryItemTxn in H.
  destruct (FindOne (byID_item itemID) (pantry_items db)) as [item|] eqn:Ef;
    [|now inversion H].
  destruct (item_GroupID item =? user_GroupID user)%N eqn:Eg;
    [|now inversion H].
  destruct (Qlt_bool (item_Quantity item) (use_Quantity request)) eqn:Eq;
    simpl in H; [now inversion H|].
  inversion H; subst; clear H.
  exists item. split; [exact Ef|]. split; [now apply N.eqb_eq|].
  split; [now apply Qlt_bool_false_iff|]. split; [reflexivity|].
  rewrite (FindOne_byID_item_id _ _ _ Ef).
  destruct (Qlt_bool 0 _ && Qle_bool _ 1);
    destruct (Qeq_bool _ 0); reflexivity.
Qed.

(** Every run of the use handler either answers with an error and leaves
    the store as it was, or passes every check, runs the transaction and
    then appends the history entry. *)
Lemma UsePantryItemHandler_cases : forall now r db resp db',
  UsePantryItemHandler now r db = (resp, db') ->
  (exists msg status, resp = HttpError msg status /\ db' = db) \/
  (exists claims request userID itemID user item response dbT,
      Method r = "POST"%string /\ Claims r = Some claims /\
      Body r = Some request /\
      0 < use_Quantity request /\
      ObjectIDFromHex (claims_ID claims) = Some userID /\
      ObjectIDFromHex (use_ItemID request) = Some itemID /\
      FindOne (byID_user userID) (users db) = Some user /\
      itemByID itemID db = Some item /\
      UsePantryItemTxn now user itemID request db = (inr response, dbT) /\
      resp = HttpOK StatusOK response /\
      db' = UpdatePantryHistoryForUse now (user_GroupID user) itemID
              (item_Name item) userID (user_Name user)
              (use_Quantity request) dbT).
Proof.
  intros now r db resp db' H. unfold UsePantryItemHandler in H.
  destruct (String.eqb (Method r) "POST") eqn:Em;
    [|early_return H].
  destruct (Claims r) as [claims|] eqn:Ec; [|early_return H].
  destruct (Body r) as [request|] eqn:Eb; [|early_return H].
  destruct (String.eqb (use_ItemID request) "" || Qle_bool (use_Quantity request) 0)
    eqn:Ev; simpl in H; [early_return H|].
  destruct (ObjectIDFromHex (claims_ID claims)) as [userID|] eqn:Eu;
    [|early_return H].
  destruct (ObjectIDFromHex (use_ItemID request)) as [itemID|] eqn:Ei;
    [|early_return H].
  destruct (FindOne (byID_user userID) (users db)) as [user|] eqn:Efu;
    [|early_return H].
  destruct (UsePantryItemTxn now user itemID request db) as [[err|response] dbT]
    eqn:Et.
  - left. apply UsePantryItemTxn_items in Et. subst dbT.
    inversion H; eauto.
  - right. pose proof (UsePantryItemTxn_items _ _ _ _ _ _ _ Et) as Hi.
    destruct Hi as (item & Hfind & _ & _ & _ & Hitems).
    assert (Hre : FindOne (byID_item itemID) (pantry_items dbT) =
                  Some (UpdateQuantity now item
                          (item_Quantity item - use_Quantity request))).
    { rewrite Hitems, FindOne_UpdateOne_byID by reflexivity.
      rewrite N.eqb_refl. unfold itemByID in Hfind. now rewrite Hfind. }
    rewrite Hre in H. simpl in H. inversion H; subst; clear H.
    exists claims, request, userID, itemID, user, item, response, dbT.
    apply orb_false_iff in Ev. destruct Ev as [_ Ev].
    repeat split; try reflexivity; try assumption.
    + now apply String.eqb_eq.
    + apply Qnot_le_lt. intro L. apply Qle_bool_iff in L. congruence.
Qed.

(** One use call, seen from any item of the store: the item stays, its
    quantity does not grow, and it does not fall below zero. *)
Lemma UsePantryItemHandler_quantity : forall now r db id q,
  quantityOf id db = Some q ->
  exists q',
    quantityOf id (snd (UsePantryItemHandler now r db)) = Some q' /\
    q' <= q /\ (0 <= q -> 0 <= q').
Proof.
  intros now r db id q Hq.
  destruct (UsePantryItemHandler now r db) as [resp db'] eqn:E. simpl.
  apply UsePantryItemHandler_cases in E.
  destruct E as [(msg & st & _ & ->)|E].
  - exists q. split; [exact Hq|]. split; [apply Qle_refl|tauto].
  - destruct E as (claims & request & userID & itemID & user & item
                   & response & dbT & _ & _ & _ & Hpos & _ & _ & _ & Hfind
                   & Ht & _ & ->).
    apply UsePantryItemTxn_items in Ht.
    destruct Ht as (item' & Hfind' & _ & Hle & _ & Hitems).
    rewrite Hfind in Hfind'. injection Hfind' as <-.
    unfold quantityOf, itemByID, UpdatePantryHistoryForUse in *.
    rewrite items_InsertOne_history, Hitems.
    rewrite FindOne_UpdateOne_byID by reflexivity.
    destruct (id =? itemID)%N eqn:Eid.
    + apply N.eqb_eq in Eid. subst id. rewrite Hfind in *. simpl in *.
      injection Hq as <-.
      exists (item_Quantity item - use_Quantity request).
      split; [reflexivity|]. split.
      * apply Qle_minus_iff. ring_simplify. now apply Qlt_le_weak.
      * intros _. now apply (proj1 (Qle_minus_iff _ _)).
    + exists q. split; [exact Hq|]. split; [apply Qle_refl|tauto].
Qed.

Lemma runUses_app : forall calls1 calls2 db,
  runUses (calls1 ++ calls2) db = runUses calls2 (runUses calls1 db).
Proof. intros. unfold runUses. apply fold_left_app. Qed.

Lemma runUses_quantity : forall calls db id q,
  quantityOf id db = Some q -> 0 <= q ->
  exists q', quantityOf id (runUses calls db) = Some q' /\ 0 <= q' /\ q' <= q.
Proof.
  induction calls as [|c calls IH]; intros db id q Hq Hpos; simpl.
  - exists q. split; [exact Hq|]. split; [exact Hpos|apply Qle_refl].
  - destruct (UsePantryItemHandler_quantity (fst c) (snd c) db id q Hq)
      as (q1 & Hq1 & Hle1 & Hpos1).
    destruct (IH (runUse db c) id q1 Hq1 (Hpos1 Hpos)) as (q2 & Hq2 & Hpos2 & Hle2).
    exists q2. split; [exact Hq2|]. split; [exact Hpos2|].
    now apply Qle_trans with q1.
Qed.

(** C1. A use call that asks for more than the item's stock is answered
    with the error "not enough quantity available" and leaves the whole
    store, the item included, as it was; and along every sequence of use
    calls the quantity of an item with non-negative stock never grows and
    never becomes negative. *)
Theorem use_never_overdraws :
  (forall now r db claims request userID itemID user item,
      Method r = "POST"%string -> Claims r = Some claims ->
      Body r = Some request ->
      ObjectIDFromHex (claims_ID claims) = Some userID ->
      ObjectIDFromHex (use_ItemID request) = Some itemID ->
      FindOne (byID_user userID) (users db) = Some user ->
      itemByID itemID db = Some item ->
      item_GroupID item = user_GroupID user ->
      0 <= item_Quantity item ->
      item_Quantity item < use_Quantity request ->
      UsePantryItemHandler now r db =
        (HttpError "not enough quantity available" StatusBadRequest, db)) /\
  (forall before after db id q,
      quantityOf id db = Some q -> 0 <= q ->
      exists q1 q2,
        quantityOf id (runUses before db) = Some q1 /\
        quantityOf id (runUses (before ++ after) db) = Some q2 /\
        0 <= q2 /\ q2 <= q1 /\ q1 <= q).
Proof.
  split.
  - intros now r db claims request userID itemID user item
      Hm Hc Hb Hu Hi Hfu Hfi Hg Hpos Hlt.
    unfold UsePantryItemHandler.
    rewrite Hm, Hc, Hb. simpl.
    assert (Hne : String.eqb (use_ItemID request) "" = false).
    { apply String.eqb_neq. intro E. rewrite E in Hi. discriminate. }
    assert (Hq : Qle_bool (use_Quantity request) 0 = false).
    { destruct (Qle_bool (use_Quantity request) 0) eqn:E; [|reflexivity].
      apply Qle_bool_iff in E. exfalso.
      apply (Qlt_not_le _ _ Hlt). now apply Qle_trans with 0. }
    rewrite Hne, Hq, Hu, Hi, Hfu. simpl.
    unfold UsePantryItemTxn. unfold itemByID in Hfi. rewrite Hfi, Hg, N.eqb_refl.
    apply Qlt_bool_iff in Hlt. rewrite Hlt. reflexivity.
  - intros before after db id q Hq Hpos.
    destruct (runUses_quantity before db id q Hq Hpos) as (q1 & Hq1 & Hpos1 & Hle1).
    destruct (runUses_quantity after (runUses before db) id q1 Hq1 Hpos1)
      as (q2 & Hq2 & Hpos2 & Hle2).
    exists q1, q2. rewrite runUses_app. auto.
Qed.

(** The spec's scenario: Milk at 0 L, a use of 0.1 L. *)
Lemma use_never_overdraws_witness :
  UsePantryItemHandler noon (useMilk (1 # 10)) (pantryWith [milk 0]) =
    (HttpError "not enough quantity available" StatusBadRequest,
     pantryWith [milk 0]).
Proof.
  apply (proj1 use_never_overdraws noon (useMilk (1 # 10)) (pantryWith [milk 0])
           {| claims_ID := aliceHex |}
           {| use_ItemID := milkHex; use_Quantity := 1 # 10 |}
           aliceID milkID alice (milk 0));
    try reflexivity.
  - discriminate.
Defined.

(** ** Notifications and history under use *)

Lemma CountDocuments_ext : forall (A : Type) (f g : A -> bool) l,
  (forall x, In x l -> f x = g x) -> CountDocuments f l = CountDocuments g l.
Proof.
  intros A f g l H. unfold CountDocuments. f_equal. now apply filter_ext_in.
Qed.

Lemma CountDocuments_DeleteMany : forall (A : Type) (f g : A -> bool) l,
  CountDocuments f (DeleteMany g l) =
  CountDocuments (fun x => negb (g x) && f x) l.
Proof.
  intros A f g l. unfold CountDocuments, DeleteMany.
  induction l as [|x rest IH]; simpl; [reflexivity|].
  destruct (g x); simpl; [exact IH|].
  destruct (f x); simpl; now rewrite IH.
Qed.

Lemma CountDocuments_none : forall (A : Type) (f : A -> bool) l,
  (forall x, In x l -> f x = false) -> CountDocuments f l = 0%nat.
Proof.
  intros A f l H. unfold CountDocuments.
  induction l as [|x rest IH]; simpl; [reflexivity|].
  rewrite (H x (or_introl eq_refl)). apply IH.
  intros y Hy. apply H. now right.
Qed.

Lemma NotificationType_eqb_eq : forall a b,
  NotificationType_eqb a b = true <-> a = b.
Proof. intros [] []; simpl; split; congruence. Qed.

(** Deleting the low_stock notifications of an item leaves none of them
    and touches no notification of another type. *)
Lemma countNotifications_after_retract : forall itemID id ty l,
  CountDocuments (notificationFilter id ty) (DeleteMany (lowStockFilter itemID) l) =
  if (id =? itemID)%N && NotificationType_eqb ty NotificationTypeLowStock
  then 0%nat else CountDocuments (notificationFilter id ty) l.
Proof.
  intros itemID id ty l. rewrite CountDocuments_DeleteMany.
  destruct ((id =? itemID)%N && NotificationType_eqb ty NotificationTypeLowStock)
    eqn:E.
  - apply andb_true_iff in E. destruct E as [E1 E2].
    apply N.eqb_eq in E1. apply NotificationType_eqb_eq in E2. subst.
    apply CountDocuments_none. intros x _.
    unfold lowStockFilter, notificationFilter.
    apply andb_negb_l.
  - apply CountDocuments_ext. intros x _.
    unfold lowStockFilter, notificationFilter.
    destruct (notif_ItemID x =? id)%N eqn:E1; simpl;
      [|now rewrite andb_false_r].
    destruct (NotificationType_eqb (notif_Type x) ty) eqn:E2; simpl;
      [|now rewrite andb_false_r].
    rewrite andb_true_r.
    apply N.eqb_eq in E1. apply NotificationType_eqb_eq in E2. subst.
    rewrite E. reflexivity.
Qed.

Lemma countNotifications_appended : forall id ty l n,
  CountDocuments (notificationFilter id ty) (l ++ [n]) =
  (CountDocuments (notificationFilter id ty) l
   + if notificationFilter id ty n then 1 else 0)%nat.
Proof.
  intros. rewrite CountDocuments_app. f_equal.
  unfold CountDocuments. simpl. now destruct (notificationFilter id ty n).
Qed.

(** What the transaction of use writes besides the item: the history is
    not touched, and the notifications follow the remaining quantity. *)
Lemma UsePantryItemTxn_notifications :
  forall now user itemID request db response db',
  UsePantryItemTxn now user itemID request db = (inr response, db') ->
  exists item,
    itemByID itemID db = Some item /\
    pantry_history db' = pantry_history db /\
    ((0 < resp_RemainingQty response /\ resp_RemainingQty response <= 1 /\
      pantry_notifications db' =
        pantry_notifications db ++
        [notif_with_ID
           (CreatePantryNotification now (item_GroupID item) itemID
              (item_Name item) NotificationTypeLowStock "Item is running low")
           (next_id db)]) \/
     (resp_RemainingQty response == 0 /\
      pantry_notifications db' =
        DeleteMany (lowStockFilter itemID) (pantry_notifications db) ++
        [notif_with_ID
           (CreatePantryNotification now (item_GroupID item) itemID
              (item_Name item) NotificationTypeOutOfStock "Item is out of stock")
           (next_id db)]) \/
     (1 < resp_RemainingQty response /\
      pantry_notifications db' = pantry_notifications db)).
Proof.
  intros now user itemID request db response db' H.
  unfold UsePantryItemTxn in H.
  destruct (FindOne (byID_item itemID) (pantry_items db)) as [item|] eqn:Ef;
    [|now inversion H].
  destruct (item_GroupID item =? user_GroupID user)%N eqn:Eg;
    [|now inversion H].
  destruct (Qlt_bool (item_Quantity item) (use_Quantity request)) eqn:Eq;
    simpl in H; [now inversion H|].
  apply Qlt_bool_false_iff in Eq.
  pose proof (FindOne_byID_item_id _ _ _ Ef) as Hid.
  set (q := item_Quantity item - use_Quantity request) in *.
  assert (Hq0 : 0 <= q).
  { unfold q. now apply (proj1 (Qle_minus_iff _ _)). }
  exists item. split; [exact Ef|].
  cbn [item_ID item_GroupID item_Name UpdateQuantity] in H.
  rewrite Hid in H.
  destruct (Qlt_bool 0 q && Qle_bool q 1) eqn:Elow.
  - apply andb_true_iff in Elow. destruct Elow as [E1 E2].
    apply Qlt_bool_iff in E1. apply Qle_bool_iff in E2.
    destruct (Qeq_bool q 0) eqn:Ez.
    + apply Qeq_bool_iff in Ez. rewrite Ez in E1.
      exfalso. exact (Qlt_irrefl _ E1).
    + injection H as <- <-. simpl.
      split; [reflexivity|]. left. auto.
  - destruct (Qeq_bool q 0) eqn:Ez.
    + apply Qeq_bool_iff in Ez.
      injection H as <- <-. simpl.
      split; [reflexivity|]. right. left. auto.
    + injection H as <- <-. simpl.
      split; [reflexivity|]. right. right. split; [|reflexivity].
      apply andb_false_iff in Elow. destruct Elow as [E|E].
      * apply Qlt_bool_false_iff in E. exfalso.
        apply Qeq_bool_neq in Ez. apply Ez. now apply Qle_antisym.
      * apply Qnot_le_lt. intro L. apply Qle_bool_iff in L. congruence.
Qed.

(** C3 (as the code has it). A successful use that leaves a quantity in
    (0, 1] adds one low_stock notification for the item to those already
    there and touches no out_of_stock notification; a use that leaves
    exactly 0 removes every low_stock notification of the item and adds
    one out_of_stock notification to those already there; a use that
    leaves more than 1 changes neither count. *)
Theorem use_stock_notifications :
  forall now r db response db' request itemID,
  UsePantryItemHandler now r db = (HttpOK StatusOK response, db') ->
  Body r = Some request ->
  ObjectIDFromHex (use_ItemID request) = Some itemID ->
  quantityOf itemID db' = Some (resp_RemainingQty response) /\
  (0 < resp_RemainingQty response /\ resp_RemainingQty response <= 1 ->
   countNotifications itemID NotificationTypeLowStock db' =
     S (countNotifications itemID NotificationTypeLowStock db) /\
   countNotifications itemID NotificationTypeOutOfStock db' =
     countNotifications itemID NotificationTypeOutOfStock db) /\
  (resp_RemainingQty response == 0 ->
   countNotifications itemID NotificationTypeLowStock db' = 0%nat /\
   countNotifications itemID NotificationTypeOutOfStock db' =
     S (countNotifications itemID NotificationTypeOutOfStock db)) /\
  (1 < resp_RemainingQty response ->
   countNotifications itemID NotificationTypeLowStock db' =
     countNotifications itemID NotificationTypeLowStock db /\
   countNotifications itemID NotificationTypeOutOfStock db' =
     countNotifications itemID NotificationTypeOutOfStock db).
Proof.
  intros now r db response db' request itemID H Hb Hi.
  apply UsePantryItemHandler_cases in H.
  destruct H as [(msg & st & Habs & _)|H]; [discriminate|].
  destruct H as (claims & request' & userID & itemID' & user & item
                 & response' & dbT & _ & _ & Hb' & _ & _ & Hi' & _ & Hfind
                 & Ht & Hresp & ->).
  rewrite Hb in Hb'. injection Hb' as <-.
  rewrite Hi in Hi'. injection Hi' as <-.
  injection Hresp as <-.
  pose proof (UsePantryItemTxn_items _ _ _ _ _ _ _ Ht) as Hitems.
  destruct Hitems as (item' & Hfind' & _ & _ & Hrem & Hitems).
  rewrite Hfind in Hfind'. injection Hfind' as <-.
  pose proof (UsePantryItemTxn_notifications _ _ _ _ _ _ _ Ht) as Hn.
  destruct Hn as (item' & Hfind' & _ & Hn).
  rewrite Hfind in Hfind'. injection Hfind' as <-.
  unfold countNotifications, UpdatePantryHistoryForUse.
  rewrite notifications_InsertOne_history.
  split.
  { unfold quantityOf, itemByID. rewrite items_InsertOne_history, Hitems.
    rewrite FindOne_UpdateOne_byID by reflexivity. rewrite N.eqb_refl.
    unfold itemByID in Hfind. rewrite Hfind. simpl. now rewrite Hrem. }
  destruct Hn as [(Hpos & Hle & Hn)|[(Hz & Hn)|(Hgt & Hn)]]; rewrite Hn.
  - split; [|split].
    + intros _. rewrite !countNotifications_appended.
      unfold notificationFilter. simpl. rewrite N.eqb_refl. simpl. lia.
    + intros Hz. rewrite Hz in Hpos. exfalso. exact (Qlt_irrefl _ Hpos).
    + intros Hgt. exfalso. exact (Qlt_not_le _ _ Hgt Hle).
  - split; [|split].
    + intros [Hpos _]. rewrite Hz in Hpos. exfalso. exact (Qlt_irrefl _ Hpos).
    + intros _. rewrite !countNotifications_appended.
      rewrite !countNotifications_after_retract.
      unfold notificationFilter. simpl. rewrite N.eqb_refl. simpl. lia.
    + intros Hgt. rewrite Hz in Hgt. discriminate.
  - split; [|split].
    + intros [_ Hle]. exfalso. exact (Qlt_not_le _ _ Hgt Hle).
    + intros Hz. rewrite Hz in Hgt. discriminate.
    + auto.
Qed.

(** The spec's scenario: Milk at 2 L, a use of 1.5 L leaves 0.5 L. *)
Lemma use_stock_notifications_witness :
  quantityOf milkID
    (snd (UsePantryItemHandler noon (useMilk (3 # 2)) (pantryWith [milk 2])))
  = Some (2 - (3 # 2)) /\
  countNotifications milkID NotificationTypeLowStock
    (snd (UsePantryItemHandler noon (useMilk (3 # 2)) (pantryWith [milk 2])))
  = 1%nat.
Proof.
  destruct (use_stock_notifications noon (useMilk (3 # 2)) (pantryWith [milk 2])
              {| resp_Success := true;
                 resp_Message := "Item used successfully";
                 resp_RemainingQty := 2 - (3 # 2); resp_Unit := "L" |}
              (snd (UsePantryItemHandler noon (useMilk (3 # 2))
                      (pantryWith [milk 2])))
              {| use_ItemID := milkHex; use_Quantity := 3 # 2 |} milkID
              eq_refl eq_refl eq_refl) as (Hq & Hlow & _).
  split; [exact Hq|].
  apply Hlow. split; reflexivity || discriminate.
Defined.

(** C3, the claim as written fails: a second use that lands in (0, 1]
    adds a second low_stock notification; and a use that lands in (0, 1]
    on an item still notified as out of stock leaves both kinds. *)
Lemma use_low_stock_accumulates :
  countNotifications milkID NotificationTypeLowStock milkUsedOnce = 1%nat /\
  quantityOf milkID milkUsedTwice = Some (2 - 1 - (1 # 2)) /\
  countNotifications milkID NotificationTypeLowStock milkUsedTwice = 2%nat /\
  atMostOneStockNotification milkID milkUsedTwice = false /\
  countNotifications milkID NotificationTypeLowStock milkLowAfterRestock
    = 1%nat /\
  countNotifications milkID NotificationTypeOutOfStock milkLowAfterRestock
    = 1%nat.
Proof. repeat split. Qed.

(** C7. A successful use call appends exactly one history entry; its
    action is [use] and its quantity is the negative of the amount the
    request consumed. *)
Theorem use_appends_history : forall now r db response db' request,
  UsePantryItemHandler now r db = (HttpOK StatusOK response, db') ->
  Body r = Some request ->
  exists entry,
    pantry_history db' = pantry_history db ++ [entry] /\
    hist_Action entry = ActionUse /\
    hist_Quantity entry = - use_Quantity request /\
    ObjectIDFromHex (use_ItemID request) = Some (hist_ItemID entry).
Proof.
  intros now r db response db' request H Hb.
  apply UsePantryItemHandler_cases in H.
  destruct H as [(msg & st & Habs & _)|H]; [discriminate|].
  destruct H as (claims & request' & userID & itemID & user & item
                 & response' & dbT & _ & _ & Hb' & _ & _ & Hi & _ & _
                 & Ht & _ & ->).
  rewrite Hb in Hb'. injection Hb' as <-.
  apply UsePantryItemTxn_notifications in Ht.
  destruct Ht as (_ & _ & Hh & _).
  unfold UpdatePantryHistoryForUse, InsertOne_history. simpl. rewrite Hh.
  eexists. split; [reflexivity|]. simpl. auto.
Qed.

Lemma use_appends_history_witness :
  exists entry,
    pantry_history
      (snd (UsePantryItemHandler noon (useMilk (3 # 2)) (pantryWith [milk 2])))
    = [] ++ [entry] /\
    hist_Action entry = ActionUse /\
    hist_Quantity entry = - (3 # 2) /\
    ObjectIDFromHex milkHex = Some (hist_ItemID entry).
Proof.
  exact (use_appends_history noon (useMilk (3 # 2)) (pantryWith [milk 2])
           {| resp_Success := true;
              resp_Message := "Item used successfully";
              resp_RemainingQty := 2 - (3 # 2); resp_Unit := "L" |}
           (snd (UsePantryItemHandler noon (useMilk (3 # 2))
                   (pantryWith [milk 2])))
           {| use_ItemID := milkHex; use_Quantity := 3 # 2 |}
           eq_refl eq_refl).
Defined.

(** ** Add and update *)

Lemma FindOne_app : forall (A : Type) (f : A -> bool) l1 l2,
  FindOne f (l1 ++ l2) =
  match FindOne f l1 with
  | Some x => Some x
  | None => FindOne f l2
  end.
Proof.
  intros A f l1 l2. unfold FindOne.
  induction l1 as [|x rest IH]; simpl; [reflexivity|].
  now destruct (f x).
Qed.

(** With unique ids, a document of the collection is the one a lookup by
    its id returns. *)
Lemma FindOne_byID_unique : forall l x,
  NoDup (map item_ID l) -> In x l ->
  FindOne (byID_item (item_ID x)) l = Some x.
Proof.
  unfold FindOne, byID_item.
  induction l as [|d rest IH]; intros x Hnd Hin; simpl in *; [contradiction|].
  inversion Hnd as [|? ? Hnotin Hnd']; subst.
  destruct Hin as [->|Hin].
  - now rewrite N.eqb_refl.
  - destruct (item_ID d =? item_ID x)%N eqn:E.
    + apply N.eqb_eq in E. exfalso. apply Hnotin. rewrite E.
      now apply in_map.
    + now apply IH.
Qed.


Lemma expirationNotification_items : forall now g e it db,
  pantry_items (expirationNotification now g e it db) = pantry_items db.
Proof.
  intros. unfold expirationNotification.
  now destruct (negb (IsZero e) && IsExpiringSoon now it 3).
Qed.

Lemma expirationNotification_history : forall now g e it db,
  pantry_history (expirationNotification now g e it db) = pantry_history db.
Proof.
  intros. unfold expirationNotification.
  now destruct (negb (IsZero e) && IsExpiringSoon now it 3).
Qed.

Lemma expirationNotification_notifications : forall now g e it db,
  pantry_notifications (expirationNotification now g e it db) =
  pantry_notifications db ++
  (if negb (IsZero e) && IsExpiringSoon now it 3
   then [notif_with_ID
           (CreatePantryNotification now g (item_ID it) (item_Name it)
              NotificationTypeExpiringSoon
              "Item will expire in 3 days or less")
           (next_id db)]
   else []).
Proof.
  intros. unfold expirationNotification.
  destruct (negb (IsZero e) && IsExpiringSoon now it 3); simpl.
  - reflexivity.
  - now rewrite app_nil_r.
Qed.

(** The transaction of add: an error before any write, or the rewrite of
    the first item the lookup matches, or the insertion of a new item;
    then the expiration notification. *)
Lemma AddPantryItemTxn_cases :
  forall env now group userID categoryID e request db res db',
  AddPantryItemTxn env now group userID categoryID e request db = (res, db') ->
  (exists err, res = inl err /\ db' = db) \/
  (exists matcher old,
      regex_compile env (addLookupPattern (add_Name request)) "i"
        = Some matcher /\
      FindOne (addLookupFilter matcher (group_ID group) categoryID)
        (pantry_items db) = Some old /\
      res = inr (addOverwrite now old (add_Quantity request)
                   (add_Unit request) e, false, item_Quantity old) /\
      db' = expirationNotification now (group_ID group) e
              (addOverwrite now old (add_Quantity request)
                 (add_Unit request) e)
              (with_items db
                 (UpdateOne (byID_item (item_ID old))
                    (fun _ => addOverwrite now old (add_Quantity request)
                                (add_Unit request) e)
                    (pantry_items db)))) \/
  (exists matcher,
      regex_compile env (addLookupPattern (add_Name request)) "i"
        = Some matcher /\
      FindOne (addLookupFilter matcher (group_ID group) categoryID)
        (pantry_items db) = None /\
      res = inr (item_with_ID
                   (CreatePantryItem now (group_ID group) (add_Name request)
                      (add_Quantity request) (add_Unit request) categoryID
                      e userID) (next_id db), true, 0) /\
      db' = expirationNotification now (group_ID group) e
              (item_with_ID
                 (CreatePantryItem now (group_ID group) (add_Name request)
                    (add_Quantity request) (add_Unit request) categoryID
                    e userID) (next_id db))
              (snd (InsertOne_item db
                      (CreatePantryItem now (group_ID group)
                         (add_Name request) (add_Quantity request)
                         (add_Unit request) categoryID e userID)))).
Proof.
  intros env now group userID categoryID e request db res db' H.
  unfold AddPantryItemTxn in H.
  destruct (regex_compile env (addLookupPattern (add_Name request)) "i")
    as [matcher|] eqn:Ec.
  - destruct (FindOne (addLookupFilter matcher (group_ID group) categoryID)
                (pantry_items db)) as [old|] eqn:Ef.
    + right. left. exists matcher, old. injection H as <- <-. auto.
    + right. right. exists matcher. simpl in H. injection H as <- <-. auto.
  - left. injection H as <- <-. eauto.
Qed.

Lemma validateCategoryID_ok : forall s g db category,
  validateCategoryID s g db = inr category ->
  exists categoryID,
    ObjectIDFromHex s = Some categoryID /\
    FindOne (fun c => byID_category categoryID c && visibleTo g c)
      (pantry_categories db) = Some category.
Proof.
  intros s g db category H. unfold validateCategoryID in H.
  destruct (ObjectIDFromHex s) as [categoryID|]; [|discriminate].
  exists categoryID. split; [reflexivity|].
  destruct (FindOne _ _); [|discriminate]. now injection H as ->.
Qed.

(** Every run of the add handler either answers with an error and leaves
    the store as it was, or passes every check, runs the transaction and
    then writes the history. *)
Lemma AddPantryItemHandler_cases : forall env now r db resp db',
  AddPantryItemHandler env now r db = (resp, db') ->
  (exists msg status, resp = HttpError msg status /\ db' = db) \/
  (exists claims request group userID user category categoryID e
          pantryItem isNewItem oldQuantity dbT,
      Claims r = Some claims /\ Body r = Some request /\
      0 <= add_Quantity request /\
      FindOne (byName_group (add_GroupName request)) (groups db) = Some group /\
      ObjectIDFromHex (claims_ID claims) = Some userID /\
      FindOne (byID_user userID) (users db) = Some user /\
      user_GroupID user = group_ID group /\
      validateCategoryID (add_CategoryID request) (group_ID group) db
        = inr category /\
      ObjectIDFromHex (add_CategoryID request) = Some categoryID /\
      parseExpiration env (add_ExpirationDate request) = Some e /\
      AddPantryItemTxn env now group userID categoryID e request db
        = (inr (pantryItem, isNewItem, oldQuantity), dbT) /\
      resp = HttpOK StatusOK
               {| view_PantryItem := pantryItem;
                  view_CategoryInfo := categoryInfoOf category;
                  view_IsExpiringSoon := IsExpiringSoon now pantryItem 3;
                  view_IsExpired := IsExpired now pantryItem;
                  view_AddedByName := user_Name user |} /\
      db' = (if isNewItem then
               UpdatePantryHistoryForAdd now (group_ID group)
                 (item_ID pantryItem) (item_Name pantryItem) userID
                 (user_Name user) (add_Quantity request) dbT
             else if negb (Qeq_bool oldQuantity (add_Quantity request)) then
               UpdatePantryHistoryForAdd now (group_ID group)
                 (item_ID pantryItem) (item_Name pantryItem) userID
                 (user_Name user) (add_Quantity request - oldQuantity) dbT
             else dbT)).
Proof.
  intros env now r db resp db' H. unfold AddPantryItemHandler in H.
  destruct (String.eqb (Method r) "POST"); [|early_return H].
  destruct (Claims r) as [claims|]; [|early_return H].
  destruct (Body r) as [request|]; [|early_return H].
  destruct (String.eqb (add_Name request) "" || _ || _ || _ || _) eqn:Ev;
    simpl in H; [early_return H|].
  destruct (FindOne (byName_group _) _) as [group|] eqn:Eg;
    [|early_return H].
  destruct (ObjectIDFromHex (claims_ID claims)) as [userID|] eqn:Eu;
    [|early_return H].
  destruct (FindOne (byID_user userID) (users db)) as [user|] eqn:Efu;
    [|early_return H].
  destruct (user_GroupID user =? group_ID group)%N eqn:Em;
    [|early_return H].
  destruct (validateCategoryID _ _ db) as [err|category] eqn:Ecat;
    [early_return H|].
  destruct (validateCategoryID_ok _ _ _ _ Ecat) as (categoryID & Ehex & _).
  rewrite Ehex in H.
  destruct (parseExpiration env _) as [e|] eqn:Ee;
    [|early_return H].
  destruct (AddPantryItemTxn env now group userID categoryID e request db)
    as [[err|[[pantryItem isNewItem] oldQuantity]] dbT] eqn:Et.
  - left. apply AddPantryItemTxn_cases in Et.
    destruct Et as [(err' & _ & ->)|[Et|Et]].
    + inversion H; eauto.
    + destruct Et as (? & ? & _ & _ & Habs & _). discriminate.
    + destruct Et as (? & _ & _ & Habs & _). discriminate.
  - right.
    exists claims, request, group, userID, user, category, categoryID, e,
      pantryItem, isNewItem, oldQuantity, dbT.
    injection H as <- <-.
    repeat rewrite orb_false_iff in Ev.
    destruct Ev as [[[[_ Eq] _] _] _].
    apply Qlt_bool_false_iff in Eq. apply N.eqb_eq in Em.
    repeat split; auto.
Qed.

(** The transaction of update: an error before any write, or the rewrite
    of the item with the requested id; then the expiration notification. *)
Lemma UpdatePantryItemTxn_cases :
  forall now group user itemID categoryID e request db res db',
  UpdatePantryItemTxn now group user itemID categoryID e request db
    = (res, db') ->
  (exists err, res = inl err /\ db' = db) \/
  (exists old,
      itemByID itemID db = Some old /\
      item_GroupID old = user_GroupID user /\
      res = inr (updateOverwrite now old (upd_Name request)
                   (upd_Quantity request) (upd_Unit request) categoryID e,
                 item_Quantity old) /\
      db' = expirationNotification now (group_ID group) e
              (updateOverwrite now old (upd_Name request)
                 (upd_Quantity request) (upd_Unit request) categoryID e)
              (with_items db
                 (UpdateOne (byID_item itemID)
                    (fun _ => updateOverwrite now old (upd_Name request)
                                (upd_Quantity request) (upd_Unit request)
                                categoryID e)
                    (pantry_items db)))).
Proof.
  intros now group user itemID categoryID e request db res db' H.
  unfold UpdatePantryItemTxn in H.
  destruct (FindOne (byID_item itemID) (pantry_items db)) as [old|] eqn:Ef;
    [|left; injection H as <- <-; eauto].
  destruct (item_GroupID old =? user_GroupID user)%N eqn:Eg;
    [|left; injection H as <- <-; eauto].
  right. exists old. apply N.eqb_eq in Eg.
  cbn [item_ID updateOverwrite] in H.
  rewrite (FindOne_byID_item_id _ _ _ Ef) in H.
  injection H as <- <-. auto.
Qed.

(** Every run of the update handler either answers with an error and
    leaves the store as it was, or passes every check, runs the
    transaction and then writes the history. *)
Lemma UpdatePantryItemHandler_cases : forall env now r db resp db',
  UpdatePantryItemHandler env now r db = (resp, db') ->
  (exists msg status, resp = HttpError msg status /\ db' = db) \/
  (exists claims request itemID group userID user category categoryID e
          pantryItem oldQuantity dbT,
      Claims r = Some claims /\ Body r = Some request /\
      ObjectIDFromHex (TrimPrefix (URLPath r) "/api/pantry/update/")
        = Some itemID /\
      0 <= upd_Quantity request /\
      FindOne (byName_group (upd_GroupName request)) (groups db) = Some group /\
      ObjectIDFromHex (claims_ID claims) = Some userID /\
      FindOne (byID_user userID) (users db) = Some user /\
      user_GroupID user = group_ID group /\
      validateCategoryID (upd_CategoryID request) (group_ID group) db
        = inr category /\
      ObjectIDFromHex (upd_CategoryID request) = Some categoryID /\
      parseExpiration env (upd_ExpirationDate request) = Some e /\
      UpdatePantryItemTxn now group user itemID categoryID e request db
        = (inr (pantryItem, oldQuantity), dbT) /\
      resp = HttpOK StatusOK
               {| view_PantryItem := pantryItem;
                  view_CategoryInfo := categoryInfoOf category;
                  view_IsExpiringSoon := IsExpiringSoon now pantryItem 3;
                  view_IsExpired := IsExpired now pantryItem;
                  view_AddedByName := user_Name user |} /\
      db' = (if negb (Qeq_bool oldQuantity (upd_Quantity request)) then
               UpdatePantryHistoryForAdd now (group_ID group)
                 (item_ID pantryItem) (item_Name pantryItem) userID
                 (user_Name user) (upd_Quantity request - oldQuantity) dbT
             else dbT)).
Proof.
  intros env now r db resp db' H. unfold UpdatePantryItemHandler in H.
  destruct (String.eqb (Method r) "PUT"); [|early_return H].
  destruct (Claims r) as [claims|]; [|early_return H].
  destruct (String.eqb (TrimPrefix (URLPath r) "/api/pantry/update/") "");
    simpl in H; [early_return H|].
  destruct (ObjectIDFromHex (TrimPrefix _ _)) as [itemID|] eqn:Ei;
    [|early_return H].
  destruct (Body r) as [request|]; [|early_return H].
  destruct (String.eqb (upd_Name request) "" || _ || _ || _ || _) eqn:Ev;
    simpl in H; [early_return H|].
  destruct (FindOne (byName_group _) _) as [group|] eqn:Eg;
    [|early_return H].
  destruct (ObjectIDFromHex (claims_ID claims)) as [userID|] eqn:Eu;
    [|early_return H].
  destruct (FindOne (byID_user userID) (users db)) as [user|] eqn:Efu;
    [|early_return H].
  destruct (user_GroupID user =? group_ID group)%N eqn:Em;
    [|early_return H].
  destruct (validateCategoryID _ _ db) as [err|category] eqn:Ecat;
    [early_return H|].
  destruct (validateCategoryID_ok _ _ _ _ Ecat) as (categoryID & Ehex & _).
  rewrite Ehex in H.
  destruct (parseExpiration env _) as [e|] eqn:Ee;
    [|early_return H].
  destruct (UpdatePantryItemTxn now group user itemID categoryID e request db)
    as [[err|[pantryItem oldQuantity]] dbT] eqn:Et.
  - left. apply UpdatePantryItemTxn_cases in Et.
    destruct Et as [(err' & _ & ->)|Et].
    + inversion H; eauto.
    + destruct Et as (? & _ & _ & Habs & _). discriminate.
  - right.
    exists claims, request, itemID, group, userID, user, category,
      categoryID, e, pantryItem, oldQuantity, dbT.
    injection H as <- <-.
    repeat rewrite orb_false_iff in Ev.
    destruct Ev as [[[[_ Eq] _] _] _].
    apply Qlt_bool_false_iff in Eq. apply N.eqb_eq in Em.
    repeat split; auto.
Qed.

(** The history write leaves items and notifications alone. *)
Lemma UpdatePantryHistoryForAdd_items : forall now g i n u un q db,
  pantry_items (UpdatePantryHistoryForAdd now g i n u un q db) = pantry_items db.
Proof. reflexivity. Qed.

Lemma UpdatePantryHistoryForAdd_notifications : forall now g i n u un q db,
  pantry_notifications (UpdatePantryHistoryForAdd now g i n u un q db)
  = pantry_notifications db.
Proof. reflexivity. Qed.

(** The notifications after add: unchanged when the handler answers with
    an error; otherwise those before, followed by one expiring_soon
    notification for the item when the request carries a date and the item
    is expiring soon. *)
Lemma AddPantryItemHandler_notifications : forall env now r db resp db',
  AddPantryItemHandler env now r db = (resp, db') ->
  (exists msg status, resp = HttpError msg status /\ db' = db) \/
  (exists view request e n,
      resp = HttpOK StatusOK view /\ Body r = Some request /\
      parseExpiration env (add_ExpirationDate request) = Some e /\
      notif_ItemID n = item_ID (view_PantryItem view) /\
      notif_Type n = NotificationTypeExpiringSoon /\
      pantry_notifications db' =
        pantry_notifications db ++
        (if negb (IsZero e) && view_IsExpiringSoon view then [n] else [])).
Proof.
  intros env now r db resp db' H.
  apply AddPantryItemHandler_cases in H.
  destruct H as [H|H]; [now left|right].
  destruct H as (claims & request & group & userID & user & category
                 & categoryID & e & pantryItem & isNewItem & oldQuantity
                 & dbT & _ & Hb & _ & _ & _ & _ & _ & _ & _ & He & Ht
                 & -> & ->).
  assert (Hn : pantry_notifications dbT =
               pantry_notifications db ++
               (if negb (IsZero e) && IsExpiringSoon now pantryItem 3
                then [notif_with_ID
                        (CreatePantryNotification now (group_ID group)
                           (item_ID pantryItem) (item_Name pantryItem)
                           NotificationTypeExpiringSoon
                           "Item will expire in 3 days or less")
                        (if isNewItem then N.succ (next_id db) else next_id db)]
                else [])).
  { apply AddPantryItemTxn_cases in Ht.
    destruct Ht as [(err & Habs & _)|[Ht|Ht]]; [discriminate| |].
    - destruct Ht as (matcher & old & _ & _ & Hres & ->).
      injection Hres as -> -> ->.
      now rewrite expirationNotification_notifications.
    - destruct Ht as (matcher & _ & _ & Hres & ->).
      injection Hres as -> -> ->.
      now rewrite expirationNotification_notifications. }
  eexists _, request, e,
    (notif_with_ID
       (CreatePantryNotification now (group_ID group) (item_ID pantryItem)
          (item_Name pantryItem) NotificationTypeExpiringSoon
          "Item will expire in 3 days or less")
       (if isNewItem then N.succ (next_id db) else next_id db)).
  split; [reflexivity|].
  split; [exact Hb|]. split; [exact He|].
  split; [reflexivity|]. split; [reflexivity|].
  destruct isNewItem;
    [|destruct (negb (Qeq_bool oldQuantity (add_Quantity request)))];
    rewrite ?UpdatePantryHistoryForAdd_notifications; exact Hn.
Qed.

Lemma UpdatePantryItemHandler_notifications : forall env now r db resp db',
  UpdatePantryItemHandler env now r db = (resp, db') ->
  (exists msg status, resp = HttpError msg status /\ db' = db) \/
  (exists view request e n,
      resp = HttpOK StatusOK view /\ Body r = Some request /\
      parseExpiration env (upd_ExpirationDate request) = Some e /\
      notif_ItemID n = item_ID (view_PantryItem view) /\
      notif_Type n = NotificationTypeExpiringSoon /\
      pantry_notifications db' =
        pantry_notifications db ++
        (if negb (IsZero e) && view_IsExpiringSoon view then [n] else [])).
Proof.
  intros env now r db resp db' H.
  apply UpdatePantryItemHandler_cases in H.
  destruct H as [H|H]; [now left|right].
  destruct H as (claims & request & itemID & group & userID & user & category
                 & categoryID & e & pantryItem & oldQuantity
                 & dbT & _ & Hb & _ & _ & _ & _ & _ & _ & _ & _ & He & Ht
                 & -> & ->).
  assert (Hn : pantry_notifications dbT =
               pantry_notifications db ++
               (if negb (IsZero e) && IsExpiringSoon now pantryItem 3
                then [notif_with_ID
                        (CreatePantryNotification now (group_ID group)
                           (item_ID pantryItem) (item_Name pantryItem)
                           NotificationTypeExpiringSoon
                           "Item will expire in 3 days or less")
                        (next_id db)]
                else [])).
  { apply UpdatePantryItemTxn_cases in Ht.
    destruct Ht as [(err & Habs & _)|Ht]; [discriminate|].
    destruct Ht as (old & _ & _ & Hres & ->).
    injection Hres as -> ->.
    now rewrite expirationNotification_notifications. }
  eexists _, request, e,
    (notif_with_ID
       (CreatePantryNotification now (group_ID group) (item_ID pantryItem)
          (item_Name pantryItem) NotificationTypeExpiringSoon
          "Item will expire in 3 days or less")
       (next_id db)).
  split; [reflexivity|].
  split; [exact Hb|]. split; [exact He|].
  split; [reflexivity|]. split; [reflexivity|].
  destruct (negb (Qeq_bool oldQuantity (upd_Quantity request)));
    rewrite ?UpdatePantryHistoryForAdd_notifications; exact Hn.
Qed.

Lemma stockNotifications_app_expiring : forall db l n b,
  notif_Type n = NotificationTypeExpiringSoon ->
  l = pantry_notifications db ++ (if b : bool then [n] else []) ->
  List.filter isStockNotification l = stockNotifications db.
Proof.
  intros db l n b Hn ->. unfold stockNotifications.
  rewrite filter_app. destruct b; simpl.
  - unfold isStockNotification. rewrite Hn. simpl. apply app_nil_r.
  - apply app_nil_r.
Qed.

(** C4 (as the code has it). Add and update never retract a stock
    notification: whatever the request, the low_stock and out_of_stock
    notifications of the store are the same after the handler as before. *)
Theorem restock_keeps_stock_notifications : forall env now db,
  (forall r, stockNotifications (snd (AddPantryItemHandler env now r db))
             = stockNotifications db) /\
  (forall r, stockNotifications (snd (UpdatePantryItemHandler env now r db))
             = stockNotifications db).
Proof.
  intros env now db. split; intro r.
  - destruct (AddPantryItemHandler env now r db) as [resp db'] eqn:E. simpl.
    apply AddPantryItemHandler_notifications in E.
    destruct E as [(msg & st & _ & ->)|E]; [reflexivity|].
    destruct E as (view & request & e & n & _ & _ & _ & _ & Hty & Hn).
    exact (stockNotifications_app_expiring db _ n _ Hty Hn).
  - destruct (UpdatePantryItemHandler env now r db) as [resp db'] eqn:E. simpl.
    apply UpdatePantryItemHandler_notifications in E.
    destruct E as [(msg & st & _ & ->)|E]; [reflexivity|].
    destruct E as (view & request & e & n & _ & _ & _ & _ & Hty & Hn).
    exact (stockNotifications_app_expiring db _ n _ Hty Hn).
Qed.

(** C4, the claim as written fails: Milk is out of stock and notified as
    such; an add, or an update, raises it to 5 L and the out_of_stock
    notification is still there. *)
Lemma restock_leaves_out_of_stock :
  countNotifications milkID NotificationTypeOutOfStock milkOut = 1%nat /\
  quantityOf milkID milkRestockedByAdd = Some 5 /\
  countNotifications milkID NotificationTypeOutOfStock milkRestockedByAdd
    = 1%nat /\
  quantityOf milkID milkRestockedByUpdate = Some 5 /\
  countNotifications milkID NotificationTypeOutOfStock milkRestockedByUpdate
    = 1%nat.
Proof. repeat split. Qed.

(** C6 (as the code has it). A successful add or update inserts one new
    expiring_soon notification for the item, next to those already there,
    when the request carries a non-zero expiration date and the written
    item is expiring soon (within 3 days); otherwise it inserts none. *)
Theorem expiring_soon_notification_inserted : forall env now db,
  (forall r view db' request e,
      AddPantryItemHandler env now r db = (HttpOK StatusOK view, db') ->
      Body r = Some request ->
      parseExpiration env (add_ExpirationDate request) = Some e ->
      countNotifications (item_ID (view_PantryItem view))
        NotificationTypeExpiringSoon db' =
      (countNotifications (item_ID (view_PantryItem view))
         NotificationTypeExpiringSoon db
       + if negb (IsZero e) && view_IsExpiringSoon view then 1 else 0)%nat) /\
  (forall r view db' request e,
      UpdatePantryItemHandler env now r db = (HttpOK StatusOK view, db') ->
      Body r = Some request ->
      parseExpiration env (upd_ExpirationDate request) = Some e ->
      countNotifications (item_ID (view_PantryItem view))
        NotificationTypeExpiringSoon db' =
      (countNotifications (item_ID (view_PantryItem view))
         NotificationTypeExpiringSoon db
       + if negb (IsZero e) && view_IsExpiringSoon view then 1 else 0)%nat).
Proof.
  intros env now db. split; intros r view db' request e H Hb He.
  - apply AddPantryItemHandler_notifications in H.
    destruct H as [(msg & st & Habs & _)|H]; [discriminate|].
    destruct H as (view' & request' & e' & n & Hv & Hb' & He' & Hid & Hty & Hn).
    injection Hv as <-. rewrite Hb in Hb'. injection Hb' as <-.
    rewrite He in He'. injection He' as <-.
    unfold countNotifications. rewrite Hn, CountDocuments_app. f_equal.
    destruct (negb (IsZero e) && view_IsExpiringSoon view); [|reflexivity].
    unfold CountDocuments, notificationFilter. simpl.
    now rewrite Hid, Hty, N.eqb_refl.
  - apply UpdatePantryItemHandler_notifications in H.
    destruct H as [(msg & st & Habs & _)|H]; [discriminate|].
    destruct H as (view' & request' & e' & n & Hv & Hb' & He' & Hid & Hty & Hn).
    injection Hv as <-. rewrite Hb in Hb'. injection Hb' as <-.
    rewrite He in He'. injection He' as <-.
    unfold countNotifications. rewrite Hn, CountDocuments_app. f_equal.
    destruct (negb (IsZero e) && view_IsExpiringSoon view); [|reflexivity].
    unfold CountDocuments, notificationFilter. simpl.
    now rewrite Hid, Hty, N.eqb_refl.
Qed.

(** Eggs that expire in two days: the first add writes the first
    expiring_soon notification. *)
Lemma expiring_soon_notification_inserted_witness :
  countNotifications eggsID NotificationTypeExpiringSoon eggsAddedOnce = 1%nat.
Proof.
  exact (proj1 (expiring_soon_notification_inserted goEnv noon (pantryWith []))
           (addToDairy "Eggs" 12 "count" (Some inTwoDays))
           eggsView
           eggsAddedOnce
           {| add_Name := "Eggs"; add_Quantity := 12; add_Unit := "count";
              add_CategoryID := dairyHex;
              add_ExpirationDate := Some inTwoDays;
              add_GroupName := "home" |}
           63929131200%Z eq_refl eq_refl eq_refl).
Defined.

(** C6, the claim as written fails: the same add, repeated, leaves two
    expiring_soon notifications for the one item. *)
Lemma expiring_soon_accumulates :
  List.length (pantry_items eggsAddedTwice) = 1%nat /\
  countNotifications eggsID NotificationTypeExpiringSoon eggsAddedOnce = 1%nat /\
  countNotifications eggsID NotificationTypeExpiringSoon eggsAddedTwice = 2%nat.
Proof. repeat split. Qed.

(** ** The expiration date under add and update *)






(** ** Deleting a category *)

Lemma ObjectIDFromHex_nonempty : forall s id,
  ObjectIDFromHex s = Some id -> String.eqb s "" = false.
Proof.
  intros s id H. apply String.eqb_neq. intros ->. discriminate.
Qed.

Lemma CountDocuments_pos : forall (A : Type) (f : A -> bool) l,
  (0 <? CountDocuments f l)%nat = true <-> exists x, In x l /\ f x = true.
Proof.
  intros A f l. unfold CountDocuments. rewrite Nat.ltb_lt. split.
  - intros H. destruct (List.filter f l) as [|x rest] eqn:E; simpl in H; [lia|].
    exists x. apply filter_In. rewrite E. now left.
  - intros (x & Hx). apply filter_In in Hx.
    destruct (List.filter f l); [contradiction|simpl; lia].
Qed.

Lemma DeleteOne_found : forall (A : Type) (f : A -> bool) l x,
  FindOne f l = Some x ->
  snd (DeleteOne f l) = 1%nat /\
  List.length (fst (DeleteOne f l)) = pred (List.length l).
Proof.
  intros A f l x. unfold FindOne.
  induction l as [|d rest IH]; simpl; intros H; [discriminate|].
  destruct (f d); [auto|].
  destruct (DeleteOne f rest) as [rest' n] eqn:E. simpl in *.
  destruct (IH H) as [-> Hlen]. split; [reflexivity|].
  rewrite Hlen. destruct rest; [discriminate|reflexivity].
Qed.

(** After [DeleteOne] by id, in a collection with unique ids, no document
    with that id is left. *)
Lemma DeleteOne_byID_gone : forall id l,
  NoDup (map cat_ID l) ->
  FindOne (byID_category id) (fst (DeleteOne (byID_category id) l)) = None.
Proof.
  intros id. unfold FindOne, byID_category.
  induction l as [|d rest IH]; simpl; intros Hnd; [reflexivity|].
  inversion Hnd as [|? ? Hnotin Hnd']; subst.
  destruct (cat_ID d =? id)%N eqn:E.
  - simpl. apply N.eqb_eq in E. subst id.
    destruct (find _ rest) as [c|] eqn:Ef; [|reflexivity].
    apply find_some in Ef. destruct Ef as [Hin Hc].
    apply N.eqb_eq in Hc. exfalso. apply Hnotin. rewrite <- Hc.
    now apply in_map.
  - destruct (DeleteOne _ rest) as [rest' n] eqn:Ed. simpl in *.
    rewrite E. now apply IH.
Qed.

(** C5. For a request that reaches the usage check (an existing category
    that the user may delete): when some pantry item carries the
    category's id, the answer is the conflict error and the store is left
    as it was; when no item carries the id, the delete succeeds, removes
    the category document and leaves the items alone, so no item of the
    store references the deleted category. *)
Theorem category_delete_guarded_by_id :
  forall r db claims categoryID userID user category,
  Method r = "DELETE"%string ->
  Claims r = Some claims ->
  ObjectIDFromHex (TrimPrefix (URLPath r) "/api/pantry/categories/")
    = Some categoryID ->
  ObjectIDFromHex (claims_ID claims) = Some userID ->
  FindOne (byID_user userID) (users db) = Some user ->
  FindOne (byID_category categoryID) (pantry_categories db) = Some category ->
  CanBeDeletedBy category userID (user_GroupID user) = true ->
  ((exists it, In it (pantry_items db) /\ item_CategoryID it = categoryID) ->
   DeletePantryCategoryHandler r db =
     (HttpError "Cannot delete category: it is being used by pantry items"
        StatusConflict, db)) /\
  ((forall it, In it (pantry_items db) -> item_CategoryID it <> categoryID) ->
   exists body db',
     DeletePantryCategoryHandler r db = (HttpOK StatusOK body, db') /\
     pantry_categories db' =
       fst (DeleteOne (byID_category categoryID) (pantry_categories db)) /\
     List.length (pantry_categories db') =
       pred (List.length (pantry_categories db)) /\
     (NoDup (map cat_ID (pantry_categories db)) ->
      FindOne (byID_category categoryID) (pantry_categories db') = None) /\
     pantry_items db' = pantry_items db /\
     (forall it, In it (pantry_items db') -> item_CategoryID it <> categoryID)).
Proof.
  intros r db claims categoryID userID user category
    Hm Hc Hcat Hu Hfu Hfc Hperm.
  unfold DeletePantryCategoryHandler.
  rewrite Hm, Hc. simpl.
  rewrite (ObjectIDFromHex_nonempty _ _ Hcat). simpl.
  rewrite Hcat, Hu, Hfu, Hfc, Hperm.
  split.
  - intros (it & Hin & Hid).
    assert (Hcount : (0 <? CountDocuments
                             (fun d => (item_CategoryID d =? categoryID)%N)
                             (pantry_items db))%nat = true).
    { apply CountDocuments_pos. exists it. split; [exact Hin|].
      now apply N.eqb_eq. }
    rewrite Hcount. reflexivity.
  - intros Hnone.
    assert (Hcount : (0 <? CountDocuments
                             (fun d => (item_CategoryID d =? categoryID)%N)
                             (pantry_items db))%nat = false).
    { destruct (0 <? _)%nat eqn:E; [|reflexivity].
      apply CountDocuments_pos in E. destruct E as (it & Hin & Hid).
      apply N.eqb_eq in Hid. exfalso. exact (Hnone it Hin Hid). }
    rewrite Hcount. simpl.
    destruct (DeleteOne_found _ _ _ _ Hfc) as [Hone Hlen].
    destruct (DeleteOne (byID_category categoryID) (pantry_categories db))
      as [categories deletedCount] eqn:Ed.
    simpl in Hone, Hlen. subst deletedCount. simpl.
    eexists _, _. split; [reflexivity|]. simpl.
    split; [reflexivity|]. split; [exact Hlen|].
    split.
    + intros Hnd. pose proof (DeleteOne_byID_gone categoryID _ Hnd) as Hg.
      now rewrite Ed in Hg.
    + split; [reflexivity|exact Hnone].
Qed.

(** Alice's group: the category Dairy cannot be deleted while Milk is in
    it. *)
Lemma category_delete_guarded_by_id_witness :
  DeletePantryCategoryHandler deleteDairy (pantryWith [milk 2]) =
    (HttpError "Cannot delete category: it is being used by pantry items"
       StatusConflict, pantryWith [milk 2]) /\
  exists body db',
    DeletePantryCategoryHandler deleteDairy (pantryWith []) =
      (HttpOK StatusOK body, db') /\
    pantry_categories db' = [].
Proof.
  split.
  - apply (proj1 (category_delete_guarded_by_id deleteDairy
                    (pantryWith [milk 2])
                    {| claims_ID := aliceHex |} dairyID aliceID alice dairy
                    eq_refl eq_refl eq_refl eq_refl eq_refl eq_refl eq_refl)).
    exists (milk 2). split; [now left|reflexivity].
  - destruct (proj2 (category_delete_guarded_by_id deleteDairy (pantryWith [])
                       {| claims_ID := aliceHex |} dairyID aliceID alice dairy
                       eq_refl eq_refl eq_refl eq_refl eq_refl eq_refl eq_refl))
      as (body & db' & Hrun & Hcats & _).
    + intros it [].
    + exists body, db'. split; [exact Hrun|exact Hcats].
Defined.

(** ** The listing *)

Lemma String_leb_trans : forall a b c : string,
  String.leb a b = true -> String.leb b c = true -> String.leb a c = true.
Proof.
  intros a b c. unfold String.leb.
  destruct (String.compare a b) eqn:E1; try discriminate;
    destruct (String.compare b c) eqn:E2; try discriminate; intros _ _.
  - apply OrderedTypeEx.String_as_OT.cmp_eq in E1, E2. subst.
    assert (E : String.compare c c = Eq)
      by now apply OrderedTypeEx.String_as_OT.cmp_eq.
    now rewrite E.
  - apply OrderedTypeEx.String_as_OT.cmp_eq in E1. subst. now rewrite E2.
  - apply OrderedTypeEx.String_as_OT.cmp_eq in E2. subst. now rewrite E1.
  - apply OrderedTypeEx.String_as_OT.cmp_lt in E1, E2.
    pose proof (OrderedTypeEx.String_as_OT.lt_trans _ _ _ E1 E2) as E.
    apply OrderedTypeEx.String_as_OT.cmp_lt in E.
    unfold OrderedTypeEx.String_as_OT.cmp in E. now rewrite E.
Qed.

Lemma sortKeyLeb_total : forall a b,
  sortKeyLeb a b = true \/ sortKeyLeb b a = true.
Proof.
  intros a b. unfold sortKeyLeb.
  destruct (N.compare_spec (item_CategoryID a) (item_CategoryID b)) as [E|L|G].
  - rewrite E, N.eqb_refl, N.ltb_irrefl. simpl. apply String.leb_total.
  - left. apply N.ltb_lt in L. now rewrite L.
  - right. apply N.ltb_lt in G. now rewrite G.
Qed.

Lemma sortKeyLe_trans : forall a b c,
  sortKeyLe a b -> sortKeyLe b c -> sortKeyLe a c.
Proof.
  unfold sortKeyLe, sortKeyLeb. intros a b c H1 H2.
  apply orb_true_iff in H1. apply orb_true_iff in H2. apply orb_true_iff.
  destruct H1 as [H1|H1], H2 as [H2|H2].
  - left. apply N.ltb_lt in H1, H2. apply N.ltb_lt. lia.
  - apply andb_true_iff in H2. destruct H2 as [H2 _].
    apply N.eqb_eq in H2. rewrite <- H2. now left.
  - apply andb_true_iff in H1. destruct H1 as [H1 _].
    apply N.eqb_eq in H1. rewrite H1. now left.
  - apply andb_true_iff in H1. destruct H1 as [H1 L1].
    apply andb_true_iff in H2. destruct H2 as [H2 L2].
    apply N.eqb_eq in H1, H2. right. apply andb_true_iff. split.
    + apply N.eqb_eq. congruence.
    + exact (String_leb_trans _ _ _ L1 L2).
Qed.

Lemma insertSorted_perm : forall x l, Permutation (insertSorted x l) (x :: l).
Proof.
  intros x l. induction l as [|y rest IH]; simpl; [reflexivity|].
  destruct (sortKeyLeb x y); [reflexivity|].
  rewrite IH. apply perm_swap.
Qed.

Lemma sortItems_perm : forall l, Permutation (sortItems l) l.
Proof.
  induction l as [|x rest IH]; simpl; [constructor|].
  rewrite insertSorted_perm. now constructor.
Qed.

Lemma insertSorted_sorted : forall x l,
  StronglySorted sortKeyLe l -> StronglySorted sortKeyLe (insertSorted x l).
Proof.
  intros x l. induction l as [|y rest IH]; simpl; intros Hs.
  - repeat constructor.
  - inversion Hs as [|? ? Hrest Hall]; subst.
    destruct (sortKeyLeb x y) eqn:E.
    + constructor; [exact Hs|]. constructor; [exact E|].
      eapply Forall_impl; [|exact Hall].
      intros z Hz. exact (sortKeyLe_trans _ _ _ E Hz).
    + constructor; [now apply IH|].
      apply (Permutation_Forall (Permutation_sym (insertSorted_perm x rest))).
      constructor; [|exact Hall].
      destruct (sortKeyLeb_total x y) as [H|H]; [congruence|exact H].
Qed.

Lemma sortItems_sorted : forall l, StronglySorted sortKeyLe (sortItems l).
Proof.
  induction l as [|x rest IH]; simpl; [constructor|].
  now apply insertSorted_sorted.
Qed.

(** The loop over the fetched items keeps them, in order. *)
Lemma extendItem_items : forall now db items acc,
  map view_PantryItem (fst (fst (fold_left (extendItem now db) items acc))) =
  map view_PantryItem (fst (fst acc)) ++ items.
Proof.
  intros now db. induction items as [|item rest IH]; intros acc; simpl.
  - now rewrite app_nil_r.
  - rewrite IH. destruct acc as [[response categoryCache] userCache].
    unfold extendItem.
    destruct (match cacheGet (item_CategoryID item) categoryCache with
              | Some c => _ | None => _ end) as [category categoryCache'].
    destruct (match cacheGet (item_AddedBy item) userCache with
              | Some n => _ | None => _ end) as [userName userCache'].
    simpl. rewrite map_app. simpl. now rewrite <- app_assoc.
Qed.

(** C8. A successful listing returns the items of the requested group,
    restricted to the category of the filter when one is given, each once,
    in ascending order of (category id, name). *)
Theorem listing_sorted_by_category_and_name : forall now r db status response,
  GetPantryItemsHandler now r db = HttpOK status response ->
  StronglySorted sortKeyLe (map view_PantryItem response) /\
  exists group,
    FindOne (byName_group (Query r "group_name")) (groups db) = Some group /\
    Permutation (map view_PantryItem response)
      (List.filter (listedFor (group_ID group) (Query r "category_id"))
         (pantry_items db)).
Proof.
  intros now r db status response H. unfold GetPantryItemsHandler in H.
  destruct (String.eqb (Method r) "GET"); [|discriminate].
  destruct (Claims r) as [claims|]; [|discriminate].
  destruct (String.eqb (Query r "group_name") ""); simpl in H; [discriminate|].
  destruct (FindOne (byName_group _) _) as [group|] eqn:Eg; [|discriminate].
  destruct (ObjectIDFromHex (claims_ID claims)) as [userID|]; [|discriminate].
  destruct (FindOne (byID_user userID) (users db)) as [user|]; [|discriminate].
  destruct (user_GroupID user =? group_ID group)%N; [|discriminate].
  assert (Hfilter : forall filter,
    (if String.eqb (Query r "category_id") ""
     then Some (fun d => (item_GroupID d =? group_ID group)%N)
     else match ObjectIDFromHex (Query r "category_id") with
          | Some categoryID =>
              Some (fun d => (item_GroupID d =? group_ID group)%N
                             && (item_CategoryID d =? categoryID)%N)
          | None => None
          end) = Some filter ->
    forall d, filter d = listedFor (group_ID group) (Query r "category_id") d).
  { intros filter Hf d. unfold listedFor.
    destruct (String.eqb (Query r "category_id") "").
    - injection Hf as <-. simpl. now rewrite andb_true_r.
    - destruct (ObjectIDFromHex (Query r "category_id")); [|discriminate].
      injection Hf as <-. reflexivity. }
  destruct (if String.eqb (Query r "category_id") "" then _ else _)
    as [filter|] eqn:Ef; [|discriminate].
  specialize (Hfilter filter eq_refl).
  pose proof (extendItem_items now db (FindSorted filter (pantry_items db))
                ([], [], [])) as Hloop.
  destruct (fold_left _ _ _) as [[response' categoryCache] userCache].
  injection H as _ <-. simpl in Hloop. rewrite Hloop.
  unfold FindSorted. split.
  - apply sortItems_sorted.
  - exists group. split; [reflexivity|].
    rewrite sortItems_perm.
    rewrite (filter_ext _ _ Hfilter). reflexivity.
Qed.

(** Milk and butter of one category come back as butter, milk. *)
Lemma listing_sorted_by_category_and_name_witness :
  StronglySorted sortKeyLe (map view_PantryItem shelfListing) /\
  map item_Name (map view_PantryItem shelfListing) = ["Butter"; "Milk"]%string.
Proof.
  split; [|reflexivity].
  exact (proj1 (listing_sorted_by_category_and_name noon listHome
                  (pantryWith [milk 2; butter]) StatusOK shelfListing
                  eq_refl)).
Defined.

(** ** The existing-item lookup of add *)

(** C10. The lookup of add compiles the trimmed request name, unescaped,
    between [^] and [$] with the option [i], and rewrites the first item
    of the group and category whose name that expression matches.  With
    the server's expressions this is not case-insensitive equality of the
    trimmed names: the request name [M.lk] matches the item [Milk] (and an
    add under that name overwrites the milk), while the request name
    [a+b] does not match an item called [a+b]. *)
Theorem add_lookup_is_unescaped_regex :
  (forall env now group userID categoryID e request db item' oldQuantity db',
      AddPantryItemTxn env now group userID categoryID e request db
        = (inr (item', false, oldQuantity), db') ->
      exists matcher old,
        regex_compile env ("^" ++ TrimSpace (add_Name request) ++ "$")%string
          "i" = Some matcher /\
        FindOne (addLookupFilter matcher (group_ID group) categoryID)
          (pantry_items db) = Some old /\
        matcher (item_Name old) = true /\
        item_ID item' = item_ID old /\ item_Name item' = item_Name old) /\
  (matchesPattern goEnv (addLookupPattern "M.lk") "i" "Milk" = true /\
   sameTrimmedNameIgnoringCase "M.lk" "Milk" = false /\
   map (fun d => (item_Name d, item_Quantity d))
     (pantry_items
        (snd (AddPantryItemHandler goEnv noon addDotted (pantryWith [milk 2]))))
   = [("Milk"%string, 7)]) /\
  (matchesPattern goEnv (addLookupPattern "a+b") "i" "a+b" = false /\
   sameTrimmedNameIgnoringCase "a+b" "a+b" = true).
Proof.
  split; [|repeat split].
  intros env now group userID categoryID e request db item' oldQuantity db' H.
  apply AddPantryItemTxn_cases in H.
  destruct H as [(err & Habs & _)|[H|H]]; [discriminate| |].
  - destruct H as (matcher & old & Hc & Hf & Hres & _).
    injection Hres as -> _. exists matcher, old.
    split; [exact Hc|]. split; [exact Hf|].
    apply FindOne_In in Hf. destruct Hf as [_ Hf].
    unfold addLookupFilter in Hf.
    apply andb_true_iff in Hf. destruct Hf as [Hf _].
    apply andb_true_iff in Hf. destruct Hf as [_ Hf]. auto.
  - destruct H as (matcher & _ & _ & Habs & _). discriminate.
Qed.

Lemma add_lookup_is_unescaped_regex_witness :
  exists matcher old,
    regex_compile goEnv "^M.lk$" "i" = Some matcher /\
    FindOne (addLookupFilter matcher homeID dairyID) [milk 2] = Some old /\
    matcher (item_Name old) = true /\
    milkID = item_ID old /\ "Milk"%string = item_Name old.
Proof.
  exact (proj1 add_lookup_is_unescaped_regex goEnv noon home aliceID dairyID
           0%Z
           {| add_Name := "M.lk"; add_Quantity := 7; add_Unit := "L";
              add_CategoryID := dairyHex; add_ExpirationDate := None;
              add_GroupName := "home" |}
           (pantryWith [milk 2])
           (addOverwrite noon (milk 2) 7 "L" 0%Z) 2
           (with_items (pantryWith [milk 2])
              [addOverwrite noon (milk 2) 7 "L" 0%Z])
           eq_refl).
Defined.

(** The sibling lookup, in the category handler, escapes the name first:
    there the same two names behave as equality asks. *)
Lemma create_lookup_is_escaped :
  createLookupPattern "a+b" = String "^" (String "a" (String backslash "+b$")) /\
  matchesPattern goEnv (createLookupPattern "a+b") "i" "A+B" = true /\
  matchesPattern goEnv (createLookupPattern "M.lk") "i" "Milk" = false /\
  matchesPattern goEnv (createLookupPattern "M.lk") "i" "m.LK" = true.
Proof. repeat split. Qed.

(** ** Add as an upsert *)

Lemma UpdateOne_length : forall (A : Type) (f : A -> bool) g l,
  List.length (UpdateOne f g l) = List.length l.
Proof.
  intros A f g l. induction l as [|d rest IH]; simpl; [reflexivity|].
  destruct (f d); simpl; congruence.
Qed.

(** X1. What a successful add does, given the outcome of its lookup: on a
    match the matched row is rewritten in place with the requested
    quantity (not the sum), no row is added, and the history gets one entry
    sized new minus old, or none when the quantity is the same; without a
    match one row is appended and the history gets one entry sized as the
    requested quantity. *)
Lemma add_upserts_on_lookup : forall env now r db view db' request,
  AddPantryItemHandler env now r db = (HttpOK StatusOK view, db') ->
  Body r = Some request ->
  exists matcher group categoryID,
    regex_compile env (addLookupPattern (add_Name request)) "i"
      = Some matcher /\
    FindOne (byName_group (add_GroupName request)) (groups db) = Some group /\
    ObjectIDFromHex (add_CategoryID request) = Some categoryID /\
    match FindOne (addLookupFilter matcher (group_ID group) categoryID)
            (pantry_items db) with
    | Some old =>
        item_ID (view_PantryItem view) = item_ID old /\
        item_Quantity (view_PantryItem view) = add_Quantity request /\
        List.length (pantry_items db') = List.length (pantry_items db) /\
        (uniqueItemIDs db ->
         itemByID (item_ID old) db' = Some (view_PantryItem view)) /\
        (add_Quantity request == item_Quantity old ->
         pantry_history db' = pantry_history db) /\
        (~ add_Quantity request == item_Quantity old ->
         exists entry,
           pantry_history db' = pantry_history db ++ [entry] /\
           hist_ItemID entry = item_ID old /\
           hist_Quantity entry = add_Quantity request - item_Quantity old)
    | None =>
        pantry_items db' = pantry_items db ++ [view_PantryItem view] /\
        item_Quantity (view_PantryItem view) = add_Quantity request /\
        exists entry,
          pantry_history db' = pantry_history db ++ [entry] /\
          hist_ItemID entry = item_ID (view_PantryItem view) /\
          hist_Quantity entry = add_Quantity request
    end.
Proof.
  intros env now r db view db' request H Hb.
  apply AddPantryItemHandler_cases in H.
  destruct H as [(msg & st & Habs & _)|H]; [discriminate|].
  destruct H as (claims & request' & group & userID & user & category
                 & categoryID & e & pantryItem & isNewItem & oldQuantity
                 & dbT & _ & Hb' & _ & Hg & _ & _ & _ & _ & Hcat & _ & Ht
                 & Hv & ->).
  rewrite Hb in Hb'. injection Hb' as <-. injection Hv as ->.
  apply AddPantryItemTxn_cases in Ht.
  destruct Ht as [(err & Habs & _)|[Ht|Ht]]; [discriminate| |].
  - destruct Ht as (matcher & old & Hc & Hf & Hres & ->).
    injection Hres as -> -> ->.
    exists matcher, group, categoryID.
    split; [exact Hc|]. split; [exact Hg|]. split; [exact Hcat|].
    rewrite Hf. cbn [view_PantryItem item_ID item_Quantity addOverwrite].
    split; [reflexivity|]. split; [reflexivity|].
    assert (Hitems : forall q, pantry_items
              (if negb (Qeq_bool (item_Quantity old) (add_Quantity request))
               then UpdatePantryHistoryForAdd now (group_ID group)
                      (item_ID old) (item_Name old) userID (user_Name user) q
                      (expirationNotification now (group_ID group) e
                         (addOverwrite now old (add_Quantity request)
                            (add_Unit request) e)
                         (with_items db
                            (UpdateOne (byID_item (item_ID old))
                               (fun _ => addOverwrite now old
                                           (add_Quantity request)
                                           (add_Unit request) e)
                               (pantry_items db))))
               else expirationNotification now (group_ID group) e
                      (addOverwrite now old (add_Quantity request)
                         (add_Unit request) e)
                      (with_items db
                         (UpdateOne (byID_item (item_ID old))
                            (fun _ => addOverwrite now old
                                        (add_Quantity request)
                                        (add_Unit request) e)
                            (pantry_items db))))
            = UpdateOne (byID_item (item_ID old))
                (fun _ => addOverwrite now old (add_Quantity request)
                            (add_Unit request) e)
                (pantry_items db)).
    { intros q. destruct (negb _);
        rewrite ?UpdatePantryHistoryForAdd_items, expirationNotification_items;
        reflexivity. }
    split; [|split; [|split]].
    + rewrite Hitems. apply UpdateOne_length.
    + intros Huniq. unfold itemByID. rewrite Hitems.
      apply FindOne_In in Hf. destruct Hf as [Hin _].
      pose proof (FindOne_byID_unique _ _ Huniq Hin) as Hfirst.
      rewrite (UpdateOne_ext_first _ _
                 (fun _ => addOverwrite now old (add_Quantity request)
                             (add_Unit request) e)
                 (fun d => addOverwrite now d (add_Quantity request)
                             (add_Unit request) e) _ _ Hfirst eq_refl).
      rewrite FindOne_UpdateOne_byID by reflexivity.
      now rewrite N.eqb_refl, Hfirst.
    + intros Heq. apply Qeq_sym in Heq. apply Qeq_bool_iff in Heq.
      rewrite Heq. simpl. now rewrite expirationNotification_history.
    + intros Hne.
      assert (Hq : Qeq_bool (item_Quantity old) (add_Quantity request) = false).
      { destruct (Qeq_bool _ _) eqn:E; [|reflexivity].
        apply Qeq_bool_iff in E. exfalso. apply Hne. now apply Qeq_sym. }
      rewrite Hq. simpl.
      unfold UpdatePantryHistoryForAdd, InsertOne_history. simpl.
      rewrite expirationNotification_history. simpl.
      eexists. split; [reflexivity|]. simpl. auto.
  - destruct Ht as (matcher & Hc & Hf & Hres & ->).
    injection Hres as -> -> ->.
    exists matcher, group, categoryID.
    split; [exact Hc|]. split; [exact Hg|]. split; [exact Hcat|].
    rewrite Hf. cbn [view_PantryItem].
    split; [|split; [reflexivity|]].
    + rewrite UpdatePantryHistoryForAdd_items, expirationNotification_items.
      reflexivity.
    + unfold UpdatePantryHistoryForAdd, InsertOne_history. simpl.
      rewrite expirationNotification_history. simpl.
      eexists. split; [reflexivity|]. simpl. auto.
Qed.

(** Milk at 2 L, added again as [milk] with 5 L: the row is rewritten to
    5 L, not 7 L, and the history records +3. *)
Lemma add_upserts_on_lookup_witness :
  exists view db',
    AddPantryItemHandler goEnv noon (addToDairy "milk" 5 "L" None)
      (pantryWith [milk 2]) = (HttpOK StatusOK view, db') /\
    item_ID (view_PantryItem view) = milkID /\
    item_Quantity (view_PantryItem view) = 5 /\
    List.length (pantry_items db') = 1%nat /\
    exists entry,
      pantry_history db' = [entry] /\ hist_Quantity entry = 5 - 2.
Proof.
  eexists. eexists. split; [reflexivity|].
  destruct (add_upserts_on_lookup goEnv noon (addToDairy "milk" 5 "L" None)
              (pantryWith [milk 2]) _ _ _ eq_refl eq_refl)
    as (matcher & group & categoryID & Hc & Hg & Hcat & Hm).
  injection Hc as <-. injection Hg as <-. injection Hcat as <-.
  change (FindOne _ (pantry_items (pantryWith [milk 2])))
    with (Some (milk 2)) in Hm.
  destruct Hm as (Hid & Hq & Hlen & _ & _ & Hhist).
  split; [exact Hid|]. split; [exact Hq|]. split; [exact Hlen|].
  destruct Hhist as (entry & Hh & _ & Hqe);
    [intros H; vm_compute in H; discriminate H|].
  exists entry. split; [exact Hh|exact Hqe].
Defined.

(** C2, at the failing input: the item [a+b] is added twice to one group
    and category.  The second add does not find the first row (its own
    name, read as an expression, does not match it), so the store ends
    with two rows of that name and two plain add entries in the history,
    where the claim asks for one row of quantity 2 and an adjustment entry
    of +1. *)
Theorem add_same_name_twice_duplicates :
  map (fun d => (item_Name d, item_Quantity d)) (pantry_items plusAddedOnce)
    = [("a+b"%string, 1)] /\
  sameTrimmedNameIgnoringCase "a+b" "a+b" = true /\
  map (fun d => (item_Name d, item_Quantity d)) (pantry_items plusAddedTwice)
    = [("a+b"%string, 1); ("a+b"%string, 2)] /\
  map (fun h => (hist_Action h, hist_Quantity h)) (pantry_history plusAddedTwice)
    = [(ActionAdd, 1); (ActionAdd, 2)].
Proof. repeat split. Qed.

(** ** The ledger invariant *)

Lemma UpdateOne_Forall : forall (A : Type) (P : A -> Prop) f g l,
  Forall P l -> (forall d, In d l -> P (g d)) -> Forall P (UpdateOne f g l).
Proof.
  intros A P f g l. induction l as [|d rest IH]; simpl; intros Hall Hg.
  - constructor.
  - inversion Hall; subst. destruct (f d).
    + constructor; [apply Hg; now left|assumption].
    + constructor; [assumption|]. apply IH; [assumption|].
      intros x Hx. apply Hg. now right.
Qed.

(** X2. No handler that writes quantities makes one negative: use refuses to
    overdraw, add and update refuse negative requests. *)
Lemma nonNegativeStock_preserved : forall env now db,
  nonNegativeStock db ->
  (forall r, nonNegativeStock (snd (UsePantryItemHandler now r db))) /\
  (forall r, nonNegativeStock (snd (AddPantryItemHandler env now r db))) /\
  (forall r, nonNegativeStock (snd (UpdatePantryItemHandler env now r db))).
Proof.
  intros env now db Hinv. unfold nonNegativeStock in *. repeat split; intro r.
  - destruct (UsePantryItemHandler now r db) as [resp db'] eqn:E. simpl.
    apply UsePantryItemHandler_cases in E.
    destruct E as [(msg & st & _ & ->)|E]; [exact Hinv|].
    destruct E as (claims & request & userID & itemID & user & item
                   & response & dbT & _ & _ & _ & _ & _ & _ & _ & _
                   & Ht & _ & ->).
    apply UsePantryItemTxn_items in Ht.
    destruct Ht as (item' & _ & _ & Hle & _ & Hitems).
    unfold UpdatePantryHistoryForUse.
    rewrite items_InsertOne_history, Hitems.
    apply UpdateOne_Forall; [exact Hinv|].
    intros d _. simpl. now apply (proj1 (Qle_minus_iff _ _)).
  - destruct (AddPantryItemHandler env now r db) as [resp db'] eqn:E. simpl.
    apply AddPantryItemHandler_cases in E.
    destruct E as [(msg & st & _ & ->)|E]; [exact Hinv|].
    destruct E as (claims & request & group & userID & user & category
                   & categoryID & e & pantryItem & isNewItem & oldQuantity
                   & dbT & _ & _ & Hq & _ & _ & _ & _ & _ & _ & _ & Ht
                   & _ & ->).
    assert (Hitems : Forall (fun d => 0 <= item_Quantity d) (pantry_items dbT)).
    { apply AddPantryItemTxn_cases in Ht.
      destruct Ht as [(err & Habs & _)|[Ht|Ht]]; [discriminate| |].
      - destruct Ht as (matcher & old & _ & _ & _ & ->).
        rewrite expirationNotification_items. simpl.
        apply UpdateOne_Forall; [exact Hinv|]. intros d _. exact Hq.
      - destruct Ht as (matcher & _ & _ & _ & ->).
        rewrite expirationNotification_items. simpl.
        apply Forall_app. split; [exact Hinv|]. now constructor. }
    destruct isNewItem; [exact Hitems|].
    now destruct (negb (Qeq_bool oldQuantity (add_Quantity request))).
  - destruct (UpdatePantryItemHandler env now r db) as [resp db'] eqn:E. simpl.
    apply UpdatePantryItemHandler_cases in E.
    destruct E as [(msg & st & _ & ->)|E]; [exact Hinv|].
    destruct E as (claims & request & itemID & group & userID & user
                   & category & categoryID & e & pantryItem & oldQuantity
                   & dbT & _ & _ & _ & Hq & _ & _ & _ & _ & _ & _ & _ & Ht
                   & _ & ->).
    assert (Hitems : Forall (fun d => 0 <= item_Quantity d) (pantry_items dbT)).
    { apply UpdatePantryItemTxn_cases in Ht.
      destruct Ht as [(err & Habs & _)|Ht]; [discriminate|].
      destruct Ht as (old & _ & _ & _ & ->).
      rewrite expirationNotification_items. simpl.
      apply UpdateOne_Forall; [exact Hinv|]. intros d _. exact Hq. }
    now destruct (negb (Qeq_bool oldQuantity (upd_Quantity request))).
Qed.

(** Milk at 2 L: an attempt to use 3 L and an update to 0 L both leave a
    ledger without negative quantities. *)
Lemma nonNegativeStock_preserved_witness :
  nonNegativeStock (pantryWith [milk 2]) /\
  nonNegativeStock
    (snd (UsePantryItemHandler noon (useMilk 3) (pantryWith [milk 2]))) /\
  nonNegativeStock
    (snd (UpdatePantryItemHandler goEnv noon (updateMilk 0 None)
            (pantryWith [milk 2]))).
Proof.
  assert (H : nonNegativeStock (pantryWith [milk 2])).
  { constructor; [|constructor]. intros Hc. discriminate Hc. }
  destruct (nonNegativeStock_preserved goEnv noon (pantryWith [milk 2]) H)
    as (Huse & _ & Hupdate).
  split; [exact H|]. split; [apply Huse|apply Hupdate].
Defined.

(** ** Literal patterns *)

Lemma classify_plain : forall c,
  isRegexOperator c = false ->
  Ascii.eqb c backslash = false /\ classify c = TLit c.
Proof.
  intros c.
  destruct c as [[] [] [] [] [] [] [] []]; vm_compute; intros H;
    try discriminate H; split; reflexivity.
Qed.

Lemma operator_not_alnum : forall c,
  isRegexOperator c = true -> isAlnum c = false.
Proof.
  intros c.
  destruct c as [[] [] [] [] [] [] [] []]; vm_compute; intros H;
    try discriminate H; reflexivity.
Qed.

Lemma tokens_QuoteMeta : forall s rest,
  tokens (QuoteMeta s ++ rest)%string =
  map TLit (list_ascii_of_string s) ++ tokens rest.
Proof.
  induction s as [|c s IH]; intros rest; simpl; [reflexivity|].
  fold (isRegexOperator c).
  destruct (isRegexOperator c) eqn:Hc; simpl.
  - rewrite (operator_not_alnum c Hc), IH. reflexivity.
  - destruct (classify_plain c Hc) as [Hb Hcl].
    rewrite Hb, Hcl, IH. reflexivity.
Qed.

Lemma parseSeq_literals : forall cs,
  parseSeq (map TLit cs ++ [TDollar]) = Some (literals cs).
Proof.
  induction cs as [|c cs IH]; [reflexivity|].
  change (map TLit (c :: cs) ++ [TDollar])
    with (TLit c :: (map TLit cs ++ [TDollar])).
  cbn [parseSeq atomOf]. rewrite IH.
  destruct cs; reflexivity.
Qed.

Lemma matchesAll_empty : forall caseless s, matchesAll caseless REmpty s = false.
Proof. intros caseless s. induction s as [|c s IH]; simpl; auto. Qed.

Lemma matchesAll_alt : forall caseless s a b,
  matchesAll caseless (RAlt a b) s =
  matchesAll caseless a s || matchesAll caseless b s.
Proof.
  intros caseless s. induction s as [|c s IH]; intros a b; simpl; auto.
Qed.

Lemma matchesAll_cat_empty : forall caseless s r,
  matchesAll caseless (RCat REmpty r) s = false.
Proof.
  intros caseless s. induction s as [|c s IH]; intros r; simpl; auto.
Qed.

Lemma matchesAll_cat_eps : forall caseless s r,
  matchesAll caseless (RCat REps r) s = matchesAll caseless r s.
Proof.
  intros caseless [|c s] r; simpl; [reflexivity|].
  now rewrite matchesAll_alt, matchesAll_cat_empty.
Qed.

(** A sequence of literals matches, without regard to case, the subjects
    equal to it up to case. *)
Lemma matchesAll_literals : forall cs subject,
  matchesAll true (literals cs) subject =
  equalIgnoringCase (string_of_list_ascii cs) subject.
Proof.
  unfold equalIgnoringCase.
  induction cs as [|c cs IH]; intros [|d subject]; simpl; try reflexivity.
  - apply matchesAll_empty.
  - unfold litMatches.
    destruct (Ascii.eqb (toLower c) (toLower d)); simpl.
    + rewrite matchesAll_cat_eps. apply IH.
    + apply matchesAll_cat_empty.
Qed.

(** The escaped lookup of the category handler is equality up to case,
    for every name. *)
Lemma escaped_lookup_is_equality : forall name subject,
  matchesPattern goEnv (createLookupPattern name) "i" subject =
  equalIgnoringCaseAnchored name subject.
Proof.
  intros name subject.
  unfold matchesPattern, createLookupPattern.
  cbn [goEnv regex_compile]. unfold fragment_compile.
  change ("^" ++ QuoteMeta name ++ "$")%string
    with (String "^" (QuoteMeta name ++ "$")).
  change (String.eqb "i" "i") with true.
  cbn [orb]. rewrite Ascii.eqb_refl.
  rewrite tokens_QuoteMeta.
  change (tokens "$") with [TDollar].
  rewrite parseSeq_literals. cbn [option_map]. cbv beta iota.
  unfold matchesAnchored, equalIgnoringCaseAnchored.
  rewrite !matchesAll_literals, string_of_list_ascii_of_string.
  destruct (dropFinalNewline subject); [|reflexivity].
  now rewrite matchesAll_literals, string_of_list_ascii_of_string.
Qed.

(** ** Plain names *)








(** * Properties of the rest of the handlers *)

(** ** More on the store primitives *)

Lemma with_categories_same : forall db,
  with_categories db (pantry_categories db) = db.
Proof. now destruct db. Qed.

Lemma DeleteOne_none : forall (A : Type) (f : A -> bool) l,
  snd (DeleteOne f l) = 0%nat -> fst (DeleteOne f l) = l.
Proof.
  intros A f l. induction l as [|d rest IH]; simpl; [reflexivity|].
  destruct (f d); [discriminate|].
  destruct (DeleteOne f rest) as [rest' n]. simpl in *.
  intros H. now rewrite IH.
Qed.

Lemma DeleteOne_In : forall (A : Type) (f : A -> bool) l x,
  In x (fst (DeleteOne f l)) -> In x l.
Proof.
  intros A f l x. induction l as [|d rest IH]; simpl; [tauto|].
  destruct (f d); [now right|].
  destruct (DeleteOne f rest) as [rest' n]. simpl in *.
  intros [->|H]; [now left|right; now apply IH].
Qed.

Lemma DeleteOne_keeps : forall (A : Type) (f : A -> bool) l x,
  In x l -> f x = false -> In x (fst (DeleteOne f l)).
Proof.
  intros A f l x. induction l as [|d rest IH]; simpl; [tauto|].
  intros [->|Hin] Hf.
  - rewrite Hf. destruct (DeleteOne f rest). now left.
  - destruct (f d); [exact Hin|].
    destruct (DeleteOne f rest) as [rest' n]. simpl in *.
    right. now apply IH.
Qed.

Lemma DeleteOne_Forall : forall (A : Type) (P : A -> Prop) (f : A -> bool) l,
  Forall P l -> Forall P (fst (DeleteOne f l)).
Proof.
  intros A P f l H. apply Forall_forall. intros x Hx.
  apply DeleteOne_In in Hx. revert x Hx. now apply Forall_forall.
Qed.

(** Deleting by id, seen by a lookup by another id. *)
Lemma FindOne_DeleteOne_other : forall id id' l,
  id' <> id ->
  FindOne (byID_item id') (fst (DeleteOne (byID_item id) l)) =
  FindOne (byID_item id') l.
Proof.
  intros id id' l Hne. unfold FindOne, byID_item.
  induction l as [|d rest IH]; simpl; [reflexivity|].
  destruct (item_ID d =? id)%N eqn:E; simpl.
  - apply N.eqb_eq in E.
    destruct (item_ID d =? id')%N eqn:E'; [|reflexivity].
    apply N.eqb_eq in E'. congruence.
  - destruct (DeleteOne _ rest) as [rest' n]. simpl in *.
    now rewrite IH.
Qed.

(** With unique ids, the document deleted by id was the only one. *)
Lemma DeleteOne_byID_item_gone : forall id l x,
  NoDup (map item_ID l) ->
  In x (fst (DeleteOne (byID_item id) l)) -> item_ID x <> id.
Proof.
  intros id l x. unfold byID_item.
  induction l as [|d rest IH]; simpl; intros Hnd Hin; [contradiction|].
  inversion Hnd as [|? ? Hnotin Hnd']; subst.
  destruct (item_ID d =? id)%N eqn:E.
  - simpl in Hin. apply N.eqb_eq in E. intros Hx. apply Hnotin.
    rewrite E, <- Hx. now apply in_map.
  - destruct (DeleteOne _ rest) as [rest' n]. simpl in *.
    destruct Hin as [->|Hin]; [now apply N.eqb_neq|now apply IH].
Qed.

(** The first match, with what is before and after it. *)
Lemma FindOne_split : forall (A : Type) (f : A -> bool) (g : A -> A) l x,
  FindOne f l = Some x ->
  exists l1 l2,
    l = l1 ++ x :: l2 /\ Forall (fun d => f d = false) l1 /\ f x = true /\
    UpdateOne f g l = l1 ++ g x :: l2.
Proof.
  intros A f g l x. unfold FindOne.
  induction l as [|d rest IH]; simpl; intros H; [discriminate|].
  destruct (f d) eqn:E.
  - injection H as ->. exists [], rest. auto.
  - destruct (IH H) as (l1 & l2 & -> & Hl1 & Hx & Hu).
    exists (d :: l1), l2. simpl. rewrite Hu. auto.
Qed.

Lemma UpdateOne_not_found : forall (A : Type) (f : A -> bool) (g : A -> A) l,
  FindOne f l = None -> UpdateOne f g l = l.
Proof.
  intros A f g l. unfold FindOne.
  induction l as [|d rest IH]; simpl; [reflexivity|].
  destruct (f d); [discriminate|]. intros H. now rewrite IH.
Qed.

Lemma actingUser_found : forall (B : Type) (r : HttpRequest B) db claims userID user,
  Claims r = Some claims ->
  ObjectIDFromHex (claims_ID claims) = Some userID ->
  FindOne (byID_user userID) (users db) = Some user ->
  actingUser r db = Some user.
Proof.
  intros B r db claims userID user Hc Hu Hf. unfold actingUser.
  now rewrite Hc, Hu.
Qed.

(** ** DeletePantryItemHandler *)

(** Every run of the delete handler either answers with an error and
    leaves the store as it was, or removes the item of the user's group
    with the requested id together with the notifications that name it. *)
Lemma DeletePantryItemHandler_cases : forall now r db resp db',
  DeletePantryItemHandler now r db = (resp, db') ->
  (exists msg status, resp = HttpError msg status /\ db' = db) \/
  (exists user itemID item,
      actingUser r db = Some user /\
      ObjectIDFromHex (TrimPrefix (URLPath r) "/api/pantry/remove/")
        = Some itemID /\
      itemByID itemID db = Some item /\
      item_GroupID item = user_GroupID user /\
      resp = HttpOK StatusOK "Pantry item deleted successfully"%string /\
      users db' = users db /\
      pantry_categories db' = pantry_categories db /\
      pantry_items db' = fst (DeleteOne (byID_item itemID) (pantry_items db)) /\
      pantry_notifications db' =
        DeleteMany (byItemID_notification itemID) (pantry_notifications db)).
Proof.
  intros now r db resp db' H. unfold DeletePantryItemHandler in H.
  destruct (String.eqb (Method r) "DELETE"); [|early_return H].
  destruct (Claims r) as [claims|] eqn:Ec; [|early_return H].
  destruct (String.eqb (TrimPrefix (URLPath r) "/api/pantry/remove/") "");
    simpl in H; [early_return H|].
  destruct (ObjectIDFromHex (TrimPrefix _ _)) as [itemID|] eqn:Ei;
    [|early_return H].
  destruct (ObjectIDFromHex (claims_ID claims)) as [userID|] eqn:Eu;
    [|early_return H].
  destruct (FindOne (byID_user userID) (users db)) as [user|] eqn:Efu;
    [|early_return H].
  unfold DeletePantryItemTxn in H.
  destruct (FindOne (byID_item itemID) (pantry_items db)) as [item|] eqn:Ef;
    [|early_return H].
  destruct (item_GroupID item =? user_GroupID user)%N eqn:Eg;
    [|early_return H].
  right. exists user, itemID, item.
  split; [exact (actingUser_found _ _ _ _ _ _ Ec Eu Efu)|].
  split; [reflexivity|]. split; [exact Ef|].
  split; [now apply N.eqb_eq|].
  destruct (negb (String.eqb (item_Name item) "")); injection H as <- <-;
    repeat split.
Qed.

(** ** The category handlers, case by case *)

Lemma FindOne_after_prefix : forall (A : Type) (f : A -> bool) l1 l2,
  Forall (fun d => f d = false) l1 -> FindOne f (l1 ++ l2) = FindOne f l2.
Proof.
  intros A f l1 l2 H. unfold FindOne.
  induction H as [|d rest Hd _ IH]; simpl; [reflexivity|].
  now rewrite Hd.
Qed.

Lemma CreatePantryCategoryHandler_cases : forall env now r db resp db',
  CreatePantryCategoryHandler env now r db = (resp, db') ->
  (exists msg status, resp = HttpError msg status /\ db' = db) \/
  (exists user userID request matcher,
      actingUser r db = Some user /\ user_ID user = userID /\
      Body r = Some request /\
      TrimSpace (create_Name request) <> ""%string /\
      regex_compile env
        (createLookupPattern (TrimSpace (create_Name request))) "i"
        = Some matcher /\
      FindOne (fun c => matcher (cat_Name c)
                        && visibleTo (user_GroupID user) c)
        (pantry_categories db) = None /\
      resp = HttpOK 201%nat
               {| cr_Status := "success";
                  cr_Message := "Custom category created successfully";
                  cr_Data :=
                    Some (cat_with_ID
                            (CreateCustomCategory now
                               (TrimSpace (create_Name request))
                               (user_GroupID user) userID)
                            (next_id db)) |} /\
      db' = snd (InsertOne_category db
                   (CreateCustomCategory now
                      (TrimSpace (create_Name request))
                      (user_GroupID user) userID))).
Proof.
  intros env now r db resp db' H. unfold CreatePantryCategoryHandler in H.
  destruct (String.eqb (Method r) "POST"); [|early_return H].
  destruct (Claims r) as [claims|] eqn:Ec; [|early_return H].
  destruct (Body r) as [request|] eqn:Eb; [|early_return H].
  destruct (String.eqb (TrimSpace (create_Name request)) "") eqn:En;
    simpl in H; [early_return H|].
  destruct (ObjectIDFromHex (claims_ID claims)) as [userID|] eqn:Eu;
    [|early_return H].
  destruct (FindOne (byID_user userID) (users db)) as [user|] eqn:Efu;
    [|early_return H].
  destruct (regex_compile env _ "i") as [matcher|] eqn:Em; [|early_return H].
  destruct (FindOne _ (pantry_categories db)) as [existing|] eqn:Ef;
    [early_return H|].
  right. exists user, userID, request, matcher.
  simpl in H. injection H as <- <-.
  split; [exact (actingUser_found _ _ _ _ _ _ Ec Eu Efu)|].
  split.
  { apply FindOne_In in Efu. destruct Efu as [_ Hid].
    now apply N.eqb_eq in Hid. }
  split; [reflexivity|]. split; [now apply String.eqb_neq|].
  repeat split; assumption.
Qed.

Lemma UpdatePantryCategoryHandler_cases : forall env r db resp db',
  UpdatePantryCategoryHandler env r db = (resp, db') ->
  (exists msg status, resp = HttpError msg status /\ db' = db) \/
  (exists user userID categoryID category request matcher,
      actingUser r db = Some user /\ user_ID user = userID /\
      ObjectIDFromHex (TrimPrefix (URLPath r) "/api/pantry/categories/")
        = Some categoryID /\
      Body r = Some request /\
      TrimSpace (rename_Name request) <> ""%string /\
      FindOne (byID_category categoryID) (pantry_categories db)
        = Some category /\
      CanBeEditedBy category userID (user_GroupID user) = true /\
      regex_compile env
        (createLookupPattern (TrimSpace (rename_Name request))) "i"
        = Some matcher /\
      FindOne (fun c => negb (byID_category categoryID c)
                        && matcher (cat_Name c)
                        && visibleTo (user_GroupID user) c)
        (pantry_categories db) = None /\
      resp = HttpOK StatusOK
               {| cr_Status := "success";
                  cr_Message := "Category updated successfully";
                  cr_Data :=
                    Some (cat_with_Name category
                            (TrimSpace (rename_Name request))) |} /\
      db' = with_categories db
              (UpdateOne (byID_category categoryID)
                 (fun c => cat_with_Name c (TrimSpace (rename_Name request)))
                 (pantry_categories db))).
Proof.
  intros env r db resp db' H. unfold UpdatePantryCategoryHandler in H.
  destruct (String.eqb (Method r) "PUT"); [|early_return H].
  destruct (Claims r) as [claims|] eqn:Ec; [|early_return H].
  destruct (String.eqb (TrimPrefix (URLPath r) "/api/pantry/categories/") "");
    simpl in H; [early_return H|].
  destruct (ObjectIDFromHex (TrimPrefix _ _)) as [categoryID|] eqn:Ei;
    [|early_return H].
  destruct (Body r) as [request|] eqn:Eb; [|early_return H].
  destruct (String.eqb (TrimSpace (rename_Name request)) "") eqn:En;
    simpl in H; [early_return H|].
  destruct (ObjectIDFromHex (claims_ID claims)) as [userID|] eqn:Eu;
    [|early_return H].
  destruct (FindOne (byID_user userID) (users db)) as [user|] eqn:Efu;
    [|early_return H].
  destruct (FindOne (byID_category categoryID) (pantry_categories db))
    as [category|] eqn:Efc; [|early_return H].
  destruct (CanBeEditedBy category userID (user_GroupID user)) eqn:Ep;
    [|destruct (IsPredefined category); early_return H].
  destruct (regex_compile env _ "i") as [matcher|] eqn:Em; [|early_return H].
  destruct (FindOne (fun c => negb _ && _ && _) (pantry_categories db))
    as [existing|] eqn:Ef; [early_return H|].
  cbn [pantry_categories with_categories] in H.
  destruct (FindOne_split _ (byID_category categoryID)
              (fun c => cat_with_Name c (TrimSpace (rename_Name request)))
              _ _ Efc) as (l1 & l2 & Hl & Hl1 & Hx & Hu).
  rewrite Hu, (FindOne_after_prefix _ _ _ _ Hl1) in H.
  unfold FindOne in H. simpl in H.
  unfold byID_category in Hx, H. cbn [cat_ID cat_with_Name] in H.
  rewrite Hx in H.
  right. exists user, userID, categoryID, category, request, matcher.
  injection H as <- <-.
  split; [exact (actingUser_found _ _ _ _ _ _ Ec Eu Efu)|].
  split.
  { apply FindOne_In in Efu. destruct Efu as [_ Hid].
    now apply N.eqb_eq in Hid. }
  repeat split; try reflexivity; try assumption.
  - now apply String.eqb_neq.
  - now rewrite Hu.
Qed.

Lemma DeletePantryCategoryHandler_cases : forall r db resp db',
  DeletePantryCategoryHandler r db = (resp, db') ->
  (exists msg status,
      resp = HttpError msg status /\ db' = db /\
      (status = StatusConflict ->
       exists categoryID it,
         ObjectIDFromHex (TrimPrefix (URLPath r) "/api/pantry/categories/")
           = Some categoryID /\
         In it (pantry_items db) /\ item_CategoryID it = categoryID)) \/
  (exists user userID categoryID category,
      actingUser r db = Some user /\ user_ID user = userID /\
      ObjectIDFromHex (TrimPrefix (URLPath r) "/api/pantry/categories/")
        = Some categoryID /\
      FindOne (byID_category categoryID) (pantry_categories db)
        = Some category /\
      CanBeDeletedBy category userID (user_GroupID user) = true /\
      (forall it, In it (pantry_items db) ->
                  item_CategoryID it <> categoryID) /\
      resp = HttpOK StatusOK
               {| cr_Status := "success";
                  cr_Message := "Category deleted successfully";
                  cr_Data := None |} /\
      db' = with_categories db
              (fst (DeleteOne (byID_category categoryID)
                      (pantry_categories db)))).
Proof.
  intros r db resp db' H. unfold DeletePantryCategoryHandler in H.
  assert (Hno : forall msg st,
            st <> StatusConflict ->
            exists msg' status,
              @HttpError (CategoryResponse unit) msg st = HttpError msg' status
              /\ db = db /\
              (status = StatusConflict ->
               exists categoryID it,
                 ObjectIDFromHex
                   (TrimPrefix (URLPath r) "/api/pantry/categories/")
                   = Some categoryID /\
                 In it (pantry_items db) /\ item_CategoryID it = categoryID)).
  { intros msg st Hst. exists msg, st. repeat split. intros E. congruence. }
  destruct (String.eqb (Method r) "DELETE");
    [|left; injection H as <- <-; apply Hno; discriminate].
  destruct (Claims r) as [claims|] eqn:Ec;
    [|left; injection H as <- <-; apply Hno; discriminate].
  destruct (String.eqb (TrimPrefix (URLPath r) "/api/pantry/categories/") "");
    simpl in H; [left; injection H as <- <-; apply Hno; discriminate|].
  destruct (ObjectIDFromHex (TrimPrefix _ _)) as [categoryID|] eqn:Ei;
    [|left; injection H as <- <-; apply Hno; discriminate].
  destruct (ObjectIDFromHex (claims_ID claims)) as [userID|] eqn:Eu;
    [|left; injection H as <- <-; apply Hno; discriminate].
  destruct (FindOne (byID_user userID) (users db)) as [user|] eqn:Efu;
    [|left; injection H as <- <-; apply Hno; discriminate].
  destruct (FindOne (byID_category categoryID) (pantry_categories db))
    as [category|] eqn:Efc;
    [|left; injection H as <- <-; apply Hno; discriminate].
  destruct (CanBeDeletedBy category userID (user_GroupID user)) eqn:Ep;
    [|left; destruct (IsPredefined category); injection H as <- <-;
      apply Hno; discriminate].
  destruct (0 <? CountDocuments _ (pantry_items db))%nat eqn:Ecount;
    simpl in H.
  - left. injection H as <- <-. eexists _, _. repeat split.
    intros _. apply CountDocuments_pos in Ecount.
    destruct Ecount as (it & Hin & Hit). apply N.eqb_eq in Hit.
    exists categoryID, it. auto.
  - destruct (DeleteOne_found _ _ _ _ Efc) as [Hone _].
    destruct (DeleteOne (byID_category categoryID) (pantry_categories db))
      as [categories deletedCount] eqn:Ed.
    simpl in Hone. subst deletedCount. simpl in H.
    right. exists user, userID, categoryID, category.
    injection H as <- <-.
    split; [exact (actingUser_found _ _ _ _ _ _ Ec Eu Efu)|].
    split.
    { apply FindOne_In in Efu. destruct Efu as [_ Hid].
      now apply N.eqb_eq in Hid. }
    repeat split; auto.
    + intros it Hin Hit.
      assert (Hpos : (0 <? CountDocuments
                             (fun d => (item_CategoryID d =? categoryID)%N)
                             (pantry_items db))%nat = true).
      { apply CountDocuments_pos. exists it.
        split; [exact Hin|now apply N.eqb_eq]. }
      congruence.
    + now rewrite Ed.
Qed.

(** ** What the item handlers leave alone *)

Lemma UsePantryItemHandler_frame : forall now r db,
  users (snd (UsePantryItemHandler now r db)) = users db /\
  pantry_categories (snd (UsePantryItemHandler now r db))
    = pantry_categories db.
Proof.
  intros now r db.
  destruct (UsePantryItemHandler now r db) as [resp db'] eqn:E. simpl.
  apply UsePantryItemHandler_cases in E.
  destruct E as [(msg & st & _ & ->)|E]; [auto|].
  destruct E as (claims & request & userID & itemID & user & item
                 & response & dbT & _ & _ & _ & _ & _ & _ & _ & _
                 & Ht & _ & ->).
  unfold UsePantryItemTxn in Ht.
  destruct (FindOne _ _) as [item'|]; [|discriminate].
  destruct (_ =? _)%N; [|discriminate].
  destruct (Qlt_bool _ _); simpl in Ht; [discriminate|].
  destruct (Qlt_bool 0 _ && Qle_bool _ 1); destruct (Qeq_bool _ 0);
    injection Ht as _ <-; auto.
Qed.

Lemma AddPantryItemHandler_frame : forall env now r db,
  users (snd (AddPantryItemHandler env now r db)) = users db /\
  pantry_categories (snd (AddPantryItemHandler env now r db))
    = pantry_categories db.
Proof.
  intros env now r db.
  destruct (AddPantryItemHandler env now r db) as [resp db'] eqn:E. simpl.
  apply AddPantryItemHandler_cases in E.
  destruct E as [(msg & st & _ & ->)|E]; [auto|].
  destruct E as (claims & request & group & userID & user & category
                 & categoryID & e & pantryItem & isNewItem & oldQuantity
                 & dbT & _ & _ & _ & _ & _ & _ & _ & _ & _ & _ & Ht
                 & _ & ->).
  assert (Hf : users dbT = users db /\
               pantry_categories dbT = pantry_categories db).
  { apply AddPantryItemTxn_cases in Ht.
    destruct Ht as [(err & Habs & _)|[Ht|Ht]]; [discriminate| |].
    - destruct Ht as (matcher & old & _ & _ & _ & ->).
      unfold expirationNotification. now destruct (_ && _).
    - destruct Ht as (matcher & _ & _ & _ & ->).
      unfold expirationNotification. now destruct (_ && _). }
  destruct isNewItem; [exact Hf|].
  now destruct (negb (Qeq_bool oldQuantity (add_Quantity request))).
Qed.

Lemma UpdatePantryItemHandler_frame : forall env now r db,
  users (snd (UpdatePantryItemHandler env now r db)) = users db /\
  pantry_categories (snd (UpdatePantryItemHandler env now r db))
    = pantry_categories db.
Proof.
  intros env now r db.
  destruct (UpdatePantryItemHandler env now r db) as [resp db'] eqn:E. simpl.
  apply UpdatePantryItemHandler_cases in E.
  destruct E as [(msg & st & _ & ->)|E]; [auto|].
  destruct E as (claims & request & itemID & group & userID & user
                 & category & categoryID & e & pantryItem & oldQuantity
                 & dbT & _ & _ & _ & _ & _ & _ & _ & _ & _ & _ & _ & Ht
                 & _ & ->).
  assert (Hf : users dbT = users db /\
               pantry_categories dbT = pantry_categories db).
  { apply UpdatePantryItemTxn_cases in Ht.
    destruct Ht as [(err & Habs & _)|Ht]; [discriminate|].
    destruct Ht as (old & _ & _ & _ & ->).
    unfold expirationNotification. now destruct (_ && _). }
  now destruct (negb (Qeq_bool oldQuantity (upd_Quantity request))).
Qed.

(** ** Errors write nothing *)

(** X4. Whenever one of the seven writing handlers answers with an error,
    it has written nothing: the store is the one it was given. *)
Theorem errors_write_nothing : forall env now db,
  (forall r, isError (fst (UsePantryItemHandler now r db)) = true ->
             snd (UsePantryItemHandler now r db) = db) /\
  (forall r, isError (fst (AddPantryItemHandler env now r db)) = true ->
             snd (AddPantryItemHandler env now r db) = db) /\
  (forall r, isError (fst (UpdatePantryItemHandler env now r db)) = true ->
             snd (UpdatePantryItemHandler env now r db) = db) /\
  (forall r, isError (fst (DeletePantryItemHandler now r db)) = true ->
             snd (DeletePantryItemHandler now r db) = db) /\
  (forall r, isError (fst (CreatePantryCategoryHandler env now r db)) = true ->
             snd (CreatePantryCategoryHandler env now r db) = db) /\
  (forall r, isError (fst (UpdatePantryCategoryHandler env r db)) = true ->
             snd (UpdatePantryCategoryHandler env r db) = db) /\
  (forall r, isError (fst (DeletePantryCategoryHandler r db)) = true ->
             snd (DeletePantryCategoryHandler r db) = db).
Proof.
  intros env now db. repeat split; intros r.
  - destruct (UsePantryItemHandler now r db) as [resp db'] eqn:E. simpl.
    apply UsePantryItemHandler_cases in E.
    destruct E as [(msg & st & _ & ->)|E]; [reflexivity|].
    destruct E as (? & ? & ? & ? & ? & ? & ? & ? & _ & _ & _ & _ & _ & _
                   & _ & _ & _ & -> & _). discriminate.
  - destruct (AddPantryItemHandler env now r db) as [resp db'] eqn:E. simpl.
    apply AddPantryItemHandler_cases in E.
    destruct E as [(msg & st & _ & ->)|E]; [reflexivity|].
    destruct E as (? & ? & ? & ? & ? & ? & ? & ? & ? & ? & ? & ? & _ & _
                   & _ & _ & _ & _ & _ & _ & _ & _ & _ & -> & _).
    discriminate.
  - destruct (UpdatePantryItemHandler env now r db) as [resp db'] eqn:E.
    simpl. apply UpdatePantryItemHandler_cases in E.
    destruct E as [(msg & st & _ & ->)|E]; [reflexivity|].
    destruct E as (? & ? & ? & ? & ? & ? & ? & ? & ? & ? & ? & ? & _ & _
                   & _ & _ & _ & _ & _ & _ & _ & _ & _ & _ & -> & _).
    discriminate.
  - destruct (DeletePantryItemHandler now r db) as [resp db'] eqn:E. simpl.
    apply DeletePantryItemHandler_cases in E.
    destruct E as [(msg & st & _ & ->)|E]; [reflexivity|].
    destruct E as (? & ? & ? & _ & _ & _ & _ & -> & _). discriminate.
  - destruct (CreatePantryCategoryHandler env now r db) as [resp db'] eqn:E.
    simpl. apply CreatePantryCategoryHandler_cases in E.
    destruct E as [(msg & st & _ & ->)|E]; [reflexivity|].
    destruct E as (? & ? & ? & ? & _ & _ & _ & _ & _ & _ & -> & _).
    discriminate.
  - destruct (UpdatePantryCategoryHandler env r db) as [resp db'] eqn:E.
    simpl. apply UpdatePantryCategoryHandler_cases in E.
    destruct E as [(msg & st & _ & ->)|E]; [reflexivity|].
    destruct E as (? & ? & ? & ? & ? & ? & _ & _ & _ & _ & _ & _ & _ & _
                   & _ & -> & _).
    discriminate.
  - destruct (DeletePantryCategoryHandler r db) as [resp db'] eqn:E. simpl.
    apply DeletePantryCategoryHandler_cases in E.
    destruct E as [(msg & st & _ & -> & _)|E]; [reflexivity|].
    destruct E as (? & ? & ? & ? & _ & _ & _ & _ & _ & _ & -> & _).
    discriminate.
Qed.

(** Bob, of another group, asks to delete Alice's milk. *)
Lemma errors_write_nothing_witness :
  snd (DeletePantryItemHandler noon
         (asBob "DELETE" ("/api/pantry/remove/" ++ milkHex)%string None)
         twoGroups) = twoGroups.
Proof.
  apply (proj1 (proj2 (proj2 (proj2 (errors_write_nothing goEnv noon twoGroups))))).
  reflexivity.
Defined.

(** ** Items of other groups *)

(** X5. No request changes an item of a group the acting user does not
    belong to: in a store with unique item ids, use, add, update and delete
    leave every such item as it was, whatever the request says. *)
Theorem items_of_other_groups_untouched : forall env now db id it,
  uniqueItemIDs db ->
  itemByID id db = Some it ->
  (forall r,
      (forall u, actingUser r db = Some u ->
                 user_GroupID u <> item_GroupID it) ->
      itemByID id (snd (UsePantryItemHandler now r db)) = Some it) /\
  (forall r,
      (forall u, actingUser r db = Some u ->
                 user_GroupID u <> item_GroupID it) ->
      itemByID id (snd (AddPantryItemHandler env now r db)) = Some it) /\
  (forall r,
      (forall u, actingUser r db = Some u ->
                 user_GroupID u <> item_GroupID it) ->
      itemByID id (snd (UpdatePantryItemHandler env now r db)) = Some it) /\
  (forall r,
      (forall u, actingUser r db = Some u ->
                 user_GroupID u <> item_GroupID it) ->
      itemByID id (snd (DeletePantryItemHandler now r db)) = Some it).
Proof.
  intros env now db id it Huniq Hit. repeat split; intros r Hother.
  - destruct (UsePantryItemHandler now r db) as [resp db'] eqn:E. simpl.
    apply UsePantryItemHandler_cases in E.
    destruct E as [(msg & st & _ & ->)|E]; [exact Hit|].
    destruct E as (claims & request & userID & itemID & user & item
                   & response & dbT & _ & Hc & _ & _ & Hu & _ & Hfu & Hfind
                   & Ht & _ & ->).
    specialize (Hother user (actingUser_found _ _ _ _ _ _ Hc Hu Hfu)).
    apply UsePantryItemTxn_items in Ht.
    destruct Ht as (item' & Hfind' & Hg & _ & _ & Hitems).
    rewrite Hfind in Hfind'. injection Hfind' as <-.
    unfold itemByID, UpdatePantryHistoryForUse in *.
    rewrite items_InsertOne_history, Hitems.
    rewrite FindOne_UpdateOne_byID by reflexivity.
    destruct (id =? itemID)%N eqn:Eid; [|exact Hit].
    apply N.eqb_eq in Eid. subst id. congruence.
  - destruct (AddPantryItemHandler env now r db) as [resp db'] eqn:E. simpl.
    apply AddPantryItemHandler_cases in E.
    destruct E as [(msg & st & _ & ->)|E]; [exact Hit|].
    destruct E as (claims & request & group & userID & user & category
                   & categoryID & e & pantryItem & isNewItem & oldQuantity
                   & dbT & Hc & _ & _ & _ & Hu & Hfu & Hm & _ & _ & _ & Ht
                   & _ & ->).
    specialize (Hother user (actingUser_found _ _ _ _ _ _ Hc Hu Hfu)).
    assert (Hitems : pantry_items
              (if isNewItem then
                 UpdatePantryHistoryForAdd now (group_ID group)
                   (item_ID pantryItem) (item_Name pantryItem) userID
                   (user_Name user) (add_Quantity request) dbT
               else if negb (Qeq_bool oldQuantity (add_Quantity request)) then
                 UpdatePantryHistoryForAdd now (group_ID group)
                   (item_ID pantryItem) (item_Name pantryItem) userID
                   (user_Name user) (add_Quantity request - oldQuantity) dbT
               else dbT) = pantry_items dbT).
    { destruct isNewItem; [reflexivity|].
      now destruct (negb (Qeq_bool oldQuantity (add_Quantity request))). }
    unfold itemByID in *. rewrite Hitems. clear Hitems.
    apply AddPantryItemTxn_cases in Ht.
    destruct Ht as [(err & Habs & _)|[Ht|Ht]]; [discriminate| |].
    + destruct Ht as (matcher & old & _ & Hfind & _ & ->).
      rewrite expirationNotification_items. simpl.
      apply FindOne_In in Hfind. destruct Hfind as [Hin Hfilter].
      pose proof (FindOne_byID_unique _ _ Huniq Hin) as Hfirst.
      rewrite (UpdateOne_ext_first _ _
                 (fun _ => addOverwrite now old (add_Quantity request)
                             (add_Unit request) e)
                 (fun d => addOverwrite now d (add_Quantity request)
                             (add_Unit request) e) _ _ Hfirst eq_refl).
      rewrite FindOne_UpdateOne_byID by reflexivity.
      destruct (id =? item_ID old)%N eqn:Eid; [|exact Hit].
      apply N.eqb_eq in Eid. subst id. rewrite Hfirst in Hit.
      injection Hit as <-. exfalso. apply Hother.
      unfold addLookupFilter in Hfilter.
      apply andb_true_iff in Hfilter. destruct Hfilter as [Hfilter _].
      apply andb_true_iff in Hfilter. destruct Hfilter as [Hgroup _].
      apply N.eqb_eq in Hgroup. congruence.
    + destruct Ht as (matcher & _ & _ & _ & ->).
      rewrite expirationNotification_items. simpl.
      now rewrite FindOne_app, Hit.
  - destruct (UpdatePantryItemHandler env now r db) as [resp db'] eqn:E.
    simpl. apply UpdatePantryItemHandler_cases in E.
    destruct E as [(msg & st & _ & ->)|E]; [exact Hit|].
    destruct E as (claims & request & itemID & group & userID & user
                   & category & categoryID & e & pantryItem & oldQuantity
                   & dbT & Hc & _ & _ & _ & _ & Hu & Hfu & _ & _ & _ & _ & Ht
                   & _ & ->).
    specialize (Hother user (actingUser_found _ _ _ _ _ _ Hc Hu Hfu)).
    assert (Hitems : pantry_items
              (if negb (Qeq_bool oldQuantity (upd_Quantity request)) then
                 UpdatePantryHistoryForAdd now (group_ID group)
                   (item_ID pantryItem) (item_Name pantryItem) userID
                   (user_Name user) (upd_Quantity request - oldQuantity) dbT
               else dbT) = pantry_items dbT).
    { now destruct (negb (Qeq_bool oldQuantity (upd_Quantity request))). }
    unfold itemByID in *. rewrite Hitems. clear Hitems.
    apply UpdatePantryItemTxn_cases in Ht.
    destruct Ht as [(err & Habs & _)|Ht]; [discriminate|].
    destruct Ht as (old & Hfind & Hg & _ & ->).
    rewrite expirationNotification_items. simpl.
    unfold itemByID in Hfind.
    rewrite (UpdateOne_ext_first _ _
               (fun _ => updateOverwrite now old (upd_Name request)
                           (upd_Quantity request) (upd_Unit request)
                           categoryID e)
               (fun d => updateOverwrite now d (upd_Name request)
                           (upd_Quantity request) (upd_Unit request)
                           categoryID e) _ _ Hfind eq_refl).
    rewrite FindOne_UpdateOne_byID by reflexivity.
    destruct (id =? itemID)%N eqn:Eid; [|exact Hit].
    apply N.eqb_eq in Eid. subst id. congruence.
  - destruct (DeletePantryItemHandler now r db) as [resp db'] eqn:E. simpl.
    apply DeletePantryItemHandler_cases in E.
    destruct E as [(msg & st & _ & ->)|E]; [exact Hit|].
    destruct E as (user & itemID & item & Hact & _ & Hfind & Hg & _ & _ & _
                   & Hitems & _).
    specialize (Hother user Hact).
    unfold itemByID in *. rewrite Hitems.
    destruct (N.eq_dec id itemID) as [->|Hne].
    + congruence.
    + now rewrite FindOne_DeleteOne_other.
Qed.

(** Bob cannot use up Alice's milk. *)
Lemma items_of_other_groups_untouched_witness :
  itemByID milkID
    (snd (UsePantryItemHandler noon
            (asBob "POST" "/api/pantry/use"
               (Some {| use_ItemID := milkHex; use_Quantity := 1 |}))
            twoGroups)) = Some (milk 1).
Proof.
  assert (Huniq : uniqueItemIDs twoGroups).
  { constructor; [intros []|constructor]. }
  apply (proj1 (items_of_other_groups_untouched goEnv noon twoGroups milkID
                  (milk 1) Huniq eq_refl)).
  intros u Hu. injection Hu as <-. discriminate.
Defined.

(** ** Deleting an item *)

Lemma CountDocuments_DeleteMany_byItem : forall itemID id ty l,
  CountDocuments (notificationFilter id ty)
    (DeleteMany (byItemID_notification itemID) l) =
  if (id =? itemID)%N then 0%nat
  else CountDocuments (notificationFilter id ty) l.
Proof.
  intros itemID id ty l. rewrite CountDocuments_DeleteMany.
  destruct (id =? itemID)%N eqn:E.
  - apply N.eqb_eq in E. subst id. apply CountDocuments_none. intros x _.
    unfold byItemID_notification, notificationFilter.
    now destruct (notif_ItemID x =? itemID)%N.
  - apply CountDocuments_ext. intros x _.
    unfold byItemID_notification, notificationFilter.
    destruct (notif_ItemID x =? id)%N eqn:E1; simpl;
      [|now rewrite andb_false_r].
    apply N.eqb_eq in E1. rewrite E1, E. reflexivity.
Qed.

(** X6. A successful delete removes one item document, the one with the
    requested id, and with it every notification that names the item,
    whatever its type; the other items and their notifications, and the
    categories, stay as they were.  With unique ids no item with the id is
    left. *)
Theorem delete_item_removes_item_and_notifications :
  forall now r db status body db' itemID,
  DeletePantryItemHandler now r db = (HttpOK status body, db') ->
  ObjectIDFromHex (TrimPrefix (URLPath r) "/api/pantry/remove/")
    = Some itemID ->
  List.length (pantry_items db') = pred (List.length (pantry_items db)) /\
  (uniqueItemIDs db -> itemByID itemID db' = None) /\
  (forall ty, countNotifications itemID ty db' = 0%nat) /\
  (forall id, id <> itemID ->
     itemByID id db' = itemByID id db /\
     forall ty, countNotifications id ty db' = countNotifications id ty db) /\
  pantry_categories db' = pantry_categories db.
Proof.
  intros now r db status body db' itemID H Hid.
  apply DeletePantryItemHandler_cases in H.
  destruct H as [(msg & st & Habs & _)|H]; [discriminate|].
  destruct H as (user & itemID' & item & _ & Hid' & Hfind & _ & _ & _ & Hcats
                 & Hitems & Hnotifs).
  rewrite Hid in Hid'. injection Hid' as <-.
  unfold itemByID, countNotifications in *. rewrite Hitems, Hnotifs.
  split; [exact (proj2 (DeleteOne_found _ _ _ _ Hfind))|].
  split; [|split; [|split; [|exact Hcats]]].
  - intros Huniq.
    destruct (FindOne (byID_item itemID) (fst _)) as [x|] eqn:E;
      [|reflexivity].
    apply FindOne_In in E. destruct E as [Hin Hx].
    apply N.eqb_eq in Hx.
    exfalso. exact (DeleteOne_byID_item_gone _ _ _ Huniq Hin Hx).
  - intros ty. now rewrite CountDocuments_DeleteMany_byItem, N.eqb_refl.
  - intros id Hne. split.
    + now apply FindOne_DeleteOne_other.
    + intros ty. rewrite CountDocuments_DeleteMany_byItem.
      apply N.eqb_neq in Hne. now rewrite Hne.
Qed.

(** Alice deletes the milk, which had a low_stock notification. *)
Lemma delete_item_removes_item_and_notifications_witness :
  pantry_items (snd (DeletePantryItemHandler noon deleteMilk twoGroups)) = [] /\
  countNotifications milkID NotificationTypeLowStock twoGroups = 1%nat /\
  countNotifications milkID NotificationTypeLowStock
    (snd (DeletePantryItemHandler noon deleteMilk twoGroups)) = 0%nat.
Proof.
  destruct (delete_item_removes_item_and_notifications noon deleteMilk
              twoGroups StatusOK "Pantry item deleted successfully"
              (snd (DeletePantryItemHandler noon deleteMilk twoGroups))
              milkID eq_refl eq_refl) as (_ & _ & Hn & _).
  split; [reflexivity|]. split; [reflexivity|]. apply Hn.
Defined.

(** X7. Deleting the last item that references a category unblocks the
    category: when every item that carries the category id has the id of
    the item just deleted (ids being unique), a category delete on the
    resulting store is not answered with the conflict error. *)
Theorem delete_last_item_unblocks_category :
  forall now r1 r2 db status body db' itemID categoryID,
  uniqueItemIDs db ->
  DeletePantryItemHandler now r1 db = (HttpOK status body, db') ->
  ObjectIDFromHex (TrimPrefix (URLPath r1) "/api/pantry/remove/")
    = Some itemID ->
  ObjectIDFromHex (TrimPrefix (URLPath r2) "/api/pantry/categories/")
    = Some categoryID ->
  (forall it, In it (pantry_items db) -> item_CategoryID it = categoryID ->
              item_ID it = itemID) ->
  isConflict (fst (DeletePantryCategoryHandler r2 db')) = false.
Proof.
  intros now r1 r2 db status body db' itemID categoryID
    Huniq H Hid Hcid Honly.
  apply DeletePantryItemHandler_cases in H.
  destruct H as [(msg & st & Habs & _)|H]; [discriminate|].
  destruct H as (user & itemID' & item & _ & Hid' & _ & _ & _ & _ & _
                 & Hitems & _).
  rewrite Hid in Hid'. injection Hid' as <-.
  destruct (DeletePantryCategoryHandler r2 db') as [resp db''] eqn:E. simpl.
  apply DeletePantryCategoryHandler_cases in E.
  destruct E as [(msg & st & -> & _ & Hconf)|E].
  - simpl. apply Nat.eqb_neq. intros Hst.
    destruct (Hconf Hst) as (categoryID' & it & Hcid' & Hin & Hit).
    rewrite Hcid in Hcid'. injection Hcid' as <-.
    rewrite Hitems in Hin.
    apply (DeleteOne_byID_item_gone _ _ _ Huniq Hin).
    apply Honly; [now apply DeleteOne_In in Hin|exact Hit].
  - destruct E as (? & ? & ? & ? & _ & _ & _ & _ & _ & _ & -> & _).
    reflexivity.
Qed.

(** Once the milk is gone, Dairy can be deleted. *)
Lemma delete_last_item_unblocks_category_witness :
  isConflict (fst (DeletePantryCategoryHandler deleteDairy twoGroups)) = true /\
  isConflict
    (fst (DeletePantryCategoryHandler deleteDairy
            (snd (DeletePantryItemHandler noon deleteMilk twoGroups))))
  = false.
Proof.
  split; [reflexivity|].
  assert (Huniq : uniqueItemIDs twoGroups).
  { constructor; [intros []|constructor]. }
  apply (delete_last_item_unblocks_category noon deleteMilk deleteDairy
           twoGroups StatusOK "Pantry item deleted successfully"
           (snd (DeletePantryItemHandler noon deleteMilk twoGroups))
           milkID dairyID Huniq eq_refl eq_refl eq_refl).
  intros it [<-|[]] _. reflexivity.
Defined.

(** ** Category references resolve *)

Lemma validateCategoryID_accessible : forall s g db category categoryID,
  validateCategoryID s g db = inr category ->
  ObjectIDFromHex s = Some categoryID ->
  categoryAccessible g categoryID db.
Proof.
  intros s g db category categoryID H Hhex.
  destruct (validateCategoryID_ok _ _ _ _ H) as (cid & Hhex' & Hfind).
  rewrite Hhex in Hhex'. injection Hhex' as <-.
  apply FindOne_In in Hfind. destruct Hfind as [Hin Hf].
  apply andb_true_iff in Hf. destruct Hf as [Hid Hvis].
  exists category. split; [exact Hin|]. split; [|exact Hvis].
  now apply N.eqb_eq in Hid.
Qed.

Lemma itemsResolve_step : forall db db',
  (forall g c, categoryAccessible g c db -> categoryAccessible g c db') ->
  Forall (fun it => categoryAccessible (item_GroupID it) (item_CategoryID it) db)
    (pantry_items db') ->
  itemsResolve db'.
Proof.
  intros db db' Hmono Hitems. unfold itemsResolve.
  eapply Forall_impl; [|exact Hitems]. intros it. apply Hmono.
Qed.

Lemma categoryAccessible_same : forall db db' g c,
  pantry_categories db' = pantry_categories db ->
  categoryAccessible g c db -> categoryAccessible g c db'.
Proof.
  intros db db' g c Hcats. unfold categoryAccessible. now rewrite Hcats.
Qed.

Lemma In_UpdateOne : forall (A : Type) (f : A -> bool) (g : A -> A) l x,
  In x l -> In x (UpdateOne f g l) \/ In (g x) (UpdateOne f g l).
Proof.
  intros A f g l x. induction l as [|d rest IH]; simpl; [tauto|].
  intros [->|Hin].
  - destruct (f x); [right|left]; now left.
  - destruct (f d).
    + left. now right.
    + destruct (IH Hin) as [H|H]; [left|right]; now right.
Qed.

(** X8. The category reference of every item keeps resolving: when each
    item of the store references an active category that is predefined or
    belongs to the item's group, the same holds after any request to any
    of the seven writing handlers.  Add and update validate the reference
    they store, rename keeps id and owner, and a category is deleted only
    while no item carries its id. *)
Theorem item_categories_always_resolve : forall env now db,
  itemsResolve db ->
  (forall r, itemsResolve (snd (UsePantryItemHandler now r db))) /\
  (forall r, itemsResolve (snd (AddPantryItemHandler env now r db))) /\
  (forall r, itemsResolve (snd (UpdatePantryItemHandler env now r db))) /\
  (forall r, itemsResolve (snd (DeletePantryItemHandler now r db))) /\
  (forall r, itemsResolve (snd (CreatePantryCategoryHandler env now r db))) /\
  (forall r, itemsResolve (snd (UpdatePantryCategoryHandler env r db))) /\
  (forall r, itemsResolve (snd (DeletePantryCategoryHandler r db))).
Proof.
  intros env now db Hinv. repeat split; intros r.
  - apply (itemsResolve_step db).
    + intros g c. apply categoryAccessible_same.
      exact (proj2 (UsePantryItemHandler_frame now r db)).
    + destruct (UsePantryItemHandler now r db) as [resp db'] eqn:E. simpl.
      apply UsePantryItemHandler_cases in E.
      destruct E as [(msg & st & _ & ->)|E]; [exact Hinv|].
      destruct E as (claims & request & userID & itemID & user & item
                     & response & dbT & _ & _ & _ & _ & _ & _ & _ & _
                     & Ht & _ & ->).
      apply UsePantryItemTxn_items in Ht.
      destruct Ht as (item' & _ & _ & _ & _ & Hitems).
      unfold UpdatePantryHistoryForUse.
      rewrite items_InsertOne_history, Hitems.
      apply UpdateOne_Forall; [exact Hinv|].
      intros d Hd. simpl.
      exact (proj1 (Forall_forall _ _) Hinv d Hd).
  - apply (itemsResolve_step db).
    + intros g c. apply categoryAccessible_same.
      exact (proj2 (AddPantryItemHandler_frame env now r db)).
    + destruct (AddPantryItemHandler env now r db) as [resp db'] eqn:E. simpl.
      apply AddPantryItemHandler_cases in E.
      destruct E as [(msg & st & _ & ->)|E]; [exact Hinv|].
      destruct E as (claims & request & group & userID & user & category
                     & categoryID & e & pantryItem & isNewItem & oldQuantity
                     & dbT & _ & _ & _ & _ & _ & _ & _ & Hcat & Hhex & _ & Ht
                     & _ & ->).
      pose proof (validateCategoryID_accessible _ _ _ _ _ Hcat Hhex) as Hacc.
      assert (Hitems : Forall
                (fun it => categoryAccessible (item_GroupID it)
                             (item_CategoryID it) db) (pantry_items dbT)).
      { apply AddPantryItemTxn_cases in Ht.
        destruct Ht as [(err & Habs & _)|[Ht|Ht]]; [discriminate| |].
        - destruct Ht as (matcher & old & _ & Hfind & _ & ->).
          rewrite expirationNotification_items. simpl.
          apply UpdateOne_Forall; [exact Hinv|]. intros d _. simpl.
          apply FindOne_In in Hfind. destruct Hfind as [Hin _].
          exact (proj1 (Forall_forall _ _) Hinv old Hin).
        - destruct Ht as (matcher & _ & _ & _ & ->).
          rewrite expirationNotification_items. simpl.
          apply Forall_app. split; [exact Hinv|]. now constructor. }
      destruct isNewItem; [exact Hitems|].
      now destruct (negb (Qeq_bool oldQuantity (add_Quantity request))).
  - apply (itemsResolve_step db).
    + intros g c. apply categoryAccessible_same.
      exact (proj2 (UpdatePantryItemHandler_frame env now r db)).
    + destruct (UpdatePantryItemHandler env now r db) as [resp db'] eqn:E.
      simpl. apply UpdatePantryItemHandler_cases in E.
      destruct E as [(msg & st & _ & ->)|E]; [exact Hinv|].
      destruct E as (claims & request & itemID & group & userID & user
                     & category & categoryID & e & pantryItem & oldQuantity
                     & dbT & _ & _ & _ & _ & _ & _ & _ & Hm & Hcat & Hhex & _
                     & Ht & _ & ->).
      pose proof (validateCategoryID_accessible _ _ _ _ _ Hcat Hhex) as Hacc.
      assert (Hitems : Forall
                (fun it => categoryAccessible (item_GroupID it)
                             (item_CategoryID it) db) (pantry_items dbT)).
      { apply UpdatePantryItemTxn_cases in Ht.
        destruct Ht as [(err & Habs & _)|Ht]; [discriminate|].
        destruct Ht as (old & _ & Hg & _ & ->).
        rewrite expirationNotification_items. simpl.
        apply UpdateOne_Forall; [exact Hinv|]. intros d _. simpl.
        rewrite Hg, Hm. exact Hacc. }
      now destruct (negb (Qeq_bool oldQuantity (upd_Quantity request))).
  - destruct (DeletePantryItemHandler now r db) as [resp db'] eqn:E. simpl.
    apply DeletePantryItemHandler_cases in E.
    destruct E as [(msg & st & _ & ->)|E]; [exact Hinv|].
    destruct E as (user & itemID & item & _ & _ & _ & _ & _ & _ & Hcats
                   & Hitems & _).
    apply (itemsResolve_step db).
    + intros g c. now apply categoryAccessible_same.
    + rewrite Hitems. now apply DeleteOne_Forall.
  - destruct (CreatePantryCategoryHandler env now r db) as [resp db'] eqn:E.
    simpl. apply CreatePantryCategoryHandler_cases in E.
    destruct E as [(msg & st & _ & ->)|E]; [exact Hinv|].
    destruct E as (user & userID & request & matcher & _ & _ & _ & _ & _ & _
                   & _ & ->).
    apply (itemsResolve_step db); [|exact Hinv].
    intros g c (cat & Hin & Hid & Hvis). exists cat. simpl.
    split; [apply in_or_app; now left|auto].
  - destruct (UpdatePantryCategoryHandler env r db) as [resp db'] eqn:E.
    simpl. apply UpdatePantryCategoryHandler_cases in E.
    destruct E as [(msg & st & _ & ->)|E]; [exact Hinv|].
    destruct E as (user & userID & categoryID & category & request & matcher
                   & _ & _ & _ & _ & _ & _ & _ & _ & _ & _ & ->).
    apply (itemsResolve_step db); [|exact Hinv].
    intros g c (cat & Hin & Hid & Hvis). unfold categoryAccessible. simpl.
    destruct (In_UpdateOne _ (byID_category categoryID)
                (fun c0 => cat_with_Name c0 (TrimSpace (rename_Name request)))
                _ _ Hin) as [H|H].
    + exists cat. auto.
    + eexists. split; [exact H|]. split; [exact Hid|exact Hvis].
  - destruct (DeletePantryCategoryHandler r db) as [resp db'] eqn:E. simpl.
    apply DeletePantryCategoryHandler_cases in E.
    destruct E as [(msg & st & _ & -> & _)|E]; [exact Hinv|].
    destruct E as (user & userID & categoryID & category & _ & _ & _ & _ & _
                   & Hnone & _ & ->).
    unfold itemsResolve. simpl. apply Forall_forall. intros it Hin.
    destruct (proj1 (Forall_forall _ _) Hinv it Hin) as (cat & Hcin & Hid & Hvis).
    exists cat. simpl. split; [|auto].
    apply DeleteOne_keeps; [exact Hcin|].
    unfold byID_category. apply N.eqb_neq. rewrite Hid.
    now apply Hnone.
Qed.

(** The two groups' store resolves, and still does after Alice renames
    Dairy. *)
Lemma item_categories_always_resolve_witness :
  itemsResolve (snd (UpdatePantryCategoryHandler goEnv (renameDairy "Cheese")
                       twoGroups)).
Proof.
  assert (Hinv : itemsResolve twoGroups).
  { constructor; [|constructor].
    exists dairy. split; [right; now left|]. split; reflexivity. }
  exact (proj1 (proj2 (proj2 (proj2 (proj2 (proj2
           (item_categories_always_resolve goEnv noon twoGroups Hinv))))))
           (renameDairy "Cheese")).
Defined.

(** ** Categories of others *)

Lemma DeleteOne_split : forall (A : Type) (f : A -> bool) l x,
  FindOne f l = Some x ->
  exists l1 l2,
    l = l1 ++ x :: l2 /\ Forall (fun d => f d = false) l1 /\
    fst (DeleteOne f l) = l1 ++ l2.
Proof.
  intros A f l x. unfold FindOne.
  induction l as [|d rest IH]; simpl; intros H; [discriminate|].
  destruct (f d) eqn:E.
  - injection H as ->. exists [], rest. auto.
  - destruct (IH H) as (l1 & l2 & Hl & Hl1 & Hd).
    destruct (DeleteOne f rest) as [rest' n]. simpl in *.
    exists (d :: l1), l2. rewrite Hd, Hl at 1. simpl. auto.
Qed.

(** The category handlers change, among the categories, at most one that
    the acting user may edit: a selection that leaves those out and does
    not look at names is the same before and after. *)
Lemma category_handlers_keep : forall env now db (keep : PantryCategory -> bool),
  (forall c name, keep (cat_with_Name c name) = keep c) ->
  (forall r : HttpRequest CreateCategoryRequest,
      (forall u c, actingUser r db = Some u ->
                   CanBeEditedBy c (user_ID u) (user_GroupID u) = true ->
                   keep c = false) ->
      List.filter keep
        (pantry_categories (snd (CreatePantryCategoryHandler env now r db)))
      = List.filter keep (pantry_categories db)) /\
  (forall r : HttpRequest UpdateCategoryRequest,
      (forall u c, actingUser r db = Some u ->
                   CanBeEditedBy c (user_ID u) (user_GroupID u) = true ->
                   keep c = false) ->
      List.filter keep
        (pantry_categories (snd (UpdatePantryCategoryHandler env r db)))
      = List.filter keep (pantry_categories db)) /\
  (forall r : HttpRequest unit,
      (forall u c, actingUser r db = Some u ->
                   CanBeEditedBy c (user_ID u) (user_GroupID u) = true ->
                   keep c = false) ->
      List.filter keep
        (pantry_categories (snd (DeletePantryCategoryHandler r db)))
      = List.filter keep (pantry_categories db)).
Proof.
  intros env now db keep Hname. repeat split; intros r Hkeep.
  - destruct (CreatePantryCategoryHandler env now r db) as [resp db'] eqn:E.
    simpl. apply CreatePantryCategoryHandler_cases in E.
    destruct E as [(msg & st & _ & ->)|E]; [reflexivity|].
    destruct E as (user & userID & request & matcher & Hact & Hid & _ & _ & _
                   & _ & _ & ->).
    simpl. rewrite filter_app. simpl.
    rewrite (Hkeep user _ Hact); [apply app_nil_r|].
    unfold CanBeEditedBy. simpl. apply N.eqb_refl.
  - destruct (UpdatePantryCategoryHandler env r db) as [resp db'] eqn:E.
    simpl. apply UpdatePantryCategoryHandler_cases in E.
    destruct E as [(msg & st & _ & ->)|E]; [reflexivity|].
    destruct E as (user & userID & categoryID & category & request & matcher
                   & Hact & Hid & _ & _ & _ & Hfind & Hperm & _ & _ & _ & ->).
    simpl. subst userID.
    destruct (FindOne_split _ (byID_category categoryID)
                (fun c => cat_with_Name c (TrimSpace (rename_Name request)))
                _ _ Hfind) as (l1 & l2 & Hl & _ & _ & Hu).
    rewrite Hu, Hl, !filter_app. simpl.
    now rewrite Hname, (Hkeep user category Hact Hperm).
  - destruct (DeletePantryCategoryHandler r db) as [resp db'] eqn:E. simpl.
    apply DeletePantryCategoryHandler_cases in E.
    destruct E as [(msg & st & _ & -> & _)|E]; [reflexivity|].
    destruct E as (user & userID & categoryID & category & Hact & Hid & _
                   & Hfind & Hperm & _ & _ & ->).
    simpl. subst userID.
    destruct (DeleteOne_split _ _ _ _ Hfind) as (l1 & l2 & Hl & _ & Hd).
    rewrite Hd, Hl, !filter_app. simpl.
    now rewrite (Hkeep user category Hact Hperm).
Qed.

(** X9. No request to create, rename or delete a category changes a
    predefined category, and none changes a category owned by a group
    other than the acting user's: the predefined categories of the store,
    and the categories of any such group, are the same documents in the
    same order afterwards. *)
Theorem categories_of_others_untouched : forall env now db,
  (forall r,
      List.filter IsPredefined
        (pantry_categories (snd (CreatePantryCategoryHandler env now r db)))
      = List.filter IsPredefined (pantry_categories db)) /\
  (forall r,
      List.filter IsPredefined
        (pantry_categories (snd (UpdatePantryCategoryHandler env r db)))
      = List.filter IsPredefined (pantry_categories db)) /\
  (forall r,
      List.filter IsPredefined
        (pantry_categories (snd (DeletePantryCategoryHandler r db)))
      = List.filter IsPredefined (pantry_categories db)) /\
  (forall g (r : HttpRequest CreateCategoryRequest),
      (forall u, actingUser r db = Some u -> user_GroupID u <> g) ->
      List.filter (ownedBy g)
        (pantry_categories (snd (CreatePantryCategoryHandler env now r db)))
      = List.filter (ownedBy g) (pantry_categories db)) /\
  (forall g (r : HttpRequest UpdateCategoryRequest),
      (forall u, actingUser r db = Some u -> user_GroupID u <> g) ->
      List.filter (ownedBy g)
        (pantry_categories (snd (UpdatePantryCategoryHandler env r db)))
      = List.filter (ownedBy g) (pantry_categories db)) /\
  (forall g (r : HttpRequest unit),
      (forall u, actingUser r db = Some u -> user_GroupID u <> g) ->
      List.filter (ownedBy g)
        (pantry_categories (snd (DeletePantryCategoryHandler r db)))
      = List.filter (ownedBy g) (pantry_categories db)).
Proof.
  intros env now db.
  assert (Hpre : forall (u : User) c,
            CanBeEditedBy c (user_ID u) (user_GroupID u) = true ->
            IsPredefined c = false).
  { intros u c. unfold CanBeEditedBy. now destruct (IsPredefined c). }
  assert (Hown : forall g (u : User) c,
            user_GroupID u <> g ->
            CanBeEditedBy c (user_ID u) (user_GroupID u) = true ->
            ownedBy g c = false).
  { intros g u c Hne. unfold CanBeEditedBy, ownedBy, groupIs.
    destruct (IsPredefined c); [discriminate|].
    destruct (cat_GroupID c) as [g'|]; [|discriminate].
    intros H. apply N.eqb_eq in H. subst g'. now apply N.eqb_neq. }
  destruct (category_handlers_keep env now db IsPredefined
              (fun c name => eq_refl)) as (Hc & Hu & Hd).
  split; [intros r; apply Hc; intros u c _; apply Hpre|].
  split; [intros r; apply Hu; intros u c _; apply Hpre|].
  split; [intros r; apply Hd; intros u c _; apply Hpre|].
  repeat split; intros g r Hother;
    destruct (category_handlers_keep env now db (ownedBy g)
                (fun c name => eq_refl)) as (Hc' & Hu' & Hd').
  - apply Hc'. intros u c Hact. apply Hown. now apply Hother.
  - apply Hu'. intros u c Hact. apply Hown. now apply Hother.
  - apply Hd'. intros u c Hact. apply Hown. now apply Hother.
Qed.

(** Bob, of the other group, asks to rename Alice's Dairy: her group's
    categories stay. *)
Lemma categories_of_others_untouched_witness :
  List.filter (ownedBy homeID)
    (pantry_categories
       (snd (UpdatePantryCategoryHandler goEnv
               (asBob "PUT" ("/api/pantry/categories/" ++ dairyHex)%string
                  (Some {| rename_Name := "Mine" |}))
               twoGroups))) = [dairy].
Proof.
  apply (proj1 (proj2 (proj2 (proj2 (proj2
           (categories_of_others_untouched goEnv noon twoGroups)))))
           homeID).
  intros u Hu. injection Hu as <-. discriminate.
Defined.

(** ** Category names *)

Lemma NoDup_insert_middle : forall (A : Type) (l1 l2 : list A) y,
  NoDup (l1 ++ l2) -> ~ In y (l1 ++ l2) -> NoDup (l1 ++ y :: l2).
Proof.
  intros A l1 l2 y Hnd Hy.
  apply (Permutation_NoDup (Permutation_middle l1 l2 y)).
  now constructor.
Qed.

Lemma lower_names_differ : forall name subject,
  equalIgnoringCase name subject = false ->
  lowerString subject <> lowerString name.
Proof.
  intros name subject H E. unfold equalIgnoringCase in H.
  rewrite E, String.eqb_refl in H. discriminate.
Qed.

Lemma visibleTo_renamed : forall g c name,
  visibleTo g (cat_with_Name c name) = visibleTo g c.
Proof. reflexivity. Qed.

(** A category the user may edit is seen by one group only, the user's. *)
Lemma editable_visible_to_own_group : forall c userID g g',
  CanBeEditedBy c userID g = true -> visibleTo g' c = true -> g' = g.
Proof.
  intros c userID g g'. unfold CanBeEditedBy, visibleTo, IsPredefined.
  destruct (cat_Type c); simpl; [discriminate|].
  unfold groupIs. destruct (cat_GroupID c) as [gc|]; [|discriminate].
  intros H1 H2. apply andb_true_iff in H2. destruct H2 as [_ H2].
  apply N.eqb_eq in H1, H2. congruence.
Qed.

(** The expressions of the model server accept what equals the escaped
    name up to case. *)
Lemma goEnv_escapedLookupComplete : escapedLookupComplete goEnv.
Proof.
  intros name matcher subject Hc Heq.
  pose proof (escaped_lookup_is_equality name subject) as H.
  unfold matchesPattern in H. rewrite Hc in H. rewrite H.
  unfold equalIgnoringCaseAnchored. now rewrite Heq.
Qed.

(** X10. Category names stay distinct: when the server's expression for an
    escaped name accepts every subject equal to it up to case, category
    ids are unique and no group sees two categories whose names are equal
    up to case, then no group does after a create, a rename or a delete
    either. *)
Theorem category_names_stay_distinct : forall env now db,
  escapedLookupComplete env ->
  uniqueCategoryIDs db ->
  (forall g, categoryNamesDistinct g db) ->
  (forall r g, categoryNamesDistinct g
                 (snd (CreatePantryCategoryHandler env now r db))) /\
  (forall r g, categoryNamesDistinct g
                 (snd (UpdatePantryCategoryHandler env r db))) /\
  (forall r g, categoryNamesDistinct g
                 (snd (DeletePantryCategoryHandler r db))).
Proof.
  intros env now db Hcomplete Huniq Hinv. repeat split; intros r g.
  - destruct (CreatePantryCategoryHandler env now r db) as [resp db'] eqn:E.
    simpl. apply CreatePantryCategoryHandler_cases in E.
    destruct E as [(msg & st & _ & ->)|E]; [apply Hinv|].
    destruct E as (user & userID & request & matcher & _ & _ & _ & _ & Hc
                   & Hnone & _ & ->).
    unfold categoryNamesDistinct. simpl. rewrite filter_app. simpl.
    set (name := TrimSpace (create_Name request)) in *.
    destruct (visibleTo g _) eqn:Hvis; [|rewrite app_nil_r; apply Hinv].
    assert (Hg : g = user_GroupID user).
    { unfold visibleTo in Hvis. simpl in Hvis.
      apply N.eqb_eq in Hvis. now symmetry. }
    subst g. rewrite map_app. simpl.
    apply NoDup_insert_middle; rewrite app_nil_r; [apply Hinv|].
    intros Hin. apply in_map_iff in Hin. destruct Hin as (c & Hlow & Hc').
    apply filter_In in Hc'. destruct Hc' as [Hcin Hcvis].
    pose proof (find_none _ _ Hnone c Hcin) as Hf. simpl in Hf.
    rewrite Hcvis, andb_true_r in Hf.
    destruct (equalIgnoringCase name (cat_Name c)) eqn:Heq.
    + rewrite (Hcomplete _ _ _ Hc Heq) in Hf. discriminate.
    + exact (lower_names_differ _ _ Heq Hlow).
  - destruct (UpdatePantryCategoryHandler env r db) as [resp db'] eqn:E.
    simpl. apply UpdatePantryCategoryHandler_cases in E.
    destruct E as [(msg & st & _ & ->)|E]; [apply Hinv|].
    destruct E as (user & userID & categoryID & category & request & matcher
                   & _ & _ & _ & _ & _ & Hfind & Hperm & Hc & Hnone & _ & ->).
    unfold categoryNamesDistinct. simpl.
    set (name := TrimSpace (rename_Name request)) in *.
    destruct (FindOne_split _ (byID_category categoryID)
                (fun c => cat_with_Name c name) _ _ Hfind)
      as (l1 & l2 & Hl & Hl1 & Hx & Hu).
    rewrite Hu. specialize (Hinv g). unfold categoryNamesDistinct in Hinv.
    rewrite Hl in Hinv. rewrite filter_app in *. simpl in *.
    rewrite visibleTo_renamed.
    destruct (visibleTo g category) eqn:Hvis; [|exact Hinv].
    rewrite (editable_visible_to_own_group _ _ _ _ Hperm Hvis) in *.
    rewrite map_app in *. simpl in *.
    apply NoDup_insert_middle; [exact (NoDup_remove_1 _ _ _ Hinv)|].
    intros Hin. rewrite <- map_app, <- filter_app in Hin.
    apply in_map_iff in Hin. destruct Hin as (c & Hlow & Hc').
    apply filter_In in Hc'. destruct Hc' as [Hcin Hcvis].
    assert (Hcid : byID_category categoryID c = false).
    { apply in_app_or in Hcin. destruct Hcin as [Hcin|Hcin].
      - exact (proj1 (Forall_forall _ _) Hl1 c Hcin).
      - unfold uniqueCategoryIDs in Huniq. rewrite Hl, map_app in Huniq.
        simpl in Huniq. apply NoDup_remove_2 in Huniq.
        unfold byID_category in *. apply N.eqb_eq in Hx.
        apply N.eqb_neq. intros Heq. apply Huniq.
        apply in_or_app. right. rewrite Hx, <- Heq. now apply in_map. }
    assert (Hcin' : In c (pantry_categories db)).
    { rewrite Hl. apply in_app_or in Hcin. apply in_or_app.
      destruct Hcin; [now left|right; now right]. }
    pose proof (find_none _ _ Hnone c Hcin') as Hf. simpl in Hf.
    rewrite Hcid, Hcvis, andb_true_r in Hf. simpl in Hf.
    destruct (equalIgnoringCase name (cat_Name c)) eqn:Heq.
    + rewrite (Hcomplete _ _ _ Hc Heq) in Hf. discriminate.
    + exact (lower_names_differ _ _ Heq Hlow).
  - destruct (DeletePantryCategoryHandler r db) as [resp db'] eqn:E. simpl.
    apply DeletePantryCategoryHandler_cases in E.
    destruct E as [(msg & st & _ & -> & _)|E]; [apply Hinv|].
    destruct E as (user & userID & categoryID & category & _ & _ & _
                   & Hfind & _ & _ & _ & ->).
    unfold categoryNamesDistinct. simpl.
    destruct (DeleteOne_split _ _ _ _ Hfind) as (l1 & l2 & Hl & _ & Hd).
    rewrite Hd. specialize (Hinv g). unfold categoryNamesDistinct in Hinv.
    rewrite Hl in Hinv. rewrite filter_app in *. simpl in Hinv.
    destruct (visibleTo g category); [|exact Hinv].
    rewrite map_app in *. simpl in Hinv.
    exact (NoDup_remove_1 _ _ _ Hinv).
Qed.

(** In the two groups' store, Alice's rename of Dairy to " produce " is
    refused and the names her group sees stay distinct. *)
Lemma category_names_stay_distinct_witness :
  isConflict
    (fst (UpdatePantryCategoryHandler goEnv (renameDairy " produce ")
            twoGroups)) = true /\
  categoryNamesDistinct homeID
    (snd (UpdatePantryCategoryHandler goEnv (renameDairy " produce ")
            twoGroups)).
Proof.
  split; [reflexivity|].
  assert (Huniq : uniqueCategoryIDs twoGroups).
  { constructor; [intros [H|[]]; discriminate H|].
    constructor; [intros []|constructor]. }
  assert (Hinv : forall g, categoryNamesDistinct g twoGroups).
  { intros g. unfold categoryNamesDistinct. cbn.
    destruct (match g with 0%N => false | N.pos q => _ end); cbn.
    - constructor; [intros [H|[]]; discriminate H|].
      constructor; [intros []|constructor].
    - constructor; [intros []|constructor]. }
  exact (proj1 (proj2 (category_names_stay_distinct goEnv noon twoGroups
                         goEnv_escapedLookupComplete Huniq Hinv))
           (renameDairy " produce ") homeID).
Defined.

(** ** Hex strings of ids *)

Lemma hexDigit_hexChar : forall d, (d < 16)%N -> hexDigit (hexChar d) = Some d.
Proof.
  intros d Hd.
  assert (H : (d = 0 \/ d = 1 \/ d = 2 \/ d = 3 \/ d = 4 \/ d = 5 \/ d = 6
               \/ d = 7 \/ d = 8 \/ d = 9 \/ d = 10 \/ d = 11 \/ d = 12
               \/ d = 13 \/ d = 14 \/ d = 15)%N) by lia.
  repeat (destruct H as [->|H]; [reflexivity|]). now subst.
Qed.

Lemma hexDigits_length : forall n v s,
  String.length (hexDigits n v s) = (n + String.length s)%nat.
Proof.
  induction n as [|n IH]; intros v s; simpl; [reflexivity|].
  rewrite IH. simpl. lia.
Qed.

Lemma hexValue_hexDigits : forall n v acc s,
  hexValue acc (hexDigits n v s) =
  hexValue (acc * 16 ^ N.of_nat n + v mod 16 ^ N.of_nat n)%N s.
Proof.
  induction n as [|n IH]; intros v acc s.
  - simpl. rewrite N.mod_1_r. f_equal. lia.
  - cbn [hexDigits]. rewrite IH. cbn [hexValue].
    rewrite hexDigit_hexChar by (apply N.mod_lt; lia).
    f_equal. rewrite Nat2N.inj_succ, N.pow_succ_r'.
    rewrite (N.Div0.mod_mul_r v 16 (16 ^ N.of_nat n)). lia.
Qed.

(** [ObjectIDFromHex] reads back what [Hex] writes. *)
Lemma ObjectIDFromHex_Hex : forall id,
  (id < objectIDBound)%N -> ObjectIDFromHex (Hex id) = Some id.
Proof.
  intros id Hid. unfold ObjectIDFromHex, Hex.
  rewrite hexDigits_length. cbn [Nat.add String.length Nat.eqb].
  rewrite hexValue_hexDigits. cbn [hexValue]. f_equal.
  rewrite N.mul_0_l, N.add_0_l. apply N.mod_small. exact Hid.
Qed.

Lemma FindOne_none_intro : forall (A : Type) (f : A -> bool) l,
  (forall x, In x l -> f x = false) -> FindOne f l = None.
Proof.
  intros A f l H. unfold FindOne.
  induction l as [|d rest IH]; simpl; [reflexivity|].
  rewrite (H d (or_introl eq_refl)). apply IH.
  intros x Hx. apply H. now right.
Qed.

(** ** Trimmed names *)

Lemma trimLeft_head : forall s,
  trimLeft s = EmptyString \/
  exists c rest, trimLeft s = String c rest /\ isSpace c = false.
Proof.
  induction s as [|c s IH]; simpl; [now left|].
  destruct (isSpace c) eqn:E; [exact IH|].
  right. exists c, s. auto.
Qed.

Lemma trimRight_head : forall c rest,
  isSpace c = false -> exists r, trimRight (String c rest) = String c r.
Proof.
  intros c rest Hc. simpl. rewrite Hc.
  destruct (trimRight rest); eauto.
Qed.

Lemma trimRight_idempotent : forall s, trimRight (trimRight s) = trimRight s.
Proof.
  induction s as [|c s IH]; [reflexivity|].
  simpl. destruct (trimRight s) as [|d r] eqn:E.
  - destruct (isSpace c) eqn:Ec; simpl; [reflexivity|]. now rewrite Ec.
  - cbn [trimRight]. cbn [trimRight] in IH. now rewrite IH.
Qed.

(** [strings.TrimSpace] leaves nothing more to trim. *)
Lemma TrimSpace_idempotent : forall s, TrimSpace (TrimSpace s) = TrimSpace s.
Proof.
  intros s. unfold TrimSpace.
  destruct (trimLeft_head s) as [E|(c & rest & E & Hc)]; rewrite E.
  - reflexivity.
  - destruct (trimRight_head c rest Hc) as (r & Er).
    rewrite Er at 1. cbn [trimLeft]. rewrite Hc, <- Er.
    apply trimRight_idempotent.
Qed.

(** ** Creating and renaming a category *)

(** X11. A category that has just been created can be used at once by its
    group and by no other: when the id the driver hands out is a 12-byte
    id that no category carries yet, a successful create stores a custom,
    active category for the user's group whose name is the name of the
    request body, trimmed (and not empty), and [validateCategoryID] on the
    hex form of its id then returns that category for the user's group and
    the not-accessible error for every other group. *)
Theorem created_category_is_usable :
  forall env now r db status body db' user,
  CreatePantryCategoryHandler env now r db = (HttpOK status body, db') ->
  actingUser r db = Some user ->
  (next_id db < objectIDBound)%N ->
  (forall c, In c (pantry_categories db) -> cat_ID c <> next_id db) ->
  exists category request,
    Body r = Some request /\
    cat_Name category = TrimSpace (create_Name request) /\
    cr_Data body = Some category /\
    pantry_categories db' = pantry_categories db ++ [category] /\
    cat_Type category = CategoryTypeCustom /\
    cat_IsActive category = true /\
    cat_GroupID category = Some (user_GroupID user) /\
    cat_CreatedBy category = Some (user_ID user) /\
    cat_Name category <> ""%string /\
    TrimSpace (cat_Name category) = cat_Name category /\
    validateCategoryID (Hex (cat_ID category)) (user_GroupID user) db'
      = inr category /\
    (forall g, g <> user_GroupID user ->
       validateCategoryID (Hex (cat_ID category)) g db'
       = inl "category not found or not accessible to this group"%string).
Proof.
  intros env now r db status body db' user H Hact Hbound Hfresh.
  apply CreatePantryCategoryHandler_cases in H.
  destruct H as [(msg & st & Habs & _)|H]; [discriminate|].
  destruct H as (user' & userID & request & matcher & Hact' & Hid & Hbody
                 & Hne & _ & _ & Hresp & ->).
  rewrite Hact in Hact'. injection Hact' as <-.
  injection Hresp as _ ->. subst userID.
  exists (cat_with_ID
            (CreateCustomCategory now (TrimSpace (create_Name request))
               (user_GroupID user) (user_ID user))
            (next_id db)), request.
  split; [exact Hbody|].
  split; [reflexivity|]. split; [reflexivity|]. simpl.
  split; [reflexivity|]. split; [reflexivity|]. split; [reflexivity|].
  split; [reflexivity|]. split; [reflexivity|]. split; [exact Hne|].
  split; [apply TrimSpace_idempotent|].
  assert (Hold : forall g,
            FindOne (fun c => byID_category (next_id db) c && visibleTo g c)
              (pantry_categories db) = None).
  { intros g. apply FindOne_none_intro. intros c Hc.
    unfold byID_category.
    assert (Hn : (cat_ID c =? next_id db)%N = false)
      by (apply N.eqb_neq; now apply Hfresh).
    now rewrite Hn. }
  split.
  - unfold validateCategoryID. rewrite (ObjectIDFromHex_Hex _ Hbound).
    simpl. rewrite FindOne_app, Hold. unfold FindOne. simpl.
    unfold byID_category, visibleTo. simpl. now rewrite !N.eqb_refl.
  - intros g Hg. unfold validateCategoryID.
    rewrite (ObjectIDFromHex_Hex _ Hbound).
    simpl. rewrite FindOne_app, Hold. unfold FindOne. simpl.
    unfold byID_category, visibleTo. simpl. rewrite N.eqb_refl. simpl.
    assert (Hn : (user_GroupID user =? g)%N = false)
      by (apply N.eqb_neq; congruence).
    now rewrite Hn.
Qed.

(** Alice creates " Spices ": her group can use it, Bob's cannot. *)
Lemma created_category_is_usable_witness :
  exists category,
    cat_Name category = "Spices"%string /\
    validateCategoryID (Hex (cat_ID category)) homeID
      (snd (CreatePantryCategoryHandler goEnv noon (createCategory " Spices ")
              twoGroups)) = inr category /\
    validateCategoryID (Hex (cat_ID category)) flatID
      (snd (CreatePantryCategoryHandler goEnv noon (createCategory " Spices ")
              twoGroups))
    = inl "category not found or not accessible to this group"%string.
Proof.
  destruct (created_category_is_usable goEnv noon (createCategory " Spices ")
              twoGroups 201%nat
              {| cr_Status := "success";
                 cr_Message := "Custom category created successfully";
                 cr_Data :=
                   Some (cat_with_ID
                           (CreateCustomCategory noon "Spices" homeID aliceID)
                           4096%N) |}
              (snd (CreatePantryCategoryHandler goEnv noon
                      (createCategory " Spices ") twoGroups))
              alice eq_refl eq_refl eq_refl)
    as (category & request & Hbody & _ & Hdata & _ & _ & _ & _ & _ & _ & _
        & Hown & Hother).
  - intros c [<-|[<-|[]]]; discriminate.
  - exists category. injection Hdata as <-.
    split; [reflexivity|]. split; [exact Hown|].
    apply Hother. discriminate.
Defined.

(** X12. A successful rename changes one thing only: the name of the
    category with the requested id becomes the trimmed, non-empty request
    name.  Every category document keeps its id, type, owner, creator,
    creation time and active flag, in the same order; the answer carries
    the stored category; items and their category references are not
    touched. *)
Theorem rename_changes_only_the_name :
  forall env r db status body db' request categoryID,
  UpdatePantryCategoryHandler env r db = (HttpOK status body, db') ->
  Body r = Some request ->
  ObjectIDFromHex (TrimPrefix (URLPath r) "/api/pantry/categories/")
    = Some categoryID ->
  map categoryIdentity (pantry_categories db')
    = map categoryIdentity (pantry_categories db) /\
  pantry_items db' = pantry_items db /\
  exists category,
    cr_Data body = Some category /\
    FindOne (byID_category categoryID) (pantry_categories db')
      = Some category /\
    cat_Name category = TrimSpace (rename_Name request) /\
    cat_Name category <> ""%string /\
    TrimSpace (cat_Name category) = cat_Name category /\
    (forall c, In c (pantry_categories db') ->
               c = category \/ In c (pantry_categories db)).
Proof.
  intros env r db status body db' request categoryID H Hb Hid.
  apply UpdatePantryCategoryHandler_cases in H.
  destruct H as [(msg & st & Habs & _)|H]; [discriminate|].
  destruct H as (user & userID & categoryID' & category & request' & matcher
                 & _ & _ & Hid' & Hb' & Hne & Hfind & _ & _ & _ & Hresp & ->).
  rewrite Hid in Hid'. injection Hid' as <-.
  rewrite Hb in Hb'. injection Hb' as <-.
  injection Hresp as _ ->. simpl.
  destruct (FindOne_split _ (byID_category categoryID)
              (fun c => cat_with_Name c (TrimSpace (rename_Name request)))
              _ _ Hfind) as (l1 & l2 & Hl & Hl1 & Hx & Hu).
  rewrite Hu, Hl.
  split; [now rewrite !map_app|]. split; [reflexivity|].
  eexists. split; [reflexivity|].
  split.
  { rewrite (FindOne_after_prefix _ _ _ _ Hl1). unfold FindOne. simpl.
    unfold byID_category in *. simpl. now rewrite Hx. }
  split; [reflexivity|]. split; [exact Hne|].
  split; [apply TrimSpace_idempotent|].
  intros c Hc. apply in_app_or in Hc. destruct Hc as [Hc|[<-|Hc]].
  - right. apply in_or_app. now left.
  - now left.
  - right. apply in_or_app. right. now right.
Qed.

(** Alice renames Dairy to "  Cheese ". *)
Lemma rename_changes_only_the_name_witness :
  map cat_Name
    (pantry_categories
       (snd (UpdatePantryCategoryHandler goEnv (renameDairy "  Cheese ")
               twoGroups))) = ["Produce"; "Cheese"]%string /\
  map categoryIdentity
    (pantry_categories
       (snd (UpdatePantryCategoryHandler goEnv (renameDairy "  Cheese ")
               twoGroups)))
  = map categoryIdentity (pantry_categories twoGroups).
Proof.
  split; [reflexivity|].
  exact (proj1 (rename_changes_only_the_name goEnv (renameDairy "  Cheese ")
                  twoGroups StatusOK
                  {| cr_Status := "success";
                     cr_Message := "Category updated successfully";
                     cr_Data := Some (cat_with_Name dairy "Cheese") |}
                  (snd (UpdatePantryCategoryHandler goEnv
                          (renameDairy "  Cheese ") twoGroups))
                  {| rename_Name := "  Cheese " |} dairyID
                  eq_refl eq_refl eq_refl)).
Defined.

(** ** The category listing *)

Lemma insertBy_perm : forall (A : Type) (leb : A -> A -> bool) x l,
  Permutation (insertBy leb x l) (x :: l).
Proof.
  intros A leb x l. induction l as [|y rest IH]; simpl; [reflexivity|].
  destruct (leb x y); [reflexivity|].
  rewrite IH. apply perm_swap.
Qed.

Lemma sortBy_perm : forall (A : Type) (leb : A -> A -> bool) l,
  Permutation (sortBy leb l) l.
Proof.
  intros A leb. induction l as [|x rest IH]; simpl; [constructor|].
  rewrite insertBy_perm. now constructor.
Qed.

Lemma sortBy_sorted : forall (A : Type) (leb : A -> A -> bool),
  (forall a b, leb a b = true \/ leb b a = true) ->
  (forall a b c, leb a b = true -> leb b c = true -> leb a c = true) ->
  forall l, StronglySorted (fun a b => leb a b = true) (sortBy leb l).
Proof.
  intros A leb Htotal Htrans.
  assert (Hins : forall x l,
            StronglySorted (fun a b => leb a b = true) l ->
            StronglySorted (fun a b => leb a b = true) (insertBy leb x l)).
  { intros x l. induction l as [|y rest IH]; simpl; intros Hs.
    - repeat constructor.
    - inversion Hs as [|? ? Hrest Hall]; subst.
      destruct (leb x y) eqn:E.
      + constructor; [exact Hs|]. constructor; [exact E|].
        eapply Forall_impl; [|exact Hall].
        intros z Hz. exact (Htrans _ _ _ E Hz).
      + constructor; [now apply IH|].
        apply Forall_forall. intros z Hz.
        apply (Permutation_in _ (insertBy_perm A leb x rest)) in Hz.
        destruct Hz as [<-|Hz].
        * destruct (Htotal x y) as [H|H]; [congruence|exact H].
        * exact (proj1 (Forall_forall _ _) Hall z Hz). }
  induction l as [|x rest IH]; simpl; [constructor|]. now apply Hins.
Qed.

(** The key of the category query, case by case: custom sorts before
    predefined (as strings), and within one type the names decide. *)
Lemma categoryKeyLeb_cases : forall a b,
  categoryKeyLeb a b =
  match cat_Type a, cat_Type b with
  | CategoryTypeCustom, CategoryTypePredefined => true
  | CategoryTypePredefined, CategoryTypeCustom => false
  | _, _ => String.leb (cat_Name a) (cat_Name b)
  end.
Proof.
  intros a b. unfold categoryKeyLeb.
  destruct (cat_Type a), (cat_Type b); reflexivity.
Qed.

Lemma categoryKeyLeb_total : forall a b,
  categoryKeyLeb a b = true \/ categoryKeyLeb b a = true.
Proof.
  intros a b. rewrite !categoryKeyLeb_cases.
  destruct (cat_Type a), (cat_Type b); auto using String.leb_total.
Qed.

Lemma categoryKeyLeb_trans : forall a b c,
  categoryKeyLeb a b = true -> categoryKeyLeb b c = true ->
  categoryKeyLeb a c = true.
Proof.
  intros a b c. rewrite !categoryKeyLeb_cases.
  destruct (cat_Type a), (cat_Type b), (cat_Type c);
    try discriminate; auto; apply String_leb_trans.
Qed.

(** Selecting the categories of one type from a list sorted by the key
    leaves them sorted by name. *)
Lemma sorted_by_name_within_type : forall (p : PantryCategory -> bool) l,
  (forall a b, p a = true -> p b = true -> cat_Type a = cat_Type b) ->
  StronglySorted (fun a b => categoryKeyLeb a b = true) l ->
  StronglySorted (fun a b => String.leb (cat_Name a) (cat_Name b) = true)
    (List.filter p l).
Proof.
  intros p l Hsame Hs. induction Hs as [|x rest Hrest IH Hall]; simpl.
  - constructor.
  - destruct (p x) eqn:Hx; [|exact IH].
    constructor; [exact IH|].
    apply Forall_forall. intros y Hy. apply filter_In in Hy.
    destruct Hy as [Hin Hpy].
    pose proof (proj1 (Forall_forall _ _) Hall y Hin) as Hk.
    cbv beta in Hk. rewrite categoryKeyLeb_cases, (Hsame x y Hx Hpy) in Hk.
    now destruct (cat_Type y).
Qed.

Lemma StronglySorted_map : forall (A B : Type) (R : B -> B -> Prop)
    (f : A -> B) l,
  StronglySorted (fun a b => R (f a) (f b)) l -> StronglySorted R (map f l).
Proof.
  intros A B R f l H. induction H as [|x rest Hrest IH Hall]; simpl.
  - constructor.
  - constructor; [exact IH|]. now apply Forall_map.
Qed.

Lemma filter_Permutation : forall (A : Type) (p : A -> bool) l l',
  Permutation l l' -> Permutation (List.filter p l) (List.filter p l').
Proof.
  intros A p l l' H. induction H as [|x l l' H IH|x y l|l l' l'' H1 IH1 H2 IH2];
    simpl.
  - constructor.
  - destruct (p x); [now constructor|exact IH].
  - destruct (p x), (p y); try reflexivity. apply perm_swap.
  - now transitivity (List.filter p l').
Qed.

Lemma filter_filter_and : forall (A : Type) (p q : A -> bool) l,
  List.filter p (List.filter q l) = List.filter (fun x => q x && p x) l.
Proof.
  intros A p q. induction l as [|x rest IH]; simpl; [reflexivity|].
  destruct (q x); simpl; [|exact IH].
  destruct (p x); now rewrite IH.
Qed.

(** The loop over the fetched categories splits them by type, in order. *)
Lemma extendCategories_fold : forall group db l predefined userDefined,
  fold_left (extendCategories group db) l (predefined, userDefined) =
  (predefined ++ map predefinedEntry (List.filter IsPredefined l),
   userDefined ++
   map (userDefinedEntry group db)
     (List.filter (fun c => negb (IsPredefined c)) l)).
Proof.
  intros group db. induction l as [|c rest IH]; intros p u; simpl.
  - now rewrite !app_nil_r.
  - destruct (IsPredefined c) eqn:E; simpl; rewrite IH;
      now rewrite <- app_assoc.
Qed.

(** X13. A successful category listing answers for the acting user's own
    group: the predefined list holds exactly the active predefined
    categories, the user-defined list exactly the active custom categories
    of the group, each category once and each list in ascending order of
    name; every user-defined entry carries the group's id and name.
    Inactive categories and categories of other groups are never
    listed. *)
Theorem category_listing_partitions_and_sorts : forall r db status response,
  GetPantryCategoriesHandler r db = HttpOK status response ->
  exists user group,
    actingUser r db = Some user /\
    FindOne (byName_group (Query r "group_name")) (groups db) = Some group /\
    group_ID group = user_GroupID user /\
    scr_GroupName response = group_Name group /\
    scr_GroupID response = Hex (group_ID group) /\
    Permutation
      (map (fun e => (cwc_ID e, cwc_Name e))
         (cbt_Predefined (scr_Categories response)))
      (map (fun c => (cat_ID c, cat_Name c))
         (List.filter (fun c => cat_IsActive c && IsPredefined c)
            (pantry_categories db))) /\
    Permutation
      (map (fun e => (cwc_ID e, cwc_Name e))
         (cbt_UserDefined (scr_Categories response)))
      (map (fun c => (cat_ID c, cat_Name c))
         (List.filter (fun c => cat_IsActive c && IsCustom c
                                && ownedBy (user_GroupID user) c)
            (pantry_categories db))) /\
    StronglySorted categoryNameLe (cbt_Predefined (scr_Categories response)) /\
    StronglySorted categoryNameLe (cbt_UserDefined (scr_Categories response)) /\
    Forall (fun e => cwc_GroupID e = Some (Hex (user_GroupID user)) /\
                     cwc_GroupName e = Some (group_Name group))
      (cbt_UserDefined (scr_Categories response)).
Proof.
  intros r db status response H. unfold GetPantryCategoriesHandler in H.
  destruct (String.eqb (Method r) "GET"); [|discriminate].
  destruct (Claims r) as [claims|] eqn:Ec; [|discriminate].
  destruct (String.eqb (Query r "group_name") ""); simpl in H; [discriminate|].
  destruct (ObjectIDFromHex (claims_ID claims)) as [userID|] eqn:Eu;
    [|discriminate].
  destruct (FindOne (byID_user userID) (users db)) as [user|] eqn:Efu;
    [|discriminate].
  destruct (FindOne (byName_group _) _) as [group|] eqn:Eg; [|discriminate].
  destruct (user_GroupID user =? group_ID group)%N eqn:Em; [|discriminate].
  rewrite extendCategories_fold in H. injection H as _ <-. simpl.
  set (g := user_GroupID user).
  set (sorted := sortBy categoryKeyLeb
                   (List.filter (visibleTo g) (pantry_categories db))).
  assert (Hsorted : StronglySorted (fun a b => categoryKeyLeb a b = true) sorted)
    by (apply sortBy_sorted;
        [apply categoryKeyLeb_total|apply categoryKeyLeb_trans]).
  assert (Hperm : Permutation sorted
                    (List.filter (visibleTo g) (pantry_categories db)))
    by apply sortBy_perm.
  assert (Hsel : forall (p q : PantryCategory -> bool),
            (forall c, visibleTo g c && p c = q c) ->
            Permutation (List.filter p sorted)
              (List.filter q (pantry_categories db))).
  { intros p q Hpq.
    rewrite (filter_Permutation _ p _ _ Hperm), filter_filter_and.
    erewrite filter_ext; [reflexivity|]. exact Hpq. }
  exists user, group.
  split; [exact (actingUser_found _ _ _ _ _ _ Ec Eu Efu)|].
  split; [reflexivity|]. apply N.eqb_eq in Em.
  split; [now symmetry|]. split; [reflexivity|]. split; [reflexivity|].
  split; [|split; [|split; [|split]]].
  - rewrite map_map. simpl.
    apply (Permutation_map (fun c => (cat_ID c, cat_Name c))).
    apply Hsel. intros c. unfold visibleTo, IsPredefined, g.
    destruct (cat_Type c), (cat_IsActive c),
      (groupIs (cat_GroupID c) (user_GroupID user)); reflexivity.
  - rewrite map_map. simpl.
    apply (Permutation_map (fun c => (cat_ID c, cat_Name c))).
    apply Hsel. intros c. unfold visibleTo, IsPredefined, IsCustom, ownedBy, g.
    destruct (cat_Type c), (cat_IsActive c),
      (groupIs (cat_GroupID c) (user_GroupID user)); reflexivity.
  - apply StronglySorted_map. unfold categoryNameLe. simpl.
    apply sorted_by_name_within_type; [|exact Hsorted].
    intros a b. unfold IsPredefined.
    destruct (cat_Type a), (cat_Type b); simpl; congruence.
  - apply StronglySorted_map. unfold categoryNameLe. simpl.
    apply sorted_by_name_within_type; [|exact Hsorted].
    intros a b. unfold IsPredefined.
    destruct (cat_Type a), (cat_Type b); simpl; congruence.
  - apply Forall_map. apply Forall_forall. intros c Hc.
    apply filter_In in Hc. destruct Hc as [Hin Hnp].
    apply (Permutation_in _ Hperm) in Hin.
    apply filter_In in Hin. destruct Hin as [_ Hvis].
    simpl. split; [|reflexivity].
    unfold visibleTo in Hvis. unfold IsPredefined in Hnp.
    destruct (cat_Type c); simpl in *; [discriminate|].
    apply andb_true_iff in Hvis. destruct Hvis as [_ Hvis].
    unfold groupIs in Hvis.
    destruct (cat_GroupID c) as [gc|]; [|discriminate].
    apply N.eqb_eq in Hvis. now subst gc.
Qed.

(** Alice's listing of the two groups' store. *)
Lemma category_listing_partitions_and_sorts_witness :
  exists response,
    GetPantryCategoriesHandler listCategoriesHome twoGroups
      = HttpOK StatusOK response /\
    map cwc_Name (cbt_Predefined (scr_Categories response))
      = ["Produce"]%string /\
    StronglySorted categoryNameLe (cbt_UserDefined (scr_Categories response)).
Proof.
  destruct (GetPantryCategoriesHandler listCategoriesHome twoGroups)
    as [msg st|st response] eqn:E; [discriminate|].
  exists response.
  destruct (category_listing_partitions_and_sorts listCategoriesHome
              twoGroups st response E)
    as (_ & _ & _ & _ & _ & _ & _ & _ & _ & _ & Hs & _).
  injection E as <- <-.
  split; [reflexivity|]. split; [reflexivity|exact Hs].
Defined.

(** ** The caches of the item listing *)

Lemma cacheGet_cachePut : forall (V : Type) k k' (v : V) m,
  cacheGet k (cachePut k' v m) = if (k' =? k)%N then Some v else cacheGet k m.
Proof.
  intros V k k' v m. unfold cacheGet, cachePut. simpl.
  now destruct (k' =? k)%N.
Qed.

(** What the loop keeps true of its two caches: an entry repeats what the
    store answers for its key. *)
Lemma extendItem_step : forall now db item response categoryCache userCache
    response' categoryCache' userCache',
  extendItem now db (response, categoryCache, userCache) item
    = (response', categoryCache', userCache') ->
  Forall (fun v => v = enrichItem now db (view_PantryItem v)) response ->
  (forall k c, cacheGet k categoryCache = Some c ->
     FindOne (byID_category k) (pantry_categories db) = Some c) ->
  (forall k n, cacheGet k userCache = Some n ->
     exists u, FindOne (byID_user k) (users db) = Some u /\ user_Name u = n) ->
  Forall (fun v => v = enrichItem now db (view_PantryItem v)) response' /\
  (forall k c, cacheGet k categoryCache' = Some c ->
     FindOne (byID_category k) (pantry_categories db) = Some c) /\
  (forall k n, cacheGet k userCache' = Some n ->
     exists u, FindOne (byID_user k) (users db) = Some u /\ user_Name u = n).
Proof.
  intros now db item response categoryCache userCache
    response' categoryCache' userCache' E Hresp Hcat Huser.
  unfold extendItem in E.
  assert (Hentry : forall info name,
            info = match FindOne (byID_category (item_CategoryID item))
                           (pantry_categories db) with
                   | Some c => categoryInfoOf c
                   | None => zeroCategoryInfo
                   end ->
            name = match FindOne (byID_user (item_AddedBy item)) (users db) with
                   | Some u => user_Name u
                   | None => ""%string
                   end ->
            Forall (fun v => v = enrichItem now db (view_PantryItem v))
              (response ++
               [{| view_PantryItem := item; view_CategoryInfo := info;
                   view_IsExpiringSoon := IsExpiringSoon now item 3;
                   view_IsExpired := IsExpired now item;
                   view_AddedByName := name |}])).
  { intros info name -> ->. apply Forall_app. split; [exact Hresp|].
    constructor; [reflexivity|constructor]. }
  assert (Hcat' : forall c,
            FindOne (byID_category (item_CategoryID item))
              (pantry_categories db) = Some c ->
            forall k c', cacheGet k
                           (cachePut (item_CategoryID item) c categoryCache)
                         = Some c' ->
            FindOne (byID_category k) (pantry_categories db) = Some c').
  { intros c Efc k c'. rewrite cacheGet_cachePut.
    destruct (item_CategoryID item =? k)%N eqn:Ek; [|apply Hcat].
    apply N.eqb_eq in Ek. subst k. intros [= <-]. exact Efc. }
  assert (Huser' : forall u,
            FindOne (byID_user (item_AddedBy item)) (users db) = Some u ->
            forall k n, cacheGet k
                          (cachePut (item_AddedBy item) (user_Name u) userCache)
                        = Some n ->
            exists u', FindOne (byID_user k) (users db) = Some u' /\
                       user_Name u' = n).
  { intros u Efu k n. rewrite cacheGet_cachePut.
    destruct (item_AddedBy item =? k)%N eqn:Ek; [|apply Huser].
    apply N.eqb_eq in Ek. subst k. intros [= <-]. now exists u. }
  destruct (cacheGet (item_CategoryID item) categoryCache) as [c|] eqn:Ecc;
    [|destruct (FindOne (byID_category (item_CategoryID item))
                  (pantry_categories db)) as [c|] eqn:Efc];
    (destruct (cacheGet (item_AddedBy item) userCache) as [n|] eqn:Euc;
      [|destruct (FindOne (byID_user (item_AddedBy item)) (users db))
          as [u|] eqn:Efu]);
    injection E as <- <- <-;
    (split; [apply Hentry|split]);
    try exact Hcat; try exact Huser;
    try (now apply Hcat'); try (now apply Huser');
    try (now rewrite (Hcat _ _ Ecc)); try reflexivity;
    try (destruct (Huser _ _ Euc) as (u' & -> & <-); reflexivity).
Qed.

Lemma extendItem_views : forall now db items response categoryCache userCache,
  Forall (fun v => v = enrichItem now db (view_PantryItem v)) response ->
  (forall k c, cacheGet k categoryCache = Some c ->
     FindOne (byID_category k) (pantry_categories db) = Some c) ->
  (forall k n, cacheGet k userCache = Some n ->
     exists u, FindOne (byID_user k) (users db) = Some u /\ user_Name u = n) ->
  Forall (fun v => v = enrichItem now db (view_PantryItem v))
    (fst (fst (fold_left (extendItem now db) items
                 (response, categoryCache, userCache)))).
Proof.
  intros now db. induction items as [|item rest IH];
    intros response categoryCache userCache Hresp Hcat Huser;
    cbn [fold_left].
  - exact Hresp.
  - destruct (extendItem now db (response, categoryCache, userCache) item)
      as [[response' categoryCache'] userCache'] eqn:E.
    destruct (extendItem_step _ _ _ _ _ _ _ _ _ E Hresp Hcat Huser)
      as (H1 & H2 & H3).
    now apply IH.
Qed.

(** X14. The caches of the item listing are transparent: in a successful
    listing every entry shows, next to its item, the name and type of the
    category that the store holds under the item's category id (empty when
    there is none), the name of the user who added it (empty when unknown)
    and the two expiry flags of the moment of the request, exactly as if
    each had been looked up for that item alone. *)
Theorem listing_views_match_store : forall now r db status response,
  GetPantryItemsHandler now r db = HttpOK status response ->
  Forall (fun v => v = enrichItem now db (view_PantryItem v)) response.
Proof.
  intros now r db status response H. unfold GetPantryItemsHandler in H.
  destruct (String.eqb (Method r) "GET"); [|discriminate].
  destruct (Claims r) as [claims|]; [|discriminate].
  destruct (String.eqb (Query r "group_name") ""); simpl in H; [discriminate|].
  destruct (FindOne (byName_group _) _) as [group|]; [|discriminate].
  destruct (ObjectIDFromHex (claims_ID claims)) as [userID|]; [|discriminate].
  destruct (FindOne (byID_user userID) (users db)) as [user|]; [|discriminate].
  destruct (user_GroupID user =? group_ID group)%N; [|discriminate].
  destruct (if String.eqb (Query r "category_id") "" then _ else _)
    as [filter|]; [|discriminate].
  assert (Hloop := extendItem_views now db (FindSorted filter (pantry_items db))
                     [] [] [] (Forall_nil _)).
  destruct (fold_left _ _ _) as [[response' categoryCache] userCache].
  injection H as _ <-. apply Hloop.
  - intros k c Hk. discriminate Hk.
  - intros k n Hk. discriminate Hk.
Qed.

(** Milk and butter share a category and a contributor: the second entry
    is served from the caches and still reads Dairy and Alice. *)
Lemma listing_views_match_store_witness :
  Forall (fun v => v = enrichItem noon (pantryWith [milk 2; butter])
                         (view_PantryItem v)) shelfListing /\
  map (fun v => (info_Name (view_CategoryInfo v), view_AddedByName v))
    shelfListing = [("Dairy", "Alice"); ("Dairy", "Alice")]%string.
Proof.
  split; [|reflexivity].
  exact (listing_views_match_store noon listHome
           (pantryWith [milk 2; butter]) StatusOK shelfListing eq_refl).
Defined.
